(** * A CRUD backend over a document store: database.py, schemas.py, main.py

    The development embeds the three Python modules of the repository:

    - [database.py]: the module-level handle [db] and the four
      document-access helpers;
    - [schemas.py]: the (empty) schema module;
    - [main.py]: the route handlers.

    Python values are a small tree type; dictionaries are association
    lists in insertion order, as Python dictionaries and BSON documents
    are.  Dictionary objects that are passed around by reference live on
    a heap, so that in-place assignment [d[k] = v] is visible through
    every alias.  The document-store driver, the clock, [str],
    [str.lower], [json.loads] and the framework's JSON encoder are not
    code of the repository: the driver is an interface ([Driver]), the
    others are fields of [Builtins]. *)

From Stdlib Require Import ZArith String Ascii List Lia Bool.
From stdpp Require Import base option gmap strings list fin_maps pretty.

Set Warnings "-register-all".

Open Scope string_scope.
Open Scope Z_scope.

(** ** Python values *)

(** bson.ObjectId, by the bytes it holds ([oid.binary]): twelve in an
    identifier that the driver made. *)
Record ObjectId := mkObjectId { binary : list N }.

(** The values that documents and JSON bodies are made of.  Floating
    point numbers are left out. *)
Inductive value :=
| VNone
| VBool (b : bool)
| VInt (n : Z)
| VStr (s : string)
| VDatetime (t : Z)
| VObjectId (o : ObjectId)
| VList (l : list value)
| VDict (d : list (string * value)).

(** A Python [dict] with string keys, in insertion order. *)
Abbreviation pydict := (list (string * value)).

Definition ObjectId_eq_dec (a b : ObjectId) : {a = b} + {a <> b}.
Proof. decide equality. apply (List.list_eq_dec N.eq_dec). Defined.

(** The last [len] bytes of [n], most significant first, before [acc]. *)
Fixpoint big_endian (len : nat) (n : N) (acc : list N) : list N :=
  match len with
  | O => acc
  | S len' => big_endian len' (n / 256)%N ((n mod 256)%N :: acc)
  end.

(** The twelve-byte identifier that spells the number [n]. *)
Definition oid (n : N) : ObjectId := mkObjectId (big_endian 12 n []).

Definition value_eq_dec : forall x y : value, {x = y} + {x <> y}.
Proof.
  fix IH 1.
  intros x y; destruct x, y; try (right; discriminate).
  - left; reflexivity.
  - destruct (Bool.bool_dec b b0); [left; congruence | right; congruence].
  - destruct (Z.eq_dec n n0); [left; congruence | right; congruence].
  - destruct (String.string_dec s s0); [left; congruence | right; congruence].
  - destruct (Z.eq_dec t t0); [left; congruence | right; congruence].
  - destruct (ObjectId_eq_dec o o0); [left; congruence | right; congruence].
  - destruct (List.list_eq_dec IH l l0); [left; congruence | right; congruence].
  - assert (Hp : forall p q : string * value, {p = q} + {p <> q}).
    { intros [k v] [k' v'].
      destruct (String.string_dec k k'); [| right; congruence].
      destruct (IH v v'); [left; congruence | right; congruence]. }
    destruct (List.list_eq_dec Hp d d0); [left; congruence | right; congruence].
Defined.

#[global] Instance value_eq_decision : EqDecision value := value_eq_dec.
#[global] Instance ObjectId_eq_decision : EqDecision ObjectId := ObjectId_eq_dec.

(** ** Dictionary operations *)

Module Dict.

(** [k in d] *)
Fixpoint has (k : string) (d : pydict) : bool :=
  match d with
  | [] => false
  | (k', _) :: d' => if String.eqb k k' then true else has k d'
  end.

(** [d.get(k)] *)
Fixpoint get (k : string) (d : pydict) : option value :=
  match d with
  | [] => None
  | (k', v) :: d' => if String.eqb k k' then Some v else get k d'
  end.

(** [d[k] = v]: an existing key keeps its position, a new key is
    appended. *)
Fixpoint set (k : string) (v : value) (d : pydict) : pydict :=
  match d with
  | [] => [(k, v)]
  | (k', v') :: d' =>
      if String.eqb k k' then (k', v) :: d' else (k', v') :: set k v d'
  end.

(** [d.get(k, dflt)] *)
Definition get_default (k : string) (dflt : value) (d : pydict) : value :=
  match get k d with Some v => v | None => dflt end.

(** [for k, v in upd.items(): d[k] = v] *)
Definition update (upd d : pydict) : pydict :=
  fold_left (fun acc kv => set (fst kv) (snd kv) acc) upd d.

End Dict.

(** ** Small pieces of the Python runtime *)

(** Truthiness of a string ([if s:]) and of an integer ([if n:]). *)
Definition str_truthy (s : string) : bool :=
  match s with EmptyString => false | String _ _ => true end.

Definition int_truthy (n : Z) : bool := negb (n =? 0).

(** The ASCII capitals of [s] replaced by their small letters, every
    other byte kept.  It serves to say that a text holds an ASCII
    capital: [ascii_lower s <> s]. *)
Definition lower_ascii (c : ascii) : ascii :=
  let n := nat_of_ascii c in
  if ((65 <=? n) && (n <=? 90))%nat then ascii_of_nat (n + 32) else c.

Fixpoint ascii_lower (s : string) : string :=
  match s with
  | EmptyString => EmptyString
  | String c s' => String (lower_ascii c) (ascii_lower s')
  end.

(** [s.startswith("_")] *)
Definition startswith_underscore (s : string) : bool :=
  match s with
  | String c _ => Ascii.eqb c "_"%char
  | EmptyString => false
  end.

(** [s[:n]] *)
Definition str_prefix (n : nat) (s : string) : string := String.substring 0 n s.

(** A hexadecimal digit, in either case. *)
Definition hex_digit (c : ascii) : option N :=
  let n := N_of_ascii c in
  if ((48 <=? n) && (n <=? 57))%N then Some (n - 48)%N
  else if ((97 <=? n) && (n <=? 102))%N then Some (n - 87)%N
  else if ((65 <=? n) && (n <=? 70))%N then Some (n - 55)%N
  else None.

(** ASCII white space: the space and the characters 9 to 13. *)
Definition is_space (c : ascii) : bool :=
  let n := N_of_ascii c in
  ((n =? 32) || ((9 <=? n) && (n <=? 13)))%N.

(** [bytes.fromhex(s)]: one byte per pair of hexadecimal digits; white
    space is skipped before a pair and at the end, not inside a pair.
    [None] where it raises [ValueError]. *)
Fixpoint fromhex (s : string) : option (list N) :=
  match s with
  | EmptyString => Some []
  | String c s' =>
      if is_space c then fromhex s'
      else
        match hex_digit c, s' with
        | Some top, String c' s'' =>
            match hex_digit c' with
            | Some bot => cons (16 * top + bot)%N <$> fromhex s''
            | None => None
            end
        | _, _ => None
        end
  end.

(** [bson.ObjectId(s)] for a string [s]: [s] must have 24 characters and
    [bytes.fromhex(s)] must read it, otherwise [InvalidId] is raised
    ([None] here).  How many bytes were read is not checked: 24 digits
    give twelve, white space between the pairs gives fewer.  (A
    character outside ASCII is refused by [fromhex] whatever the length,
    so counting bytes here and characters there decides alike.) *)
Definition ObjectId_of_str (s : string) : option ObjectId :=
  if (String.length s =? 24)%nat then mkObjectId <$> fromhex s else None.

(** ** Exceptions *)

(** The exception classes the handlers tell apart.  [Exception] stands
    for every other subclass of Python's [Exception]; all four are
    subclasses of it, so a clause [except Exception] catches each. *)
Inductive exn :=
| HTTPException (status_code : Z) (detail : string)
| ImportError (msg : string)
| JSONDecodeError (msg : string)
| Exception (msg : string).

(** [str(e)].  For [HTTPException] this is Starlette's
    ["{status_code}: {detail}"]. *)
Definition exn_str (e : exn) : string :=
  match e with
  | HTTPException c d => pretty c ++ ": " ++ d
  | ImportError m | JSONDecodeError m | Exception m => m
  end.

(** ** The document-store driver *)

(** Calls issued to the driver, with the arguments they were given. *)
Inductive call :=
| ListCollectionNames
| CountDocuments (coll : string) (flt : value)
| Find (coll : string) (flt : value) (skip limit : option Z)
| InsertOne (coll : string) (doc : pydict)
| UpdateOne (coll : string) (flt : value) (update : pydict)
| DeleteOne (coll : string) (flt : value).

Definition is_write (c : call) : bool :=
  match c with
  | InsertOne _ _ | UpdateOne _ _ _ | DeleteOne _ _ => true
  | _ => false
  end.

Record UpdateResult := { matched_count : Z; modified_count : Z }.
Record DeleteResult := { deleted_count : Z }.

(** What pymongo and the server behind it do is not specified here:
    every operation may fail with a message or answer, and the writes
    may change the server state [St]. *)
Class Driver (St : Type) := {
  (** [MongoClient(url)[name]]: the message of the exception, if any *)
  drv_connect : string -> string -> option string;
  drv_list_collection_names : St -> string + list string;
  drv_count_documents : string -> value -> St -> string + Z;
  drv_find : string -> value -> option Z -> option Z -> St -> string + list pydict;
  (** answers [inserted_id] *)
  drv_insert_one : string -> pydict -> St -> (string + value) * St;
  drv_update_one : string -> value -> pydict -> St -> (string + UpdateResult) * St;
  drv_delete_one : string -> value -> St -> (string + DeleteResult) * St
}.

(** What [json.loads(s)] does: it returns a value, raises
    [JSONDecodeError], or raises another exception ([RecursionError] on
    a text nested too deep, [ValueError] on an integer with too many
    digits). *)
Inductive decoding :=
| Decoded (v : value)
| Undecodable (msg : string)
| DecoderRaised (msg : string).

(** [str], [s.lower()], [json.loads], the framework's serialisation of a
    returned value, and [datetime.now(timezone.utc)].  [jsonable v]
    tells whether FastAPI can encode and render [v] as JSON;
    [utcnow n] is the [n]-th reading of the clock since the process
    started. *)
Class Builtins := {
  py_str : value -> string;
  lower : string -> string;
  json_loads : string -> decoding;
  jsonable : value -> bool;
  utcnow : nat -> Z
}.

(** ** The state of a running process, and computations over it *)

(** A reference to a dictionary object. *)
Abbreviation loc := nat.

Record world (St : Type) := World {
  heap : list pydict;     (* dictionary objects, by reference *)
  ticks : nat;            (* clock readings taken so far *)
  store : St;              (* the state behind the driver *)
  calls : list call;      (* driver calls issued so far, oldest first *)
  stdout : list string    (* lines printed so far *)
}.
Arguments World {St}.
Arguments heap {St}.
Arguments ticks {St}.
Arguments store {St}.
Arguments calls {St}.
Arguments stdout {St}.

(** A computation either raises or returns, and leaves a new state. *)
Definition M (St A : Type) : Type := world St -> (exn + A) * world St.

#[global] Instance M_ret {St} : MRet (M St) := fun A x w => (inr x, w).
#[global] Instance M_bind {St} : MBind (M St) := fun A B f m w =>
  match m w with
  | (inr x, w') => f x w'
  | (inl e, w') => (inl e, w')
  end.

Section Computations.
Context {St : Type}.

Definition raise {A} (e : exn) : M St A := fun w => (inl e, w).

(** [try: m  except ... as e: h e] *)
Definition try_except {A} (m : M St A) (h : exn -> M St A) : M St A := fun w =>
  match m w with
  | (inr x, w') => (inr x, w')
  | (inl e, w') => h e w'
  end.

(** Lift a library result that may have raised. *)
Definition lift {A} (r : exn + A) : M St A := fun w => (r, w).

(** A new dictionary object holding [d]. *)
Definition alloc (d : pydict) : M St loc := fun w =>
  (inr (length (heap w)),
   World (heap w ++ [d]) (ticks w) (store w) (calls w) (stdout w)).

(** The contents of the object behind [r].  Python has no reference to
    no object; here such a reference raises. *)
Definition load (r : loc) : M St pydict := fun w =>
  match heap w !! r with
  | Some d => (inr d, w)
  | None => (inl (Exception "dangling reference"), w)
  end.

(** [r[k] = v] *)
Definition setitem (r : loc) (k : string) (v : value) : M St unit := fun w =>
  match heap w !! r with
  | Some d =>
      (inr tt, World (<[r := Dict.set k v d]> (heap w)) (ticks w) (store w)
                     (calls w) (stdout w))
  | None => (inl (Exception "dangling reference"), w)
  end.

(** [print(line)] *)
Definition print (line : string) : M St unit := fun w =>
  (inr tt, World (heap w) (ticks w) (store w) (calls w) (stdout w ++ [line])).

(** [datetime.now(timezone.utc)] *)
Definition now `{Builtins} : M St Z := fun w =>
  (inr (utcnow (ticks w)),
   World (heap w) (S (ticks w)) (store w) (calls w) (stdout w)).

(** [for x in xs: ...], collecting the results. *)
Fixpoint for_each {A B} (f : A -> M St B) (xs : list A) : M St (list B) :=
  match xs with
  | [] => mret []
  | x :: xs' => y ← f x; ys ← for_each f xs'; mret (y :: ys)
  end.

Definition of_driver {A} (r : string + A) : exn + A :=
  match r with inl m => inl (Exception m) | inr x => inr x end.

(** A driver call that reads: it is recorded, the store stays. *)
Definition driver_read {A} (c : call) (op : St -> string + A) : M St A := fun w =>
  (of_driver (op (store w)),
   World (heap w) (ticks w) (store w) (calls w ++ [c]) (stdout w)).

(** A driver call that writes. *)
Definition driver_write {A} (c : call) (op : St -> (string + A) * St) : M St A :=
  fun w =>
    let '(r, s') := op (store w) in
    (of_driver r, World (heap w) (ticks w) s' (calls w ++ [c]) (stdout w)).

Context `{Driver St}.

(** [db.list_collection_names()] *)
Definition list_collection_names : M St (list string) :=
  driver_read ListCollectionNames drv_list_collection_names.

(** [db[coll].count_documents(flt)] *)
Definition count_documents (coll : string) (flt : value) : M St Z :=
  driver_read (CountDocuments coll flt) (drv_count_documents coll flt).

(** [list(db[coll].find(flt).skip(skip).limit(limit))], where a missing
    [skip] or [limit] stands for a cursor on which it was not set. *)
Definition find (coll : string) (flt : value) (skip limit : option Z)
  : M St (list pydict) :=
  driver_read (Find coll flt skip limit) (drv_find coll flt skip limit).

(** [db[coll].insert_one(doc).inserted_id] for the dictionary object
    [doc].  pymongo stores the identifier in the object it was handed
    when that has no ["_id"] yet. *)
Definition insert_one (coll : string) (doc : loc) : M St value :=
  d ← load doc;
  inserted_id ← driver_write (InsertOne coll d) (drv_insert_one coll d);
  (if Dict.has "_id" d then mret tt else setitem doc "_id" inserted_id);;
  mret inserted_id.

(** [db[coll].update_one(flt, update)] *)
Definition update_one (coll : string) (flt : value) (update : pydict)
  : M St UpdateResult :=
  driver_write (UpdateOne coll flt update) (drv_update_one coll flt update).

(** [db[coll].delete_one(flt)] *)
Definition delete_one (coll : string) (flt : value) : M St DeleteResult :=
  driver_write (DeleteOne coll flt) (drv_delete_one coll flt).

End Computations.

(** ** Pydantic models *)

(** An instance of a model: its fields, and those given explicitly when
    it was built. *)
Record model_instance := {
  field_values : pydict;
  fields_set : list string
}.

(** [m.model_dump()] *)
Definition model_dump (m : model_instance) : pydict := field_values m.

(** [m.model_dump(exclude_unset=True)] *)
Definition model_dump_exclude_unset (m : model_instance) : pydict :=
  List.filter (fun kv => bool_decide (fst kv ∈ fields_set m)) (field_values m).

(** The argument type [Union[BaseModel, dict]]; a [dict] is passed by
    reference. *)
Inductive data_arg :=
| DataModel (m : model_instance)
| DataDict (r : loc).

(** What [cls.model_validate(document)] does: return, or raise an
    exception whose [errors()] (the empty list when it has none) is
    given. *)
Inductive validation :=
| Validated
| Rejected (errors : list value).

(** A class object, as far as the handlers look at it. *)
Record pyclass := {
  issubclass_BaseModel : bool;     (* issubclass(obj, BaseModel) *)
  is_BaseModel : bool;             (* obj is BaseModel *)
  model_validate : pydict -> validation;
  model_json_schema : string + pydict;
  model_fields : list string       (* obj.model_fields.keys() *)
}.

(** A member of a module: [inspect.isclass] holds of the first form. *)
Inductive pyobj :=
| PyClass (c : pyclass)
| PyOther.

(** ** database.py *)

(** The handle [_client[database_name]]. *)
Record Database := { name : string }.

Module database.
Section database.
Context {St : Type} `{Driver St} `{Builtins}.

(** The module body, run at import: its outcome is the exception that
    escaped, or the value bound to [db].  [environ] is the process
    environment after [load_dotenv()]. *)
Definition import_module (environ : gmap string string) : exn + option Database :=
  let database_url := environ !! "DATABASE_URL" in
  let database_name := environ !! "DATABASE_NAME" in
  match database_url, database_name with
  | Some url, Some nm =>
      if str_truthy url && str_truthy nm then
        match drv_connect url nm with
        | Some err => inl (Exception err)
        | None => inr (Some {| name := nm |})
        end
      else inr None
  | _, _ => inr None
  end.

(** The module global [db]. *)
Variable db : option Database.

Definition create_document (collection_name : string) (data : data_arg)
  : M St string :=
  match db with
  | None =>
      raise (Exception "Database not available. Check DATABASE_URL and DATABASE_NAME environment variables.")
  | Some _ =>
      data_dict ← match data with
                  | DataModel m => alloc (model_dump m)
                  | DataDict r => d ← load r; alloc d
                  end;
      t ← now;
      setitem data_dict "created_at" (VDatetime t);;
      t ← now;
      setitem data_dict "updated_at" (VDatetime t);;
      inserted_id ← insert_one collection_name data_dict;
      mret (py_str inserted_id)
  end.

Definition get_documents (collection_name : string)
    (filter_dict : option pydict) (limit : option Z) : M St (list pydict) :=
  match db with
  | None =>
      raise (Exception "Database not available. Check DATABASE_URL and DATABASE_NAME environment variables.")
  | Some _ =>
      find collection_name (VDict (default [] filter_dict)) None
           (match limit with
            | Some n => if int_truthy n then Some n else None
            | None => None
            end)
  end.

Definition update_document (collection_name : string) (filter_dict : pydict)
    (update_data : data_arg) : M St bool :=
  match db with
  | None =>
      raise (Exception "Database not available. Check DATABASE_URL and DATABASE_NAME environment variables.")
  | Some _ =>
      update_dict ← match update_data with
                    | DataModel m => alloc (model_dump_exclude_unset m)
                    | DataDict r => d ← load r; alloc d
                    end;
      t ← now;
      setitem update_dict "updated_at" (VDatetime t);;
      u ← load update_dict;
      result ← update_one collection_name (VDict filter_dict) [("$set", VDict u)];
      mret (0 <? modified_count result)
  end.

Definition delete_document (collection_name : string) (filter_dict : pydict)
  : M St bool :=
  match db with
  | None => raise (Exception "Database not initialized. Call enable-database first.")
  | Some _ =>
      result ← delete_one collection_name (VDict filter_dict);
      mret (0 <? deleted_count result)
  end.

End database.
End database.

(** ** schemas.py *)

(** The module body is a docstring and one more string literal, so
    [inspect.getmembers(schemas)] lists only the attributes every
    module has, none of them a class. *)
Module schemas.
Definition members : list (string * pyobj) :=
  [("__builtins__", PyOther); ("__cached__", PyOther); ("__doc__", PyOther);
   ("__file__", PyOther); ("__loader__", PyOther); ("__name__", PyOther);
   ("__package__", PyOther); ("__spec__", PyOther)].
End schemas.

(** ** A deployment *)

(** The process environment, and what [import schemas] followed by
    [inspect.getmembers(schemas)] gives: an exception, or the members
    sorted by name.  The second field lets a user's own [schemas.py]
    stand in for the shipped one. *)
Record App := {
  environ : gmap string string;
  schemas_module : exn + list (string * pyobj)
}.

Definition shipped (env : gmap string string) : App :=
  {| environ := env; schemas_module := inr schemas.members |}.

(** Truthiness of a value ([if v:], [not v]). *)
Definition truthy (v : value) : bool :=
  match v with
  | VNone => false
  | VBool b => b
  | VInt n => int_truthy n
  | VStr s => str_truthy s
  | VDatetime _ | VObjectId _ => true
  | VList l => negb (bool_decide (l = []))
  | VDict d => negb (bool_decide (d = []))
  end.

(** ** main.py *)

Module main.
Section main.
Context {St : Type} `{Driver St} `{Builtins}.
Variable app : App.

(** [from database import db]: the import raises what the module body
    raised. *)
Definition from_database_import_db : M St (option Database) :=
  lift (database.import_module (environ app)).

(** [import schemas; inspect.getmembers(schemas)] *)
Definition import_schemas : M St (list (string * pyobj)) :=
  lift (schemas_module app).

(** [v[k]] on the value of a dictionary display *)
Definition getitem (v : value) (k : string) : M St value :=
  match v with
  | VDict d =>
      match Dict.get k d with
      | Some x => mret x
      | None => raise (Exception ("'" ++ k ++ "'"))
      end
  | _ => raise (Exception "object is not subscriptable")
  end.

(** [v.get(k, dflt)] *)
Definition get_or (v : value) (k : string) (dflt : value) : value :=
  match v with
  | VDict d => Dict.get_default k dflt d
  | _ => dflt
  end.

(** The clauses [except HTTPException: raise] and
    [except Exception as e: raise HTTPException(500, prefix + str(e))]. *)
Definition reraise_or_500 {A} (prefix : string) (e : exn) : M St A :=
  match e with
  | HTTPException _ _ => raise e
  | _ => raise (HTTPException 500 (prefix ++ exn_str e))
  end.

Definition read_root : M St value :=
  mret (VDict [("message", VStr "Hello from FastAPI Backend!")]).

Definition hello : M St value :=
  mret (VDict [("message", VStr "Hello from the backend API!")]).

Definition getenv_truthy (k : string) : bool :=
  match environ app !! k with Some v => str_truthy v | None => false end.

Definition test_database : M St value :=
  let response :=
    [("backend", VStr "✅ Running");
     ("database", VStr "❌ Not Available");
     ("database_url", VNone);
     ("database_name", VNone);
     ("connection_status", VStr "Not Connected");
     ("collections", VList [])] in
  response ←
    try_except
      (db ← from_database_import_db;
       match db with
       | Some d =>
           let response := Dict.set "database" (VStr "✅ Available") response in
           let response := Dict.set "database_url" (VStr "✅ Configured") response in
           let response := Dict.set "database_name" (VStr (name d)) response in
           let response := Dict.set "connection_status" (VStr "Connected") response in
           try_except
             (collections ← list_collection_names;
              let response :=
                Dict.set "collections" (VList (VStr <$> take 10 collections)) response in
              mret (Dict.set "database" (VStr "✅ Connected & Working") response))
             (fun e =>
                mret (Dict.set "database"
                        (VStr ("⚠️  Connected but Error: " ++ str_prefix 50 (exn_str e)))
                        response))
       | None =>
           mret (Dict.set "database" (VStr "⚠️  Available but not initialized") response)
       end)
      (fun e =>
         match e with
         | ImportError _ =>
             mret (Dict.set "database"
                     (VStr "❌ Database module not found (run enable-database first)")
                     response)
         | _ =>
             mret (Dict.set "database"
                     (VStr ("❌ Error: " ++ str_prefix 50 (exn_str e))) response)
         end);
  let response :=
    Dict.set "database_url"
      (VStr (if getenv_truthy "DATABASE_URL" then "✅ Set" else "❌ Not Set")) response in
  let response :=
    Dict.set "database_name"
      (VStr (if getenv_truthy "DATABASE_NAME" then "✅ Set" else "❌ Not Set")) response in
  mret (VDict response).

(** The test on a member that both reflective loops share. *)
Definition pydantic_model (obj : pyobj) : option pyclass :=
  match obj with
  | PyClass c =>
      if issubclass_BaseModel c && negb (is_BaseModel c) then Some c else None
  | PyOther => None
  end.

(** The body of the inner [try] of [get_all_schemas]. *)
Definition schema_entry (c : pyclass) : string + value :=
  match model_json_schema c with
  | inl e => inl e
  | inr js =>
      inr (VDict [("json_schema", VDict js);
                  ("fields", VList (VStr <$> model_fields c));
                  ("required_fields", Dict.get_default "required" (VList []) js)])
  end.

Fixpoint collect_schemas (members : list (string * pyobj)) (schemas_dict : pydict)
  : M St pydict :=
  match members with
  | [] => mret schemas_dict
  | (nm, obj) :: rest =>
      match pydantic_model obj with
      | Some c =>
          if negb (startswith_underscore nm) then
            match schema_entry c with
            | inr entry => collect_schemas rest (Dict.set nm entry schemas_dict)
            | inl e =>
                print ("Error processing schema " ++ nm ++ ": " ++ e);;
                collect_schemas rest schemas_dict
            end
          else collect_schemas rest schemas_dict
      | None => collect_schemas rest schemas_dict
      end
  end.

Definition get_all_schemas : M St value :=
  try_except
    (members ← import_schemas;
     schemas_dict ← collect_schemas members [];
     mret (VDict [("ok", VBool true); ("schemas", VDict schemas_dict)]))
    (fun e =>
       match e with
       | ImportError _ =>
           raise (HTTPException 400 "Schemas module not found. Define schemas in schemas.py")
       | _ => raise (HTTPException 500 ("Error loading schemas: " ++ exn_str e))
       end).

Definition list_collections : M St value :=
  try_except
    (db ← from_database_import_db;
     match db with
     | None => raise (HTTPException 503 "Database not connected")
     | Some _ =>
         collections ← list_collection_names;
         collections_info ←
           for_each (fun col_name =>
                       count ← count_documents col_name (VDict []);
                       mret (VDict [("name", VStr col_name); ("count", VInt count)]))
                    collections;
         mret (VDict [("ok", VBool true); ("collections", VList collections_info)])
     end)
    (fun e => raise (HTTPException 500 ("Error listing collections: " ++ exn_str e))).

(** [if "_id" in doc: doc["_id"] = str(doc["_id"])] *)
Definition stringify_id (doc : pydict) : pydict :=
  match Dict.get "_id" doc with
  | Some v => Dict.set "_id" (VStr (py_str v)) doc
  | None => doc
  end.

Definition get_collection_documents (collection_name : string)
    (limit skip : Z) (filter : option string) : M St value :=
  try_except
    (db ← from_database_import_db;
     match db with
     | None => raise (HTTPException 503 "Database not connected")
     | Some _ =>
         names ← list_collection_names;
         if negb (bool_decide (collection_name ∈ names)) then
           raise (HTTPException 404 ("Collection '" ++ collection_name ++ "' not found"))
         else
           let limit := Z.min limit 1000 in
           filter_dict ←
             match filter with
             | Some f =>
                 if str_truthy f then
                   match json_loads f with
                   | Decoded v => mret v
                   | Undecodable _ => raise (HTTPException 400 "Invalid filter JSON")
                   | DecoderRaised m => raise (Exception m)
                   end
                 else mret (VDict [])
             | None => mret (VDict [])
             end;
           total ← count_documents collection_name filter_dict;
           documents ← find collection_name filter_dict (Some skip) (Some limit);
           let documents := stringify_id <$> documents in
           mret (VDict [("ok", VBool true);
                        ("collection", VStr collection_name);
                        ("documents", VList (VDict <$> documents));
                        ("total", VInt total);
                        ("limit", VInt limit);
                        ("skip", VInt skip)])
     end)
    (reraise_or_500 "Error fetching documents: ").

(** The loop that fills [schema_map]: a later member replaces an
    earlier one with the same lowercased name. *)
Definition build_schema_map (members : list (string * pyobj)) : gmap string pyclass :=
  fold_left
    (fun schema_map '(nm, obj) =>
       match pydantic_model obj with
       | Some c => <[lower nm := c]> schema_map
       | None => schema_map
       end)
    members ∅.

Definition validate_document (collection_name : string) (document : loc)
  : M St value :=
  try_except
    (members ← import_schemas;
     let schema_map := build_schema_map members in
     match schema_map !! collection_name with
     | None =>
         mret (VDict [("ok", VBool true);
                      ("valid", VBool true);
                      ("message",
                       VStr "No schema defined for this collection, skipping validation")])
     | Some schema_class =>
         d ← load document;
         match model_validate schema_class d with
         | Validated => mret (VDict [("ok", VBool true); ("valid", VBool true)])
         | Rejected errors =>
             mret (VDict [("ok", VBool true);
                          ("valid", VBool false);
                          ("errors", VList errors)])
         end
     end)
    (fun e => raise (HTTPException 500 ("Error validating document: " ++ exn_str e))).

Definition create_document (collection_name : string) (document : loc)
  : M St value :=
  try_except
    (db ← from_database_import_db;
     match db with
     | None => raise (HTTPException 503 "Database not connected")
     | Some _ =>
         validation ← validate_document collection_name document;
         valid ← getitem validation "valid";
         if negb (truthy valid) then
           raise (HTTPException 400
                    ("Validation failed: " ++ py_str (get_or validation "errors" (VList []))))
         else
           doc_id ← database.create_document db collection_name (DataDict document);
           mret (VDict [("ok", VBool true);
                        ("id", VStr doc_id);
                        ("message", VStr ("Document created in " ++ collection_name))])
     end)
    (reraise_or_500 "Error creating document: ").

Definition update_document (collection_name doc_id : string) (document : loc)
  : M St value :=
  try_except
    (db ← from_database_import_db;
     match db with
     | None => raise (HTTPException 503 "Database not connected")
     | Some _ =>
         validation ← validate_document collection_name document;
         valid ← getitem validation "valid";
         if negb (truthy valid) then
           raise (HTTPException 400
                    ("Validation failed: " ++ py_str (get_or validation "errors" (VList []))))
         else
           match ObjectId_of_str doc_id with
           | None => raise (HTTPException 400 "Invalid document ID format")
           | Some obj_id =>
               success ← database.update_document db collection_name
                           [("_id", VObjectId obj_id)] (DataDict document);
               if negb success then raise (HTTPException 404 "Document not found")
               else
                 mret (VDict [("ok", VBool true);
                              ("message",
                               VStr ("Document " ++ doc_id ++ " updated in "
                                     ++ collection_name))])
           end
     end)
    (reraise_or_500 "Error updating document: ").

Definition delete_document (collection_name doc_id : string) : M St value :=
  try_except
    (db ← from_database_import_db;
     match db with
     | None => raise (HTTPException 503 "Database not connected")
     | Some _ =>
         match ObjectId_of_str doc_id with
         | None => raise (HTTPException 400 "Invalid document ID format")
         | Some obj_id =>
             success ← database.delete_document db collection_name
                         [("_id", VObjectId obj_id)];
             if negb success then raise (HTTPException 404 "Document not found")
             else
               mret (VDict [("ok", VBool true);
                            ("message",
                             VStr ("Document " ++ doc_id ++ " deleted from "
                                   ++ collection_name))])
         end
     end)
    (reraise_or_500 "Error deleting document: ").

End main.
End main.

(** ** The framework around the handlers *)

(** A request, after routing and parameter conversion: a query parameter
    that was not given is [None], a body is the decoded JSON object. *)
Inductive request :=
| GET_root
| GET_api_hello
| GET_test
| GET_schemas
| GET_collections
| GET_collection (collection_name : string) (limit skip : option Z)
                 (filter : option string)
| POST_validate (collection_name : string) (document : pydict)
| POST_create (collection_name : string) (document : pydict)
| PUT_document (collection_name doc_id : string) (document : pydict)
| DELETE_document (collection_name doc_id : string).

Record response := { status : Z; body : value }.

Section Serving.
Context {St : Type} `{Driver St} `{Builtins}.
Variable app : App.

(** The server's plain-text answer to an exception that nothing
    handled: its body is the text, not a JSON object, and there is no
    [detail]. *)
Definition internal_server_error : response :=
  {| status := 500; body := VStr "Internal Server Error" |}.

(** A returned value is serialised and sent with status 200; when the
    framework cannot serialise it, the encoder's exception is handled by
    nothing and the server answers 500 in plain text.  An
    [HTTPException] becomes its status and [{"detail": detail}]; any
    other exception that leaves a handler is answered 500 in plain text
    too.  What the framework answers before a handler runs, to a request
    whose parameters or body it cannot convert (422), is left out: a
    [request] is one that was converted. *)
Definition respond (r : exn + value) : response :=
  match r with
  | inr v => if jsonable v then {| status := 200; body := v |}
             else internal_server_error
  | inl (HTTPException c d) => {| status := c; body := VDict [("detail", VStr d)] |}
  | inl _ => internal_server_error
  end.

(** The handler of a request, applied to its parameters with their
    declared defaults; a body is a fresh dictionary object. *)
Definition dispatch (req : request) : M St value :=
  match req with
  | GET_root => main.read_root
  | GET_api_hello => main.hello
  | GET_test => main.test_database app
  | GET_schemas => main.get_all_schemas app
  | GET_collections => main.list_collections app
  | GET_collection c limit skip filter =>
      main.get_collection_documents app c (default 100 limit) (default 0 skip) filter
  | POST_validate c d => document ← alloc d; main.validate_document app c document
  | POST_create c d => document ← alloc d; main.create_document app c document
  | PUT_document c i d => document ← alloc d; main.update_document app c i document
  | DELETE_document c i => main.delete_document app c i
  end.

Definition serve (req : request) (w : world St) : response * world St :=
  let '(r, w') := dispatch req w in (respond r, w').

End Serving.

(** The endpoints under [/api/database]. *)
Definition database_endpoint (req : request) : bool :=
  match req with
  | GET_root | GET_api_hello | GET_test => false
  | _ => true
  end.

(** ** A reference driver and runtime

    One inhabitant of each interface, used to run the handlers on
    concrete requests.  The store keeps its collections in memory; a
    filter matches a document when every field of the filter is found in
    it with an equal value (MongoDB's equality match), [update_one]
    understands [{"$set": ...}], and [modified_count] counts the
    documents the update really changed.  The theorems below that do not
    mention [MemStore] hold for every driver. *)

Module MemStore.

Record t := {
  collections : list (string * list pydict);
  next_id : N
}.

Definition docs_of (coll : string) (s : t) : list pydict :=
  default [] (snd <$> List.find (fun c => String.eqb (fst c) coll) (collections s)).

Fixpoint put_docs (coll : string) (docs : list pydict)
    (cs : list (string * list pydict)) : list (string * list pydict) :=
  match cs with
  | [] => [(coll, docs)]
  | (c, ds) :: cs' =>
      if String.eqb c coll then (c, docs) :: cs' else (c, ds) :: put_docs coll docs cs'
  end.

Definition matches (flt doc : pydict) : bool :=
  forallb (fun kv => bool_decide (Dict.get (fst kv) doc = Some (snd kv))) flt.

(** Replace the first document that satisfies [p] by [f] of it. *)
Fixpoint alter_first (p : pydict -> bool) (f : pydict -> option pydict)
    (docs : list pydict) : option (pydict * list pydict) :=
  match docs with
  | [] => None
  | d :: docs' =>
      if p d then
        Some (d, match f d with Some d' => d' :: docs' | None => docs' end)
      else
        match alter_first p f docs' with
        | Some (hit, docs'') => Some (hit, d :: docs'')
        | None => None
        end
  end.

Definition list_collection_names (s : t) : string + list string :=
  inr (fst <$> collections s).

Definition count_documents (coll : string) (flt : value) (s : t) : string + Z :=
  match flt with
  | VDict f => inr (Z.of_nat (length (List.filter (matches f) (docs_of coll s))))
  | _ => inl "filter must be an instance of dict"
  end.

Definition find (coll : string) (flt : value) (skip limit : option Z) (s : t)
  : string + list pydict :=
  match flt with
  | VDict f =>
      let sk := default 0 skip in
      if sk <? 0 then inl "skip must be >= 0"
      else
        let hits := drop (Z.to_nat sk) (List.filter (matches f) (docs_of coll s)) in
        inr (match limit with
             | Some n => if n =? 0 then hits else take (Z.abs_nat n) hits
             | None => hits
             end)
  | _ => inl "filter must be an instance of dict"
  end.

Definition insert_one (coll : string) (doc : pydict) (s : t)
  : (string + value) * t :=
  let '(id, doc', next) :=
    match Dict.get "_id" doc with
    | Some v => (v, doc, next_id s)
    | None =>
        let v := VObjectId (oid (next_id s)) in
        (v, ("_id", v) :: doc, N.succ (next_id s))
    end in
  if existsb (matches [("_id", id)]) (docs_of coll s) then
    (inl "E11000 duplicate key error", s)
  else
    (inr id,
     {| collections := put_docs coll (docs_of coll s ++ [doc']) (collections s);
        next_id := next |}).

Definition update_one (coll : string) (flt : value) (update : pydict) (s : t)
  : (string + UpdateResult) * t :=
  match flt, update with
  | VDict f, [("$set", VDict u)] =>
      match alter_first (matches f) (fun d => Some (Dict.update u d)) (docs_of coll s) with
      | Some (old, docs') =>
          if bool_decide (Dict.update u old = old) then
            (inr {| matched_count := 1; modified_count := 0 |}, s)
          else
            (inr {| matched_count := 1; modified_count := 1 |},
             {| collections := put_docs coll docs' (collections s);
                next_id := next_id s |})
      | None => (inr {| matched_count := 0; modified_count := 0 |}, s)
      end
  | VDict _, _ => (inl "update only works with $ operators", s)
  | _, _ => (inl "filter must be an instance of dict", s)
  end.

Definition delete_one (coll : string) (flt : value) (s : t)
  : (string + DeleteResult) * t :=
  match flt with
  | VDict f =>
      match alter_first (matches f) (fun _ => None) (docs_of coll s) with
      | Some (_, docs') =>
          (inr {| deleted_count := 1 |},
           {| collections := put_docs coll docs' (collections s);
              next_id := next_id s |})
      | None => (inr {| deleted_count := 0 |}, s)
      end
  | _ => (inl "filter must be an instance of dict", s)
  end.

(** [s] occurs in [t]. *)
Fixpoint occurs (s t : string) : bool :=
  String.prefix s t
  || match t with
     | String _ t' => occurs s t'
     | EmptyString => false
     end.

(** The characters pymongo refuses in a database name, in the order
    it looks for them, each with its [repr]. *)
Definition invalid_name_chars : list (string * string) :=
  [(" ", "' '"); (".", "'.'"); ("$", "'$'"); ("/", "'/'"); ("\", "'\\'");
   (String "000"%char EmptyString, "'\x00'");
   (String "034"%char EmptyString,
    String "'"%char (String "034"%char (String "'"%char EmptyString)))].

(** [MongoClient(url)[nm]]: a text with a scheme must have one of the
    two MongoDB schemes, anything else is taken as a host name; the
    database name, unless it is ["$external"], must hold none of the
    characters above. *)
Definition connect (url nm : string) : option string :=
  if occurs "://" url
     && negb (String.prefix "mongodb://" url || String.prefix "mongodb+srv://" url)
  then Some "Invalid URI scheme: URI must begin with 'mongodb://' or 'mongodb+srv://'"
  else if String.eqb nm "$external" then None
  else
    match List.find (fun c => occurs (fst c) nm) invalid_name_chars with
    | Some c => Some ("database names cannot contain the character " ++ snd c)
    | None => None
    end.

#[global] Instance driver : Driver t := {|
  drv_connect := connect;
  drv_list_collection_names := list_collection_names;
  drv_count_documents := count_documents;
  drv_find := find;
  drv_insert_one := insert_one;
  drv_update_one := update_one;
  drv_delete_one := delete_one
|}.

End MemStore.

(** A driver that cannot reach its server: every operation raises. *)
Module Unreachable.

Definition msg : string := "localhost:27017: [Errno 111] Connection refused".

#[global] Instance driver : Driver unit := {|
  drv_connect := fun _ _ => None;
  drv_list_collection_names := fun _ => inl msg;
  drv_count_documents := fun _ _ _ => inl msg;
  drv_find := fun _ _ _ _ _ => inl msg;
  drv_insert_one := fun _ _ s => (inl msg, s);
  drv_update_one := fun _ _ _ s => (inl msg, s);
  drv_delete_one := fun _ _ s => (inl msg, s)
|}.

End Unreachable.

(** A decoder for the part of JSON that [value] can hold: objects,
    arrays, strings without escape sequences, integers, [true], [false]
    and [null].  It stands for [json.loads] in the examples, which use
    no other text: a number with a fraction or an exponent and a string
    with an escape sequence, which [json.loads] reads, are outside
    [value] and are refused here. *)
Module Json.

Definition is_ws (c : ascii) : bool :=
  let n := nat_of_ascii c in
  ((n =? 32) || (n =? 9) || (n =? 10) || (n =? 13))%nat.

Fixpoint skip_ws (s : string) : string :=
  match s with
  | String c r => if is_ws c then skip_ws r else s
  | EmptyString => s
  end.

(** After the opening quote: the characters up to the closing one. *)
Fixpoint read_string (s : string) : option (string * string) :=
  match s with
  | EmptyString => None
  | String c r =>
      if Ascii.eqb c "034"%char then Some (EmptyString, r)
      else if Ascii.eqb c "\"%char then None
      else match read_string r with
           | Some (body, rest) => Some (String c body, rest)
           | None => None
           end
  end.

Definition digit (c : ascii) : option Z :=
  let n := nat_of_ascii c in
  if ((48 <=? n) && (n <=? 57))%nat then Some (Z.of_nat n - 48) else None.

Fixpoint read_digits (s : string) (acc : Z) : Z * string :=
  match s with
  | String c r =>
      match digit c with
      | Some d => read_digits r (10 * acc + d)
      | None => (acc, s)
      end
  | EmptyString => (acc, s)
  end.

Definition read_int (s : string) : option (Z * string) :=
  let '(neg, s1) :=
    match s with
    | String "-"%char r => (true, r)
    | _ => (false, s)
    end in
  match s1 with
  | String c r =>
      match digit c with
      | Some d =>
          let '(n, rest) := read_digits s1 0 in
          let leading_zero :=
            (d =? 0) && match r with
                        | String c' _ => bool_decide (is_Some (digit c'))
                        | EmptyString => false
                        end in
          if leading_zero then None
          else
            match rest with
            | String "."%char _ | String "e"%char _ | String "E"%char _ => None
            | _ => Some (if neg then - n else n, rest)
            end
      | None => None
      end
  | EmptyString => None
  end.

Definition after (p s : string) : string :=
  String.substring (String.length p) (String.length s - String.length p) s.

Section Containers.
Variable parse_value : string -> option (value * string).

(** At the start of an element, after ["["] or [","]. *)
Fixpoint parse_elements (fuel : nat) (s : string) (acc : list value)
  : option (value * string) :=
  match fuel with
  | O => None
  | S fuel' =>
      match parse_value s with
      | Some (v, r) =>
          match skip_ws r with
          | String ","%char r' => parse_elements fuel' r' (acc ++ [v])
          | String "]"%char r' => Some (VList (acc ++ [v]), r')
          | _ => None
          end
      | None => None
      end
  end.

(** At the start of a member, after ["{"] or [","]. *)
Fixpoint parse_members (fuel : nat) (s : string) (acc : pydict)
  : option (value * string) :=
  match fuel with
  | O => None
  | S fuel' =>
      match skip_ws s with
      | String "034"%char r =>
          match read_string r with
          | Some (k, r1) =>
              match skip_ws r1 with
              | String ":"%char r2 =>
                  match parse_value r2 with
                  | Some (v, r3) =>
                      match skip_ws r3 with
                      | String ","%char r' => parse_members fuel' r' (Dict.set k v acc)
                      | String "}"%char r' => Some (VDict (Dict.set k v acc), r')
                      | _ => None
                      end
                  | None => None
                  end
              | _ => None
              end
          | None => None
          end
      | _ => None
      end
  end.
End Containers.

Fixpoint parse_value (fuel : nat) (s : string) : option (value * string) :=
  match fuel with
  | O => None
  | S fuel' =>
      match skip_ws s with
      | EmptyString => None
      | String c r as s' =>
          if Ascii.eqb c "{"%char then
            match skip_ws r with
            | String "}"%char r' => Some (VDict [], r')
            | _ => parse_members (parse_value fuel') fuel' r []
            end
          else if Ascii.eqb c "["%char then
            match skip_ws r with
            | String "]"%char r' => Some (VList [], r')
            | _ => parse_elements (parse_value fuel') fuel' r []
            end
          else if Ascii.eqb c "034"%char then
            match read_string r with
            | Some (body, rest) => Some (VStr body, rest)
            | None => None
            end
          else if String.prefix "true" s' then Some (VBool true, after "true" s')
          else if String.prefix "false" s' then Some (VBool false, after "false" s')
          else if String.prefix "null" s' then Some (VNone, after "null" s')
          else match read_int s' with
               | Some (n, rest) => Some (VInt n, rest)
               | None => None
               end
      end
  end.

Definition loads (s : string) : option value :=
  match parse_value (S (String.length s)) s with
  | Some (v, rest) =>
      match skip_ws rest with
      | EmptyString => Some v
      | _ => None
      end
  | None => None
  end.

End Json.

(** [str] on the values whose text is plain: [None], booleans, integers,
    strings and object identifiers (two hexadecimal digits per byte).
    The examples need no other; a datetime or a container is shown by
    its kind. *)
Module Str.

Definition hex_char (d : N) : ascii :=
  if (d <? 10)%N then ascii_of_N (48 + d) else ascii_of_N (87 + d).

(** [s.lower()] for a text whose letters are ASCII or Latin-1, in UTF-8:
    an ASCII capital becomes its small letter, and so does the second
    byte of a capital from U+00C0 to U+00DE (the multiplication sign
    U+00D7 apart), which follows the byte 195. *)
Fixpoint lower_from (after_195 : bool) (s : string) : string :=
  match s with
  | EmptyString => EmptyString
  | String c s' =>
      let n := nat_of_ascii c in
      String (if (after_195 && (128 <=? n) && (n <=? 158) && negb (n =? 151))%nat
              then ascii_of_nat (n + 32) else lower_ascii c)
             (lower_from (n =? 195)%nat s')
  end.

Definition lower (s : string) : string := lower_from false s.

(** [binascii.hexlify]: two digits per byte. *)
Fixpoint hexlify (bs : list N) : string :=
  match bs with
  | [] => EmptyString
  | b :: bs' => String (hex_char (b / 16)%N) (String (hex_char (b mod 16)%N) (hexlify bs'))
  end.

Definition str (v : value) : string :=
  match v with
  | VNone => "None"
  | VBool true => "True"
  | VBool false => "False"
  | VInt n => pretty n
  | VStr s => s
  | VObjectId o => hexlify (binary o)
  | VDatetime _ => "<datetime>"
  | VList [] => "[]"
  | VList _ => "<list>"
  | VDict [] => "{}"
  | VDict _ => "<dict>"
  end.

End Str.

(** The clock of the examples ticks once a second. *)
Definition sample_clock (n : nat) : Z := 1700000000000 + 1000 * Z.of_nat n.

(** Of the values of this development the framework's encoder refuses
    an [ObjectId], at any depth, and nothing else. *)
Fixpoint holds_object_id (v : value) : bool :=
  match v with
  | VObjectId _ => true
  | VList l => existsb holds_object_id l
  | VDict d => existsb (fun kv => holds_object_id (snd kv)) d
  | _ => false
  end.

#[global] Instance sample_builtins : Builtins := {|
  py_str := Str.str;
  lower := Str.lower;
  json_loads := fun s =>
    match Json.loads s with
    | Some v => Decoded v
    | None => Undecodable "Expecting value"
    end;
  jsonable := fun v => negb (holds_object_id v);
  utcnow := sample_clock
|}.

(** A quoted JSON string: the text of [s] between two quotation marks. *)
Definition quoted (s : string) : string :=
  String "034"%char (s ++ String "034"%char EmptyString).

(** ** A sample deployment *)

Module Sample.

Definition john : pydict :=
  [("_id", VObjectId (oid 1));
   ("email", VStr "john@example.com");
   ("status", VStr "active");
   ("updated_at", VDatetime 1700000000000)].

Definition store0 : MemStore.t :=
  {| MemStore.collections := [("users", [john])]; MemStore.next_id := 2 |}.

Definition w0 : world MemStore.t := World [] 0%nat store0 [] [].

Definition env : gmap string string :=
  {[ "DATABASE_URL" := "mongodb://localhost:27017"; "DATABASE_NAME" := "appdb" ]}.

Definition db0 : Database := {| name := "appdb" |}.

(** A request body, and a world in which it is the object [0]. *)
Definition body : pydict :=
  [("email", VStr "ann@example.com"); ("status", VStr "active")].

Definition w1 : world MemStore.t := World [body] 0%nat store0 [] [].

(** The same process in front of a server that is down. *)
Definition w_down : world unit := World [] 0%nat tt [] [].

(** An environment in which [DATABASE_URL] is set, to nothing. *)
Definition env_empty_url : gmap string string :=
  {[ "DATABASE_URL" := ""; "DATABASE_NAME" := "appdb" ]}.

(** An environment without [DATABASE_NAME]. *)
Definition env_no_name : gmap string string :=
  {[ "DATABASE_URL" := "mongodb://localhost:27017" ]}.

(** The repository as shipped, configured. *)
Definition app : App := shipped env.

(** A [schemas.py] to which a user has added
    [class Account(BaseModel): email: str]. *)
Definition Account : pyclass :=
  {| issubclass_BaseModel := true;
     is_BaseModel := false;
     model_validate := fun d =>
       match Dict.get "email" d with
       | Some (VStr _) => Validated
       | Some _ => Rejected [VDict [("type", VStr "string_type"); ("loc", VList [VStr "email"])]]
       | None => Rejected [VDict [("type", VStr "missing"); ("loc", VList [VStr "email"])]]
       end;
     model_json_schema :=
       inr [("properties", VDict [("email", VDict [("type", VStr "string")])]);
            ("required", VList [VStr "email"]);
            ("title", VStr "Account");
            ("type", VStr "object")];
     model_fields := ["email"] |}.

Definition BaseModel : pyclass :=
  {| issubclass_BaseModel := true;
     is_BaseModel := true;
     model_validate := fun _ => Validated;
     model_json_schema := inr [];
     model_fields := [] |}.

Definition app_with_schema : App :=
  {| environ := env;
     schemas_module :=
       inr (("Account", PyClass Account) :: ("BaseModel", PyClass BaseModel)
            :: schemas.members) |}.

(** The first page of [users], as the sample deployment serves it. *)
Definition users_page : value :=
  Eval vm_compute in
    match (dispatch app (GET_collection "users" None None None) w0).1 with
    | inr v => v
    | inl _ => VNone
    end.

Definition users_page_world : world MemStore.t :=
  Eval vm_compute in (dispatch app (GET_collection "users" None None None) w0).2.

End Sample.

(** ** What the helpers hand to the driver *)

Section Payloads.
Context `{Builtins}.

(** The dictionary a [data] argument stands for: the dump of a model,
    or the contents of the dictionary object. *)
Definition payload (data : data_arg) (h : list pydict) : option pydict :=
  match data with
  | DataModel m => Some (model_dump m)
  | DataDict r => h !! r
  end.

Definition update_payload (data : data_arg) (h : list pydict) : option pydict :=
  match data with
  | DataModel m => Some (model_dump_exclude_unset m)
  | DataDict r => h !! r
  end.

(** [d] with both stamps, the clock having been read [n] times. *)
Definition stamped_for_insert (d : pydict) (n : nat) : pydict :=
  Dict.set "updated_at" (VDatetime (utcnow (S n)))
    (Dict.set "created_at" (VDatetime (utcnow n)) d).

Definition stamped_for_update (d : pydict) (n : nat) : pydict :=
  Dict.set "updated_at" (VDatetime (utcnow n)) d.

End Payloads.

(** Whether a call carries an [updated_at] field among its arguments. *)
Definition carries_timestamp (c : call) : bool :=
  match c with
  | InsertOne _ doc => Dict.has "updated_at" doc
  | UpdateOne _ _ [("$set", VDict u)] => Dict.has "updated_at" u
  | Find _ (VDict f) _ _ | DeleteOne _ (VDict f) | CountDocuments _ (VDict f) =>
      Dict.has "updated_at" f
  | _ => false
  end.

(** ** The handlers, step by step

    Pure descriptions of what the handlers compute, proved equal to the
    handlers further down. *)

(** What the clauses [except HTTPException: raise] and
    [except Exception as e: raise HTTPException(500, ...)] make of an
    exception. *)
Definition to_500 (prefix : string) (e : exn) : exn :=
  match e with
  | HTTPException _ _ => e
  | _ => HTTPException 500 (prefix ++ exn_str e)
  end.

(** The outcome of [validate_document]: no schema for the collection,
    the schema accepts, the schema rejects, or something raised. *)
Inductive verdict :=
| Skipped
| Passed
| Failed (errors : list value)
| Broken (e : exn).

Definition verdict_of `{Builtins} (app : App) (collection_name : string)
    (body : option pydict) : verdict :=
  match schemas_module app with
  | inl e => Broken e
  | inr members =>
      match main.build_schema_map members !! collection_name with
      | None => Skipped
      | Some schema_class =>
          match body with
          | None => Broken (Exception "dangling reference")
          | Some d =>
              match model_validate schema_class d with
              | Validated => Passed
              | Rejected errors => Failed errors
              end
          end
      end
  end.

(** What [validate_document] answers in each case. *)
Definition validation_answer (v : verdict) : exn + value :=
  match v with
  | Skipped =>
      inr (VDict [("ok", VBool true); ("valid", VBool true);
                  ("message",
                   VStr "No schema defined for this collection, skipping validation")])
  | Passed => inr (VDict [("ok", VBool true); ("valid", VBool true)])
  | Failed errors =>
      inr (VDict [("ok", VBool true); ("valid", VBool false); ("errors", VList errors)])
  | Broken e => inl (HTTPException 500 ("Error validating document: " ++ exn_str e))
  end.

(** Whether the write of [create] or [update] is reached. *)
Definition admits (v : verdict) : bool :=
  match v with Skipped | Passed => true | _ => false end.

(** One round of the loop in [validate_document] that fills
    [schema_map]. *)
Definition schema_step `{Builtins} (schema_map : gmap string pyclass)
    (member : string * pyobj) : gmap string pyclass :=
  let '(nm, obj) := member in
  match main.pydantic_model obj with
  | Some c => <[lower nm := c]> schema_map
  | None => schema_map
  end.

(** The filter that [get_collection_documents] queries with: what
    [json.loads] makes of a non-empty parameter, an empty dictionary
    otherwise. *)
Definition decode_filter `{Builtins} (filter : option string) : decoding :=
  match filter with
  | Some f => if str_truthy f then json_loads f else Decoded (VDict [])
  | None => Decoded (VDict [])
  end.

(** [doc] is [fetched] with the value of [_id], if it has one, replaced
    by [str] of it: the same keys in the same order, and every other
    value as it was. *)
Definition id_as_string `{Builtins} (fetched doc : pydict) : Prop :=
  doc.*1 = fetched.*1
  /\ (forall k, k <> "_id" -> Dict.get k doc = Dict.get k fetched)
  /\ Dict.get "_id" doc = (fun v => VStr (py_str v)) <$> Dict.get "_id" fetched.

(** The world after a driver call has been recorded. *)
Definition called {St} (c : call) (w : world St) : world St :=
  World (heap w) (ticks w) (store w) (calls w ++ [c]) (stdout w).

(** The world after the framework has decoded a request body. *)
Definition with_body {St} (d : pydict) (w : world St) : world St :=
  World (heap w ++ [d]) (ticks w) (store w) (calls w) (stdout w).

(** The statuses the handlers use for errors. *)
Definition documented_status (c : Z) : Prop :=
  c = 400 \/ c = 404 \/ c = 500 \/ c = 503.

(** An outcome that is a return or an [HTTPException] with one of those
    statuses: nothing else escapes. *)
Definition well_reported (r : exn + value) : Prop :=
  match r with
  | inr _ => True
  | inl (HTTPException c _) => documented_status c
  | inl _ => False
  end.

(** The answer of [PUT] and [DELETE] when nothing was modified. *)
Definition not_found : response :=
  {| status := 404; body := VDict [("detail", VStr "Document not found")] |}.

(** The requests whose handler looks at [db]. *)
Definition checks_db (req : request) : bool :=
  match req with
  | GET_collections | GET_collection _ _ _ _ | POST_create _ _
  | PUT_document _ _ _ | DELETE_document _ _ => true
  | _ => false
  end.

(** An operation that the handler of [req] reaches, and that belongs
    to a library or to the environment, raises: the import of
    [database] or [schemas], one of the driver calls, or [json.loads]
    with an exception that is not a [JSONDecodeError]. *)
Section Unexpected.
Context {St : Type} `{Driver St} `{Builtins}.
Variables (app : App) (w : world St).

Definition db_handle (h : Database) : Prop :=
  database.import_module (environ app) = inr (Some h).

Inductive unexpected_exception : request -> Prop :=
| database_import_raises e req :
    database.import_module (environ app) = inl e ->
    checks_db req = true ->
    unexpected_exception req
| schemas_import_raises e :
    schemas_module app = inl e ->
    (forall m, e <> ImportError m) ->
    unexpected_exception GET_schemas
| validation_raises e coll d :
    verdict_of app coll (Some d) = Broken e ->
    unexpected_exception (POST_validate coll d)
| validation_raises_in_create h e coll d :
    db_handle h ->
    verdict_of app coll (Some d) = Broken e ->
    unexpected_exception (POST_create coll d)
| validation_raises_in_update h e coll doc_id d :
    db_handle h ->
    verdict_of app coll (Some d) = Broken e ->
    unexpected_exception (PUT_document coll doc_id d)
| list_names_raises h m :
    db_handle h ->
    drv_list_collection_names (store w) = inl m ->
    unexpected_exception GET_collections
| count_raises h names n m :
    db_handle h ->
    drv_list_collection_names (store w) = inr names ->
    n ∈ names ->
    drv_count_documents n (VDict []) (store w) = inl m ->
    unexpected_exception GET_collections
| list_names_raises_in_get h m coll limit skip filter :
    db_handle h ->
    drv_list_collection_names (store w) = inl m ->
    unexpected_exception (GET_collection coll limit skip filter)
| decoder_raises_in_get h names m coll limit skip filter :
    db_handle h ->
    drv_list_collection_names (store w) = inr names ->
    coll ∈ names ->
    decode_filter filter = DecoderRaised m ->
    unexpected_exception (GET_collection coll limit skip filter)
| count_raises_in_get h names f m coll limit skip filter :
    db_handle h ->
    drv_list_collection_names (store w) = inr names ->
    coll ∈ names ->
    decode_filter filter = Decoded f ->
    drv_count_documents coll f (store w) = inl m ->
    unexpected_exception (GET_collection coll limit skip filter)
| find_raises_in_get h names f total m coll limit skip filter :
    db_handle h ->
    drv_list_collection_names (store w) = inr names ->
    coll ∈ names ->
    decode_filter filter = Decoded f ->
    drv_count_documents coll f (store w) = inr total ->
    drv_find coll f (Some (default 0 skip)) (Some (Z.min (default 100 limit) 1000))
             (store w) = inl m ->
    unexpected_exception (GET_collection coll limit skip filter)
| insert_raises h m s' coll d :
    db_handle h ->
    admits (verdict_of app coll (Some d)) = true ->
    drv_insert_one coll (stamped_for_insert d (ticks w)) (store w) = (inl m, s') ->
    unexpected_exception (POST_create coll d)
| update_raises h m s' coll doc_id obj_id d :
    db_handle h ->
    admits (verdict_of app coll (Some d)) = true ->
    ObjectId_of_str doc_id = Some obj_id ->
    drv_update_one coll (VDict [("_id", VObjectId obj_id)])
                   [("$set", VDict (stamped_for_update d (ticks w)))] (store w)
      = (inl m, s') ->
    unexpected_exception (PUT_document coll doc_id d)
| delete_raises h m s' coll doc_id obj_id :
    db_handle h ->
    ObjectId_of_str doc_id = Some obj_id ->
    drv_delete_one coll (VDict [("_id", VObjectId obj_id)]) (store w) = (inl m, s') ->
    unexpected_exception (DELETE_document coll doc_id).

End Unexpected.

(** ** The read-only handlers, step by step *)

(** The requests whose handler is not meant to write: everything but
    [create], [update] and [delete]. *)
Definition writes_nothing (req : request) : bool :=
  match req with
  | POST_create _ _ | PUT_document _ _ _ | DELETE_document _ _ => false
  | _ => true
  end.

(** What the loop of [get_all_schemas] leaves in [schemas_dict]. *)
Fixpoint listed_schemas (members : list (string * pyobj)) (schemas_dict : pydict)
  : pydict :=
  match members with
  | [] => schemas_dict
  | (nm, obj) :: rest =>
      match main.pydantic_model obj with
      | Some c =>
          if negb (startswith_underscore nm) then
            match main.schema_entry c with
            | inr entry => listed_schemas rest (Dict.set nm entry schemas_dict)
            | inl _ => listed_schemas rest schemas_dict
            end
          else listed_schemas rest schemas_dict
      | None => listed_schemas rest schemas_dict
      end
  end.

(** The lines that loop prints. *)
Fixpoint schema_errors (members : list (string * pyobj)) : list string :=
  match members with
  | [] => []
  | (nm, obj) :: rest =>
      match main.pydantic_model obj with
      | Some c =>
          if negb (startswith_underscore nm) then
            match main.schema_entry c with
            | inr _ => schema_errors rest
            | inl e => ("Error processing schema " ++ nm ++ ": " ++ e) :: schema_errors rest
            end
          else schema_errors rest
      | None => schema_errors rest
      end
  end.

(** The world after lines have been printed. *)
Definition printed {St} (lines : list string) (w : world St) : world St :=
  World (heap w) (ticks w) (store w) (calls w) (app (stdout w) lines).

(** From [w] to [w'] nothing was written: the store and the clock are
    as they were, dictionary objects were at most added, and the driver
    calls made in between are reads. *)
Definition only_reads {St} (w w' : world St) : Prop :=
  store w' = store w
  /\ ticks w' = ticks w
  /\ (exists fresh, heap w' = app (heap w) fresh)
  /\ exists reads, calls w' = app (calls w) reads
                   /\ Forall (fun c => is_write c = false) reads.

(** The requests whose handler uses neither [db] nor the driver. *)
Definition ignores_database (req : request) : bool :=
  match req with
  | GET_root | GET_api_hello | GET_schemas | POST_validate _ _ => true
  | _ => false
  end.

(** The requests whose handler does not import [schemas]. *)
Definition ignores_schemas (req : request) : bool :=
  match req with
  | GET_schemas | POST_validate _ _ | POST_create _ _ | PUT_document _ _ _ => false
  | _ => true
  end.

(** The answer to a request that went through. *)
Definition ok_message (message : string) : value :=
  VDict [("ok", VBool true); ("message", VStr message)].

(** An entry of the list that [list_collections] answers. *)
Definition collection_entry (col_name : string) (count : Z) : value :=
  VDict [("name", VStr col_name); ("count", VInt count)].

(** The keys of the dictionary that [/test] answers, in order. *)
Definition test_keys : list string :=
  ["backend"; "database"; "database_url"; "database_name"; "connection_status";
   "collections"].

(** More sample data. *)
Module Fixtures.

(** [class Open(BaseModel): pass] *)
Definition Open : pyclass :=
  {| issubclass_BaseModel := true;
     is_BaseModel := false;
     model_validate := fun _ => Validated;
     model_json_schema :=
       inr [("properties", VDict []); ("title", VStr "Open"); ("type", VStr "object")];
     model_fields := [] |}.

(** A model whose JSON schema cannot be produced. *)
Definition Opaque : pyclass :=
  {| issubclass_BaseModel := true;
     is_BaseModel := false;
     model_validate := fun _ => Validated;
     model_json_schema := inl "Cannot generate a JsonSchema for core_schema.IsInstanceSchema";
     model_fields := ["handle"] |}.

(** A [schemas.py] with [ACCOUNT = Open], [class Account], [class Opaque]
    and [class _Draft(Account)], as [getmembers] lists it. *)
Definition members : list (string * pyobj) :=
  ("ACCOUNT", PyClass Open) :: ("Account", PyClass Sample.Account)
  :: ("BaseModel", PyClass Sample.BaseModel) :: ("Opaque", PyClass Opaque)
  :: ("_Draft", PyClass Sample.Account) :: schemas.members.

Definition app : App :=
  {| environ := Sample.env; schemas_module := inr members |}.

(** A [schemas.py] with [class ÉCOLE(BaseModel): pass], [class École]
    and [class _École(École)], whose names are not in ASCII. *)
Definition members_accented : list (string * pyobj) :=
  ("BaseModel", PyClass Sample.BaseModel)
  :: schemas.members
  ++ [("_École", PyClass Sample.Account); ("ÉCOLE", PyClass Open);
      ("École", PyClass Sample.Account)].

Definition app_accented : App :=
  {| environ := Sample.env; schemas_module := inr members_accented |}.

(** The sample deployment without its environment. *)
Definition app_unconfigured : App := shipped ∅.

(** A store with a dozen collections, one document in the first. *)
Definition store12 : MemStore.t :=
  {| MemStore.collections :=
       [("c01", [Sample.john]); ("c02", []); ("c03", []); ("c04", []); ("c05", []);
        ("c06", []); ("c07", []); ("c08", []); ("c09", []); ("c10", []); ("c11", []);
        ("c12", [])];
     MemStore.next_id := 2 |}.

Definition w12 : world MemStore.t := World [] 0%nat store12 [] [].

(** An order that refers to its customer by identifier, in a store of
    its own. *)
Definition order : pydict :=
  [("_id", VObjectId (oid 7)); ("customer", VObjectId (oid 1)); ("total", VInt 30)].

Definition store_orders : MemStore.t :=
  {| MemStore.collections := [("users", [Sample.john]); ("orders", [order])];
     MemStore.next_id := 8 |}.

Definition w_orders : world MemStore.t := World [] 0%nat store_orders [] [].

(** A model instance built as [Account(email=...)] from a class that
    also declares [status: str = "new"]. *)
Definition ann : model_instance :=
  {| field_values := [("email", VStr "ann@example.com"); ("status", VStr "new")];
     fields_set := ["email"] |}.

End Fixtures.

Open Scope list_scope.

(** * Properties *)

(** ** Dictionaries and the heap *)

Lemma get_set_eq k v d : Dict.get k (Dict.set k v d) = Some v.
Proof.
  induction d as [| [k' v'] d IH]; simpl.
  - by rewrite String.eqb_refl.
  - destruct (String.eqb k k') eqn:E; simpl; rewrite E; [done | exact IH].
Qed.

Lemma get_set_ne k k' v d : k <> k' -> Dict.get k' (Dict.set k v d) = Dict.get k' d.
Proof.
  intros Hne. induction d as [| [k0 v0] d IH]; simpl.
  - destruct (String.eqb k' k) eqn:E; [| done].
    apply String.eqb_eq in E. congruence.
  - destruct (String.eqb k k0) eqn:E; simpl.
    + apply String.eqb_eq in E. subst k0.
      destruct (String.eqb k' k) eqn:E'; [| done].
      apply String.eqb_eq in E'. congruence.
    + by rewrite IH.
Qed.

Lemma has_get k d : Dict.has k d = true <-> is_Some (Dict.get k d).
Proof.
  induction d as [| [k' v'] d IH]; simpl.
  - split; [done | by intros [? ?]].
  - destruct (String.eqb k k'); [| exact IH]. split; eauto.
Qed.

Lemma keys_set_present k v d :
  Dict.has k d = true -> (Dict.set k v d).*1 = d.*1.
Proof.
  induction d as [| [k' v'] d IH]; cbn [Dict.set Dict.has]; [done |].
  destruct (String.eqb k k') eqn:E; [done |].
  intros Hk. rewrite !fmap_cons. f_equal. by apply IH.
Qed.

Lemma heap_fresh_lookup (h : list pydict) (d : pydict) :
  (h ++ [d]) !! length h = Some d.
Proof. by rewrite list_lookup_middle. Qed.

Lemma heap_fresh_insert (h : list pydict) (d d' : pydict) :
  <[length h := d']> (h ++ [d]) = h ++ [d'].
Proof.
  replace (length h) with (length h + 0)%nat by lia.
  by rewrite insert_app_r.
Qed.

Ltac heap_steps :=
  repeat first [ rewrite heap_fresh_lookup
               | rewrite heap_fresh_insert
               | progress cbn [heap ticks store calls stdout] ].

Example loads_object :
  Json.loads ("{" ++ quoted "status" ++ ": " ++ quoted "active" ++ ", "
              ++ quoted "n" ++ ": [1, -2, null]}")%string
  = Some (VDict [("status", VStr "active"); ("n", VList [VInt 1; VInt (-2); VNone])]).
Proof. vm_compute. reflexivity. Qed.

Example loads_empty : Json.loads "" = None.
Proof. reflexivity. Qed.

Example loads_truncated : Json.loads ("{" ++ quoted "status" ++ ": ")%string = None.
Proof. vm_compute. reflexivity. Qed.

(** ** database.py: what each helper does *)

Section DatabaseFacts.
Context {St : Type} `{Driver St} `{Builtins}.
Implicit Types (w : world St) (h : Database) (d : pydict).

Lemma copy_or_dump_run (dump : model_instance -> pydict) data w d :
  match data with DataModel m => Some (dump m) | DataDict r => heap w !! r end
    = Some d ->
  match data with
  | DataModel m => alloc (dump m)
  | DataDict r => d ← load r; alloc d
  end w
  = (inr (length (heap w)),
     World (heap w ++ [d]) (ticks w) (store w) (calls w) (stdout w)).
Proof.
  destruct data as [m | r]; intros Hd.
  - by injection Hd as <-.
  - unfold mbind, M_bind, load, alloc. by rewrite Hd.
Qed.

Lemma copy_dangling_run (dump : model_instance -> pydict) r w :
  heap w !! r = None ->
  (d ← load r; alloc d) w = (inl (Exception "dangling reference"), w).
Proof. intros Hr. unfold mbind, M_bind, load. by rewrite Hr. Qed.

Lemma create_document_run h coll data w d :
  payload data (heap w) = Some d ->
  database.create_document (Some h) coll data w =
    let doc := stamped_for_insert d (ticks w) in
    let '(r, s') := drv_insert_one coll doc (store w) in
    let cs := calls w ++ [InsertOne coll doc] in
    match r with
    | inl m => (inl (Exception m),
                World (heap w ++ [doc]) (2 + ticks w) s' cs (stdout w))
    | inr id =>
        (inr (py_str id),
         World (heap w ++ [if Dict.has "_id" doc then doc else Dict.set "_id" id doc])
               (2 + ticks w) s' cs (stdout w))
    end.
Proof.
  intros Hd.
  unfold database.create_document. unfold mbind at 1. unfold M_bind at 1.
  rewrite (copy_or_dump_run model_dump data w d Hd).
  unfold now, setitem, insert_one, load, driver_write, mbind, M_bind, mret, M_ret.
  heap_steps.
  fold (stamped_for_insert d (ticks w)).
  destruct (drv_insert_one _ _ _) as [[e | id] s']; cbn [of_driver]; [done |].
  destruct (Dict.has "_id" _); [done |].
  unfold setitem. by heap_steps.
Qed.

Lemma update_document_run h coll flt data w d :
  update_payload data (heap w) = Some d ->
  database.update_document (Some h) coll flt data w =
    let u := stamped_for_update d (ticks w) in
    let '(r, s') := drv_update_one coll (VDict flt) [("$set", VDict u)] (store w) in
    (match r with
     | inl m => inl (Exception m)
     | inr res => inr (0 <? modified_count res)
     end,
     World (heap w ++ [u]) (1 + ticks w) s'
           (calls w ++ [UpdateOne coll (VDict flt) [("$set", VDict u)]]) (stdout w)).
Proof.
  intros Hd.
  unfold database.update_document. unfold mbind at 1. unfold M_bind at 1.
  rewrite (copy_or_dump_run model_dump_exclude_unset data w d Hd).
  unfold now, setitem, update_one, load, driver_write, mbind, M_bind, mret, M_ret.
  heap_steps.
  fold (stamped_for_update d (ticks w)).
  by destruct (drv_update_one _ _ _ _) as [[e | res] s'].
Qed.

Lemma get_documents_run h coll flt limit w :
  database.get_documents (Some h) coll flt limit w =
    let f := VDict (default [] flt) in
    let l := match limit with
             | Some n => if int_truthy n then Some n else None
             | None => None
             end in
    (of_driver (drv_find coll f None l (store w)),
     World (heap w) (ticks w) (store w) (calls w ++ [Find coll f None l]) (stdout w)).
Proof. reflexivity. Qed.

Lemma delete_document_run h coll flt w :
  database.delete_document (Some h) coll flt w =
    let '(r, s') := drv_delete_one coll (VDict flt) (store w) in
    (match r with
     | inl m => inl (Exception m)
     | inr res => inr (0 <? deleted_count res)
     end,
     World (heap w) (ticks w) s' (calls w ++ [DeleteOne coll (VDict flt)]) (stdout w)).
Proof.
  unfold database.delete_document, delete_one, driver_write, mbind, M_bind, mret, M_ret.
  by destruct (drv_delete_one _ _ _) as [[e | res] s'].
Qed.

(** A reference to no object makes the copy fail before anything else
    happens. *)
Lemma create_document_dangling h coll r w :
  heap w !! r = None ->
  database.create_document (Some h) coll (DataDict r) w
  = (inl (Exception "dangling reference"), w).
Proof.
  intros Hr. unfold database.create_document. unfold mbind at 1. unfold M_bind at 1.
  by rewrite (copy_dangling_run model_dump r w Hr).
Qed.

Lemma update_document_dangling h coll flt r w :
  heap w !! r = None ->
  database.update_document (Some h) coll flt (DataDict r) w
  = (inl (Exception "dangling reference"), w).
Proof.
  intros Hr. unfold database.update_document. unfold mbind at 1. unfold M_bind at 1.
  by rewrite (copy_dangling_run model_dump_exclude_unset r w Hr).
Qed.

(** Both writing helpers only ever add objects to the heap. *)
Lemma create_document_heap db coll data w :
  exists fresh, heap (database.create_document db coll data w).2 = heap w ++ fresh.
Proof.
  destruct db as [h |]; [| by exists []; rewrite app_nil_r].
  destruct (payload data (heap w)) as [d |] eqn:Hd.
  - rewrite (create_document_run h coll data w d Hd). cbv zeta.
    destruct (drv_insert_one _ _ _) as [[e | id] s']; by eexists.
  - destruct data as [m | r]; [done |]. simpl in Hd.
    rewrite (create_document_dangling h coll r w Hd).
    by exists []; rewrite app_nil_r.
Qed.

Lemma update_document_heap db coll flt data w :
  exists fresh, heap (database.update_document db coll flt data w).2 = heap w ++ fresh.
Proof.
  destruct db as [h |]; [| by exists []; rewrite app_nil_r].
  destruct (update_payload data (heap w)) as [d |] eqn:Hd.
  - rewrite (update_document_run h coll flt data w d Hd). cbv zeta.
    destruct (drv_update_one _ _ _ _) as [r s']; by eexists.
  - destruct data as [m | r]; [done |]. simpl in Hd.
    rewrite (update_document_dangling h coll flt r w Hd).
    by exists []; rewrite app_nil_r.
Qed.

End DatabaseFacts.

(** ** The document-access layer: calls, timestamps, frame *)

Section DocumentAccess.
Context {St : Type} `{Driver St} `{Builtins}.
Implicit Types (w : world St) (h : Database) (d u : pydict).

Lemma stamped_for_insert_created d n :
  Dict.get "created_at" (stamped_for_insert d n) = Some (VDatetime (utcnow n)).
Proof.
  unfold stamped_for_insert.
  rewrite get_set_ne by discriminate. apply get_set_eq.
Qed.

Lemma stamped_for_insert_updated d n :
  Dict.get "updated_at" (stamped_for_insert d n) = Some (VDatetime (utcnow (S n))).
Proof. apply get_set_eq. Qed.

Lemma stamped_for_insert_other d n k :
  k <> "created_at" -> k <> "updated_at" ->
  Dict.get k (stamped_for_insert d n) = Dict.get k d.
Proof.
  intros Hc Hu. unfold stamped_for_insert.
  rewrite !get_set_ne by congruence. done.
Qed.

Lemma calls_create_document h coll data w d :
  payload data (heap w) = Some d ->
  calls (database.create_document (Some h) coll data w).2
  = calls w ++ [InsertOne coll (stamped_for_insert d (ticks w))].
Proof.
  intros Hd. rewrite (create_document_run h coll data w d Hd). cbv zeta.
  by destruct (drv_insert_one _ _ _) as [[e | id] s'].
Qed.

Lemma calls_update_document h coll flt data w u :
  update_payload data (heap w) = Some u ->
  calls (database.update_document (Some h) coll flt data w).2
  = calls w ++ [UpdateOne coll (VDict flt)
                          [("$set", VDict (stamped_for_update u (ticks w)))]].
Proof.
  intros Hu. rewrite (update_document_run h coll flt data w u Hu). cbv zeta.
  by destruct (drv_update_one _ _ _ _) as [r s'].
Qed.

Lemma world_delete_document h coll flt w :
  let w' := (database.delete_document (Some h) coll flt w).2 in
  heap w' = heap w /\ ticks w' = ticks w /\
  calls w' = calls w ++ [DeleteOne coll (VDict flt)].
Proof.
  rewrite delete_document_run.
  by destruct (drv_delete_one _ _ _) as [r s'].
Qed.

(** C3, as the code has it: each of the four helpers forwards its
    arguments to exactly one driver call; [create_document] and
    [update_document] add the timestamps to (a copy of) the data
    first, while [get_documents] and [delete_document] pass the filter
    on as it is ([get_documents] with [{}] for a missing filter, and
    with the limit only when it is truthy). *)
Theorem helpers_forward_to_one_call h coll flt optflt limit data w d u :
  payload data (heap w) = Some d ->
  update_payload data (heap w) = Some u ->
  let inserted := InsertOne coll (stamped_for_insert d (ticks w)) in
  let updated :=
    UpdateOne coll (VDict flt) [("$set", VDict (stamped_for_update u (ticks w)))] in
  let found :=
    Find coll (VDict (default [] optflt)) None
         (match limit with
          | Some n => if int_truthy n then Some n else None
          | None => None
          end) in
  calls (database.create_document (Some h) coll data w).2 = calls w ++ [inserted]
  /\ calls (database.update_document (Some h) coll flt data w).2 = calls w ++ [updated]
  /\ calls (database.get_documents (Some h) coll optflt limit w).2 = calls w ++ [found]
  /\ calls (database.delete_document (Some h) coll flt w).2
     = calls w ++ [DeleteOne coll (VDict flt)]
  /\ carries_timestamp inserted = true
  /\ carries_timestamp updated = true.
Proof.
  intros Hd Hu. cbv zeta. repeat split.
  - by apply calls_create_document.
  - by apply calls_update_document.
  - apply (world_delete_document h coll flt w).
  - apply has_get. rewrite stamped_for_insert_updated. eauto.
  - apply has_get. unfold stamped_for_update. rewrite get_set_eq. eauto.
Qed.

(** C4: [create_document] sets [created_at] and [updated_at] on the
    document it inserts, [update_document] sets [updated_at] inside
    the [$set] update, both from the clock and leaving every other
    field as given; [get_documents] and [delete_document] do not read
    the clock, change no dictionary object, and pass their filter to
    the driver untouched. *)
Theorem timestamps_on_insert_and_update_only h coll flt optflt limit data w d u :
  payload data (heap w) = Some d ->
  update_payload data (heap w) = Some u ->
  (exists doc,
      calls (database.create_document (Some h) coll data w).2
        = calls w ++ [InsertOne coll doc]
      /\ Dict.get "created_at" doc = Some (VDatetime (utcnow (ticks w)))
      /\ Dict.get "updated_at" doc = Some (VDatetime (utcnow (S (ticks w))))
      /\ forall k, k <> "created_at" -> k <> "updated_at" ->
                   Dict.get k doc = Dict.get k d)
  /\ (exists upd,
      calls (database.update_document (Some h) coll flt data w).2
        = calls w ++ [UpdateOne coll (VDict flt) [("$set", VDict upd)]]
      /\ Dict.get "updated_at" upd = Some (VDatetime (utcnow (ticks w)))
      /\ forall k, k <> "updated_at" -> Dict.get k upd = Dict.get k u)
  /\ (let w' := (database.get_documents (Some h) coll optflt limit w).2 in
      heap w' = heap w /\ ticks w' = ticks w /\ store w' = store w
      /\ exists l, calls w' = calls w ++ [Find coll (VDict (default [] optflt)) None l])
  /\ (let w' := (database.delete_document (Some h) coll flt w).2 in
      heap w' = heap w /\ ticks w' = ticks w
      /\ calls w' = calls w ++ [DeleteOne coll (VDict flt)]).
Proof.
  intros Hd Hu. split; [| split; [| split]].
  - exists (stamped_for_insert d (ticks w)). split; [by apply calls_create_document |].
    split; [apply stamped_for_insert_created |].
    split; [apply stamped_for_insert_updated |].
    apply stamped_for_insert_other.
  - exists (stamped_for_update u (ticks w)). split; [by apply calls_update_document |].
    unfold stamped_for_update. split; [apply get_set_eq |].
    intros k Hk. by rewrite get_set_ne.
  - rewrite get_documents_run. cbn. repeat split; eauto.
  - apply world_delete_document.
Qed.

(** C10: neither [create_document] nor [update_document] changes a
    dictionary object that existed before the call, the caller's [data]
    among them: after the call it holds what it held, so it has gained
    no [created_at] or [updated_at].  The stamps go to the copy (or to
    the dump of the model), an object the call has added to the heap. *)
Theorem caller_data_not_mutated db coll flt data w r d :
  heap w !! r = Some d ->
  let after_create := heap (database.create_document db coll data w).2 in
  let after_update := heap (database.update_document db coll flt data w).2 in
  after_create !! r = Some d
  /\ after_update !! r = Some d
  /\ (exists fresh, after_create = heap w ++ fresh)
  /\ (exists fresh, after_update = heap w ++ fresh).
Proof.
  intros Hr after_create after_update.
  destruct (create_document_heap db coll data w) as [fresh Hc].
  destruct (update_document_heap db coll flt data w) as [fresh' Hu].
  subst after_create after_update. rewrite Hc, Hu.
  split; [by apply lookup_app_l_Some |].
  split; [by apply lookup_app_l_Some |].
  split; by eexists.
Qed.

(** C7, as the code has it: when the import of [database] completes, it
    has bound [db] to a handle exactly when both variables are set to
    non-empty strings; when either one is missing or empty, [db] is
    [None] and each helper raises, leaving the world (the store and the
    record of driver calls included) as it was. *)
Theorem db_handle_needs_both_variables (env : gmap string string) db :
  database.import_module env = inr db ->
  (is_Some db <->
     exists url nm, env !! "DATABASE_URL" = Some url /\ env !! "DATABASE_NAME" = Some nm
                    /\ url <> "" /\ nm <> "")
  /\ ((env !! "DATABASE_URL" = None \/ env !! "DATABASE_URL" = Some ""
       \/ env !! "DATABASE_NAME" = None \/ env !! "DATABASE_NAME" = Some "") ->
      db = None
      /\ forall w coll flt optflt limit data,
          (exists m, database.create_document db coll data w = (inl (Exception m), w))
          /\ (exists m, database.get_documents db coll optflt limit w
                        = (inl (Exception m), w))
          /\ (exists m, database.update_document db coll flt data w
                        = (inl (Exception m), w))
          /\ (exists m, database.delete_document db coll flt w
                        = (inl (Exception m), w))).
Proof.
  unfold database.import_module. intros Himp.
  destruct (env !! "DATABASE_URL") as [url |] eqn:Eu;
    destruct (env !! "DATABASE_NAME") as [nm |] eqn:En.
  2-4: injection Himp as <-;
       (split; [ split; [by intros [? ?] | by intros (? & ? & ? & ? & _)]
               | intros _; split; [done | intros; repeat split; by eexists ] ]).
  destruct url as [| c url]; [| destruct nm as [| c' nm]]; simpl in Himp.
  1-2: injection Himp as <-;
       (split; [ split; [by intros [? ?]
                        | intros (? & ? & ? & ? & ? & ?); congruence]
               | intros _; split; [done | intros; repeat split; by eexists ] ]).
  destruct (drv_connect _ _) as [err |] eqn:Ec; [done |].
  injection Himp as <-. split.
  - split; [| by eauto]. intros _. by exists (String c url), (String c' nm).
  - intros [? | [? | [? | ?]]]; done.
Qed.

End DocumentAccess.

(** *** The document-access layer on concrete inputs *)

(** On the sample store: one [insert_one] with the stamped copy, one
    [delete_one] with the filter as given. *)
Lemma helpers_forward_to_one_call_witness :
  payload (DataDict 0%nat) (heap Sample.w1) = Some Sample.body
  /\ calls (database.create_document (Some Sample.db0) "users" (DataDict 0%nat) Sample.w1).2
     = [InsertOne "users" (stamped_for_insert Sample.body 0)]
  /\ calls (database.delete_document (Some Sample.db0) "users"
              [("email", VStr "john@example.com")] Sample.w1).2
     = [DeleteOne "users" (VDict [("email", VStr "john@example.com")])].
Proof.
  split; [reflexivity |].
  destruct (helpers_forward_to_one_call Sample.db0 "users"
              [("email", VStr "john@example.com")] None None (DataDict 0%nat)
              Sample.w1 Sample.body Sample.body eq_refl eq_refl)
    as (Hc & _ & _ & Hd & _).
  split; [exact Hc | exact Hd].
Defined.

(** C3 as stated fails: [delete_document] forwards its filter to one
    [delete_one] call, and that call carries no timestamp. *)
Lemma delete_document_adds_no_timestamp :
  ~ (exists c,
        calls (database.delete_document (Some Sample.db0) "users"
                 [("email", VStr "john@example.com")] Sample.w0).2
        = calls Sample.w0 ++ [c]
        /\ carries_timestamp c = true).
Proof.
  intros (c & Hc & Ht). vm_compute in Hc.
  injection Hc as <-. discriminate Ht.
Qed.

(** On the sample store, with the clock at its first two readings. *)
Lemma timestamps_on_insert_and_update_only_witness :
  payload (DataDict 0%nat) (heap Sample.w1) = Some Sample.body
  /\ update_payload (DataDict 0%nat) (heap Sample.w1) = Some Sample.body
  /\ exists doc,
       calls (database.create_document (Some Sample.db0) "users" (DataDict 0%nat)
                Sample.w1).2 = calls Sample.w1 ++ [InsertOne "users" doc]
       /\ Dict.get "created_at" doc = Some (VDatetime 1700000000000)
       /\ Dict.get "updated_at" doc = Some (VDatetime 1700000001000)
       /\ forall k, k <> "created_at" -> k <> "updated_at" ->
                    Dict.get k doc = Dict.get k Sample.body.
Proof.
  split; [reflexivity |]. split; [reflexivity |].
  exact (proj1 (timestamps_on_insert_and_update_only Sample.db0 "users" [] None None
                  (DataDict 0%nat) Sample.w1 Sample.body Sample.body eq_refl eq_refl)).
Defined.

(** The request body of the sample world is the same object after both
    calls. *)
Lemma caller_data_not_mutated_witness :
  heap Sample.w1 !! 0%nat = Some Sample.body
  /\ heap (database.create_document (Some Sample.db0) "users" (DataDict 0%nat)
             Sample.w1).2 !! 0%nat = Some Sample.body
  /\ heap (database.update_document (Some Sample.db0) "users"
             [("email", VStr "john@example.com")] (DataDict 0%nat) Sample.w1).2 !! 0%nat
     = Some Sample.body.
Proof.
  split; [reflexivity |].
  destruct (caller_data_not_mutated (Some Sample.db0) "users"
              [("email", VStr "john@example.com")] (DataDict 0%nat) Sample.w1 0%nat
              Sample.body eq_refl) as (Hc & Hu & _).
  split; [exact Hc | exact Hu].
Defined.

(** C7 as stated fails: with [DATABASE_URL] set to the empty string both
    variables are set, and yet [db] stays [None]. *)
Lemma empty_variable_leaves_db_unset :
  ~ ((exists hd, @database.import_module MemStore.t _ Sample.env_empty_url = inr (Some hd))
     <-> (is_Some (Sample.env_empty_url !! "DATABASE_URL")
          /\ is_Some (Sample.env_empty_url !! "DATABASE_NAME"))).
Proof.
  intros [_ Hback].
  destruct Hback as [hd Hhd]; [split; by eexists | discriminate Hhd].
Qed.

(** Without [DATABASE_NAME] the handle is [None] and the helpers raise. *)
Lemma db_handle_needs_both_variables_witness :
  @database.import_module MemStore.t _ Sample.env_no_name = inr None
  /\ Sample.env_no_name !! "DATABASE_NAME" = None
  /\ forall (w : world MemStore.t) coll flt optflt limit data,
       (exists m, database.create_document None coll data w = (inl (Exception m), w))
       /\ (exists m, database.get_documents None coll optflt limit w
                     = (inl (Exception m), w))
       /\ (exists m, database.update_document None coll flt data w
                     = (inl (Exception m), w))
       /\ (exists m, database.delete_document None coll flt w = (inl (Exception m), w)).
Proof.
  split; [reflexivity |]. split; [reflexivity |].
  exact (proj2 (proj2 (@db_handle_needs_both_variables MemStore.t _ _
                         Sample.env_no_name None eq_refl)
                  (or_intror (or_intror (or_introl eq_refl))))).
Defined.

(** ** main.py: what each handler does *)

Section HandlerFacts.
Context {St : Type} `{Driver St} `{Builtins}.
Variable app : App.
Implicit Types (w : world St) (d : pydict).

Lemma import_module_exn (env : gmap string string) e :
  @database.import_module St _ env = inl e -> exists m, e = Exception m.
Proof.
  unfold database.import_module. intros He.
  repeat case_match; simplify_eq; eauto.
Qed.

Lemma try_reraise_run {A} (m : M St A) prefix w :
  try_except m (main.reraise_or_500 prefix) w
  = let '(r, w') := m w in
    (match r with inl e => inl (to_500 prefix e) | inr x => inr x end, w').
Proof.
  unfold try_except. destruct (m w) as [[e | x] w']; [| done].
  by destruct e.
Qed.

Lemma validate_document_run coll doc w :
  main.validate_document app coll doc w
  = (validation_answer (verdict_of app coll (heap w !! doc)), w).
Proof.
  unfold main.validate_document, verdict_of, try_except, main.import_schemas, lift,
    mbind, M_bind, mret, M_ret, load, raise.
  destruct (schemas_module app) as [e | members]; [done |].
  destruct (main.build_schema_map members !! coll) as [cls |]; [| done].
  destruct (heap w !! doc) as [d |]; [| done].
  by destruct (model_validate cls d).
Qed.

(** The validation step shared by [create_document] and
    [update_document]. *)
Lemma validation_gate_run coll doc (k : M St value) w :
  (validation ← main.validate_document app coll doc;
   valid ← main.getitem validation "valid";
   if negb (truthy valid) then
     raise (HTTPException 400
              ("Validation failed: "
               ++ py_str (main.get_or validation "errors" (VList [])))%string)
   else k) w
  = match verdict_of app coll (heap w !! doc) with
    | Skipped | Passed => k w
    | Failed errors =>
        (inl (HTTPException 400 ("Validation failed: " ++ py_str (VList errors))%string), w)
    | Broken e =>
        (inl (HTTPException 500 ("Error validating document: " ++ exn_str e)%string), w)
    end.
Proof.
  unfold mbind at 1. unfold M_bind at 1. rewrite validate_document_run.
  by destruct (verdict_of app coll (heap w !! doc)).
Qed.

Lemma post_create_run coll d w :
  dispatch app (POST_create coll d) w
  = let w1 := with_body d w in
    match database.import_module (environ app) with
    | inl e => (inl (to_500 "Error creating document: " e), w1)
    | inr None => (inl (HTTPException 503 "Database not connected"), w1)
    | inr (Some h) =>
        match verdict_of app coll (Some d) with
        | Skipped | Passed =>
            let '(r, w') :=
              database.create_document (Some h) coll (DataDict (length (heap w))) w1 in
            (match r with
             | inl e => inl (to_500 "Error creating document: " e)
             | inr doc_id =>
                 inr (VDict [("ok", VBool true); ("id", VStr doc_id);
                             ("message", VStr ("Document created in " ++ coll)%string)])
             end, w')
        | Failed errors =>
            (inl (HTTPException 400
                    ("Validation failed: " ++ py_str (VList errors))%string), w1)
        | Broken e =>
            (inl (HTTPException 500 ("Error validating document: " ++ exn_str e)%string),
             w1)
        end
    end.
Proof.
  cbn [dispatch]. unfold mbind at 1. unfold M_bind at 1. unfold alloc at 1.
  fold (with_body d w). cbv zeta.
  unfold main.create_document. rewrite try_reraise_run.
  unfold mbind at 1. unfold M_bind at 1. unfold main.from_database_import_db, lift.
  destruct (database.import_module (environ app)) as [e | [h |]]; [done | | done].
  rewrite validation_gate_run.
  replace (heap (with_body d w) !! length (heap w)) with (Some d)
    by (symmetry; apply heap_fresh_lookup).
  destruct (verdict_of app coll (Some d)); try done.
  all: unfold mbind, M_bind, mret, M_ret;
    by destruct (database.create_document _ _ _ _) as [[e | id] w'].
Qed.

Lemma put_document_run coll doc_id d w :
  dispatch app (PUT_document coll doc_id d) w
  = let w1 := with_body d w in
    match database.import_module (environ app) with
    | inl e => (inl (to_500 "Error updating document: " e), w1)
    | inr None => (inl (HTTPException 503 "Database not connected"), w1)
    | inr (Some h) =>
        match verdict_of app coll (Some d) with
        | Skipped | Passed =>
            match ObjectId_of_str doc_id with
            | None => (inl (HTTPException 400 "Invalid document ID format"), w1)
            | Some obj_id =>
                let '(r, w') :=
                  database.update_document (Some h) coll [("_id", VObjectId obj_id)]
                    (DataDict (length (heap w))) w1 in
                (match r with
                 | inl e => inl (to_500 "Error updating document: " e)
                 | inr false => inl (HTTPException 404 "Document not found")
                 | inr true =>
                     inr (VDict [("ok", VBool true);
                                 ("message",
                                  VStr ("Document " ++ doc_id ++ " updated in "
                                        ++ coll)%string)])
                 end, w')
            end
        | Failed errors =>
            (inl (HTTPException 400
                    ("Validation failed: " ++ py_str (VList errors))%string), w1)
        | Broken e =>
            (inl (HTTPException 500 ("Error validating document: " ++ exn_str e)%string),
             w1)
        end
    end.
Proof.
  cbn [dispatch]. unfold mbind at 1. unfold M_bind at 1. unfold alloc at 1.
  fold (with_body d w). cbv zeta.
  unfold main.update_document. rewrite try_reraise_run.
  unfold mbind at 1. unfold M_bind at 1. unfold main.from_database_import_db, lift.
  destruct (database.import_module (environ app)) as [e | [h |]]; [done | | done].
  rewrite validation_gate_run.
  replace (heap (with_body d w) !! length (heap w)) with (Some d)
    by (symmetry; apply heap_fresh_lookup).
  destruct (verdict_of app coll (Some d)); try done.
  all: destruct (ObjectId_of_str doc_id) as [obj_id |]; [| done].
  all: unfold mbind, M_bind, mret, M_ret;
    by destruct (database.update_document _ _ _ _ _) as [[e | [|]] w'].
Qed.

Lemma delete_document_endpoint_run coll doc_id w :
  dispatch app (DELETE_document coll doc_id) w
  = match database.import_module (environ app) with
    | inl e => (inl (to_500 "Error deleting document: " e), w)
    | inr None => (inl (HTTPException 503 "Database not connected"), w)
    | inr (Some h) =>
        match ObjectId_of_str doc_id with
        | None => (inl (HTTPException 400 "Invalid document ID format"), w)
        | Some obj_id =>
            let '(r, w') :=
              database.delete_document (Some h) coll [("_id", VObjectId obj_id)] w in
            (match r with
             | inl e => inl (to_500 "Error deleting document: " e)
             | inr false => inl (HTTPException 404 "Document not found")
             | inr true =>
                 inr (VDict [("ok", VBool true);
                             ("message",
                              VStr ("Document " ++ doc_id ++ " deleted from "
                                    ++ coll)%string)])
             end, w')
        end
    end.
Proof.
  cbn [dispatch]. unfold main.delete_document. rewrite try_reraise_run.
  unfold mbind at 1. unfold M_bind at 1. unfold main.from_database_import_db, lift.
  destruct (database.import_module (environ app)) as [e | [h |]]; [done | | done].
  destruct (ObjectId_of_str doc_id) as [obj_id |]; [| done].
  unfold mbind, M_bind, mret, M_ret.
  by destruct (database.delete_document _ _ _ _) as [[e | [|]] w'].
Qed.

Lemma get_collection_run coll limit skip filter w :
  dispatch app (GET_collection coll limit skip filter) w
  = let prefix := "Error fetching documents: " in
    match database.import_module (environ app) with
    | inl e => (inl (to_500 prefix e), w)
    | inr None => (inl (HTTPException 503 "Database not connected"), w)
    | inr (Some h) =>
        let w1 := called ListCollectionNames w in
        match drv_list_collection_names (store w) with
        | inl m => (inl (HTTPException 500 (prefix ++ m)%string), w1)
        | inr names =>
            if negb (bool_decide (coll ∈ names)) then
              (inl (HTTPException 404 ("Collection '" ++ coll ++ "' not found")%string), w1)
            else
              match decode_filter filter with
              | Undecodable _ => (inl (HTTPException 400 "Invalid filter JSON"), w1)
              | DecoderRaised m => (inl (HTTPException 500 (prefix ++ m)%string), w1)
              | Decoded f =>
                  let lim := Z.min (default 100 limit) 1000 in
                  let sk := default 0 skip in
                  let w2 := called (CountDocuments coll f) w1 in
                  match drv_count_documents coll f (store w) with
                  | inl m => (inl (HTTPException 500 (prefix ++ m)%string), w2)
                  | inr total =>
                      let w3 := called (Find coll f (Some sk) (Some lim)) w2 in
                      match drv_find coll f (Some sk) (Some lim) (store w) with
                      | inl m => (inl (HTTPException 500 (prefix ++ m)%string), w3)
                      | inr documents =>
                          (inr (VDict [("ok", VBool true);
                                       ("collection", VStr coll);
                                       ("documents",
                                        VList (VDict <$> (main.stringify_id <$> documents)));
                                       ("total", VInt total);
                                       ("limit", VInt lim);
                                       ("skip", VInt sk)]), w3)
                      end
                  end
              end
        end
    end.
Proof.
  cbn [dispatch]. unfold main.get_collection_documents. rewrite try_reraise_run.
  unfold mbind at 1. unfold M_bind at 1. unfold main.from_database_import_db, lift.
  destruct (database.import_module (environ app)) as [e | [h |]]; [done | | done].
  unfold list_collection_names, count_documents, find, driver_read, mbind, M_bind,
    mret, M_ret, raise, called, decode_filter.
  cbn [heap ticks store calls stdout].
  destruct (drv_list_collection_names (store w)) as [m | names]; [done |].
  cbn [of_driver].
  destruct (negb (bool_decide (coll ∈ names))); [done |].
  destruct filter as [f |].
  - destruct (str_truthy f).
    + destruct (json_loads f) as [v | m | m]; [| done | done].
      cbn [heap ticks store calls stdout].
      destruct (drv_count_documents _ _ _) as [m | total]; [done |]. cbn [of_driver].
      by destruct (drv_find _ _ _ _ _) as [m | documents].
    + cbn [heap ticks store calls stdout].
      destruct (drv_count_documents _ _ _) as [m | total]; [done |]. cbn [of_driver].
      by destruct (drv_find _ _ _ _ _) as [m | documents].
  - cbn [heap ticks store calls stdout].
    destruct (drv_count_documents _ _ _) as [m | total]; [done |]. cbn [of_driver].
    by destruct (drv_find _ _ _ _ _) as [m | documents].
Qed.

Lemma post_validate_run coll d w :
  dispatch app (POST_validate coll d) w
  = (validation_answer (verdict_of app coll (Some d)), with_body d w).
Proof.
  cbn [dispatch]. unfold mbind, M_bind, alloc. fold (with_body d w).
  rewrite validate_document_run.
  by replace (heap (with_body d w) !! length (heap w)) with (Some d)
    by (symmetry; apply heap_fresh_lookup).
Qed.

(** [list_collections] has the single clause [except Exception]. *)
Lemma list_collections_run w :
  dispatch app GET_collections w
  = let prefix := "Error listing collections: " in
    match database.import_module (environ app) with
    | inl e => (inl (HTTPException 500 (prefix ++ exn_str e)%string), w)
    | inr None =>
        (inl (HTTPException 500
                (prefix ++ exn_str (HTTPException 503 "Database not connected"))%string),
         w)
    | inr (Some h) =>
        let '(r, w') :=
          (collections ← list_collection_names;
           collections_info ←
             for_each (fun col_name =>
                         count ← count_documents col_name (VDict []);
                         mret (VDict [("name", VStr col_name); ("count", VInt count)]))
                      collections;
           mret (VDict [("ok", VBool true); ("collections", VList collections_info)])) w in
        (match r with
         | inl e => inl (HTTPException 500 (prefix ++ exn_str e)%string)
         | inr v => inr v
         end, w')
    end.
Proof.
  cbn [dispatch]. unfold main.list_collections, try_except.
  unfold mbind at 1. unfold M_bind at 1. unfold main.from_database_import_db, lift.
  destruct (database.import_module (environ app)) as [e | [h |]]; [done | | done].
  cbv zeta.
  by match goal with |- context [let '(_, _) := ?m w in _] => destruct (m w) as [[e | v] w'] end.
Qed.

Lemma collect_schemas_returns members acc w :
  exists schemas_dict w', main.collect_schemas members acc w = (inr schemas_dict, w').
Proof.
  revert acc w. induction members as [| [nm obj] rest IH]; intros acc w; simpl.
  - by eexists _, _.
  - destruct (main.pydantic_model obj) as [c |]; [| apply IH].
    destruct (negb (startswith_underscore nm)); [| apply IH].
    destruct (main.schema_entry c) as [e | entry]; [| apply IH].
    unfold mbind, M_bind, print. apply IH.
Qed.

Lemma get_all_schemas_run w :
  exists w',
    dispatch app GET_schemas w
    = (match schemas_module app with
       | inl (ImportError _) =>
           inl (HTTPException 400 "Schemas module not found. Define schemas in schemas.py")
       | inl e => inl (HTTPException 500 ("Error loading schemas: " ++ exn_str e)%string)
       | inr members =>
           match main.collect_schemas members [] w with
           | (inr schemas_dict, _) =>
               inr (VDict [("ok", VBool true); ("schemas", VDict schemas_dict)])
           | (inl e, _) => inl e
           end
       end, w').
Proof.
  cbn [dispatch].
  unfold main.get_all_schemas, try_except, main.import_schemas, lift, mbind, M_bind.
  destruct (schemas_module app) as [e | members].
  - exists w. by destruct e.
  - destruct (collect_schemas_returns members [] w) as (sd & w' & ->).
    by exists w'.
Qed.

Lemma test_database_returns w :
  exists v w', dispatch app GET_test w = (inr v, w').
Proof.
  cbn [dispatch].
  unfold main.test_database, try_except, main.from_database_import_db, lift,
    mbind, M_bind, mret, M_ret, list_collection_names, driver_read.
  destruct (database.import_module (environ app)) as [e | [h |]].
  - destruct e; by eexists _, _.
  - destruct (drv_list_collection_names (store w)); by eexists _, _.
  - by eexists _, _.
Qed.

(** The document-access helpers raise plain [Exception]s only. *)
Lemma create_document_raises db coll data w e :
  (database.create_document db coll data w).1 = inl e -> exists m, e = Exception m.
Proof.
  destruct db as [h |]; [| intros [= <-]; by eexists].
  destruct (payload data (heap w)) as [d |] eqn:Hd.
  - rewrite (create_document_run h coll data w d Hd). cbv zeta.
    destruct (drv_insert_one _ _ _) as [[m | id] s']; [| done].
    intros [= <-]. by eexists.
  - destruct data as [m | r]; [done |]. simpl in Hd.
    rewrite (create_document_dangling h coll r w Hd). intros [= <-]. by eexists.
Qed.

Lemma update_document_raises db coll flt data w e :
  (database.update_document db coll flt data w).1 = inl e -> exists m, e = Exception m.
Proof.
  destruct db as [h |]; [| intros [= <-]; by eexists].
  destruct (update_payload data (heap w)) as [d |] eqn:Hd.
  - rewrite (update_document_run h coll flt data w d Hd). cbv zeta.
    destruct (drv_update_one _ _ _ _) as [[m | res] s']; [| done].
    intros [= <-]. by eexists.
  - destruct data as [m | r]; [done |]. simpl in Hd.
    rewrite (update_document_dangling h coll flt r w Hd). intros [= <-]. by eexists.
Qed.

Lemma delete_document_raises db coll flt w e :
  (database.delete_document db coll flt w).1 = inl e -> exists m, e = Exception m.
Proof.
  destruct db as [h |]; [| intros [= <-]; by eexists].
  rewrite delete_document_run.
  destruct (drv_delete_one _ _ _) as [[m | res] s']; [| done].
  intros [= <-]. by eexists.
Qed.

End HandlerFacts.

(** ** The HTTP layer *)

Ltac status_ok := simplify_eq/=; solve [done | auto 8].

Section HttpLayer.
Context {St : Type} `{Driver St} `{Builtins}.
Implicit Types (app : App) (w : world St) (d : pydict) (h : Database).

Lemma to_500_of_exception prefix m :
  to_500 prefix (Exception m) = HTTPException 500 (prefix ++ m)%string.
Proof. reflexivity. Qed.

Lemma status_serve app req w :
  (serve app req w).1 = respond (dispatch app req w).1.
Proof. unfold serve. by destruct (dispatch app req w). Qed.

(** A status other than 200 and 500 is the status of an
    [HTTPException] that the handler raised. *)
Lemma status_raised (r : exn + value) c :
  c <> 200 -> c <> 500 ->
  status (respond r) = c <-> exists detail, r = inl (HTTPException c detail).
Proof.
  intros H200 H500. destruct r as [[c' detail | m | m | m] | v]; cbn.
  - split; [intros <-; by eexists | by intros [? [= -> _]]].
  - split; [by intros <- | by intros [? ?]].
  - split; [by intros <- | by intros [? ?]].
  - split; [by intros <- | by intros [? ?]].
  - destruct (jsonable v); cbn; (split; [by intros <- | by intros [? ?]]).
Qed.

(** A returned value is answered 200 or, when it cannot be serialised,
    500. *)
Lemma status_returned (v : value) :
  status (respond (inr v)) = 200 \/ status (respond (inr v)) = 500.
Proof. cbn. destruct (jsonable v); auto. Qed.

(** Every request is answered by a return or by an [HTTPException]
    with a documented status. *)
Lemma dispatch_well_reported app req w : well_reported (dispatch app req w).1.
Proof.
  unfold well_reported, documented_status.
  destruct req as [| | | | | coll limit skip filter | coll d | coll d | coll i d | coll i].
  - done.
  - done.
  - by destruct (test_database_returns app w) as (v & w' & ->).
  - destruct (get_all_schemas_run app w) as (w' & ->). cbn [fst].
    destruct (schemas_module app) as [[] | members]; try status_ok.
    by destruct (collect_schemas_returns members [] w) as (sd & w'' & ->).
  - rewrite list_collections_run. cbv zeta.
    destruct (database.import_module (environ app)) as [e | [h |]]; cbn [fst]; try status_ok.
    match goal with |- context [let '(_, _) := ?m w in _] =>
      destruct (m w) as [[e | v] w'] end; cbn [fst]. all: status_ok.
  - rewrite get_collection_run. cbv zeta.
    destruct (database.import_module (environ app)) as [e | [h |]] eqn:Hi; cbn [fst];
      [ destruct (import_module_exn _ _ Hi) as [m ->]; cbn; status_ok | | status_ok ].
    repeat case_match; status_ok.
  - rewrite post_validate_run. cbn [fst].
    destruct (verdict_of app coll (Some d)); cbn; status_ok.
  - rewrite post_create_run. cbv zeta.
    destruct (database.import_module (environ app)) as [e | [h |]] eqn:Hi; cbn [fst];
      [ destruct (import_module_exn _ _ Hi) as [m ->]; cbn; status_ok | | status_ok ].
    destruct (verdict_of app coll (Some d)); cbn [fst]; try status_ok.
    all: destruct (database.create_document _ _ _ _) as [[e | id] w'] eqn:Hc;
      cbn [fst]; [| done];
      apply (f_equal fst) in Hc; cbn [fst] in Hc;
      destruct (create_document_raises _ _ _ _ _ Hc) as [m ->]; status_ok.
  - rewrite put_document_run. cbv zeta.
    destruct (database.import_module (environ app)) as [e | [h |]] eqn:Hi; cbn [fst];
      [ destruct (import_module_exn _ _ Hi) as [m ->]; cbn; status_ok | | status_ok ].
    destruct (verdict_of app coll (Some d)); cbn [fst]; try status_ok.
    all: destruct (ObjectId_of_str i) as [obj_id |]; cbn [fst]; [| status_ok].
    all: destruct (database.update_document _ _ _ _ _) as [[e | [|]] w'] eqn:Hc;
      cbn [fst]; [| done | status_ok];
      apply (f_equal fst) in Hc; cbn [fst] in Hc;
      destruct (update_document_raises _ _ _ _ _ _ Hc) as [m ->]; status_ok.
  - rewrite delete_document_endpoint_run.
    destruct (database.import_module (environ app)) as [e | [h |]] eqn:Hi; cbn [fst];
      [ destruct (import_module_exn _ _ Hi) as [m ->]; cbn; status_ok | | status_ok ].
    destruct (ObjectId_of_str i) as [obj_id |]; cbn [fst]; [| status_ok].
    destruct (database.delete_document _ _ _ _) as [[e | [|]] w'] eqn:Hc;
      cbn [fst]; [| done | status_ok].
    apply (f_equal fst) in Hc; cbn [fst] in Hc.
    destruct (delete_document_raises _ _ _ _ _ Hc) as [m ->]; status_ok.
Qed.

Lemma store_called c w : store (called c w) = store w.
Proof. reflexivity. Qed.

(** In the loop of [list_collections], a count that raises ends the
    loop. *)
Lemma for_each_count_raises names n m w :
  n ∈ names ->
  drv_count_documents n (VDict []) (store w) = inl m ->
  exists e w',
    for_each (fun col_name =>
                count ← count_documents col_name (VDict []);
                mret (VDict [("name", VStr col_name); ("count", VInt count)]))
             names w = (inl e, w').
Proof.
  set (f := fun col_name : string => _).
  assert (Hf : forall x w,
             exists r, f x w = (r, called (CountDocuments x (VDict [])) w)
                       /\ forall m', drv_count_documents x (VDict []) (store w) = inl m' ->
                                     r = inl (Exception m')).
  { intros x w0. subst f. cbv beta.
    unfold mbind, M_bind, count_documents, driver_read, called.
    destruct (drv_count_documents x (VDict []) (store w0)) as [m' | cnt];
      cbn [of_driver]; eexists; split; try done.
    by intros ? [= <-]. }
  clearbody f. revert w. induction names as [| x names IH]; intros w Hin Hm.
  - by apply elem_of_nil in Hin.
  - cbn [for_each]. unfold mbind at 1. unfold M_bind at 1.
    destruct (Hf x w) as (r & -> & Hr).
    apply elem_of_cons in Hin as [-> | Hin].
    + rewrite (Hr m Hm). by eexists _, _.
    + destruct r as [e | y]; [by eexists _, _ |].
      destruct (IH (called (CountDocuments x (VDict [])) w) Hin Hm) as (e & w' & Hrun).
      unfold mbind, M_bind. rewrite Hrun. by eexists _, _.
Qed.

(** An exception from a library or from the environment is turned
    into an [HTTPException] with status 500. *)
Lemma unexpected_exception_500 app w req :
  unexpected_exception app w req ->
  exists detail, (dispatch app req w).1 = inl (HTTPException 500 detail).
Proof.
  unfold db_handle.
  destruct 1 as [e req Hi Hreq | e He Hne | e coll d Hv | h e coll d Hh Hv
                | h e coll i d Hh Hv | h m Hh Hm | h names n m Hh Hn Hin Hm
                | h m coll limit skip filter Hh Hm
                | h names m coll limit skip filter Hh Hn Hin Hf
                | h names f m coll limit skip filter Hh Hn Hin Hf Hm
                | h names f total m coll limit skip filter Hh Hn Hin Hf Ht Hm
                | h m s' coll d Hh Hv Hm | h m s' coll i obj_id d Hh Hv Hi Hm
                | h m s' coll i obj_id Hh Hi Hm].
  - destruct (import_module_exn _ _ Hi) as [m ->].
    destruct req; try discriminate Hreq.
    + rewrite list_collections_run, Hi. by eexists.
    + rewrite get_collection_run, Hi. by eexists.
    + rewrite post_create_run, Hi. by eexists.
    + rewrite put_document_run, Hi. by eexists.
    + rewrite delete_document_endpoint_run, Hi. by eexists.
  - destruct (get_all_schemas_run app w) as (w' & ->). rewrite He.
    destruct e; try (by eexists). by destruct (Hne msg).
  - rewrite post_validate_run, Hv. by eexists.
  - rewrite post_create_run, Hh, Hv. by eexists.
  - rewrite put_document_run, Hh, Hv. by eexists.
  - rewrite list_collections_run, Hh. cbv zeta.
    unfold mbind at 1. unfold M_bind at 1. unfold list_collection_names, driver_read.
    rewrite Hm. by eexists.
  - rewrite list_collections_run, Hh. cbv zeta.
    unfold mbind at 1. unfold M_bind at 1. unfold list_collection_names, driver_read.
    rewrite Hn. cbn [of_driver]. fold (called ListCollectionNames w).
    destruct (for_each_count_raises names n m (called ListCollectionNames w) Hin Hm)
      as (e & w' & Hrun).
    unfold mbind at 1. unfold M_bind at 1. rewrite Hrun. by eexists.
  - rewrite get_collection_run, Hh, Hm. by eexists.
  - rewrite get_collection_run, Hh, Hn. cbv zeta.
    rewrite bool_decide_true by done. cbn [negb]. rewrite Hf. by eexists.
  - rewrite get_collection_run, Hh, Hn. cbv zeta.
    rewrite bool_decide_true by done. cbn [negb]. rewrite Hf, Hm. by eexists.
  - rewrite get_collection_run, Hh, Hn. cbv zeta.
    rewrite bool_decide_true by done. cbn [negb]. rewrite Hf, Ht, Hm. by eexists.
  - rewrite post_create_run, Hh. cbv zeta.
    rewrite (create_document_run h coll _ (with_body d w) d)
      by apply heap_fresh_lookup.
    cbn [ticks store with_body]. rewrite Hm.
    destruct (verdict_of app coll (Some d)); first [done | by eexists].
  - rewrite put_document_run, Hh, Hi. cbv zeta.
    rewrite (update_document_run h coll _ _ (with_body d w) d)
      by apply heap_fresh_lookup.
    cbn [ticks store with_body]. rewrite Hm.
    destruct (verdict_of app coll (Some d)); first [done | by eexists].
  - rewrite delete_document_endpoint_run, Hh, Hi, delete_document_run. rewrite Hm. by eexists.
Qed.

End HttpLayer.

(** ** The schema map *)

Section SchemaMap.
Context `{Builtins}.

Lemma schema_fold_lookup members acc coll cls :
  fold_left schema_step members acc !! coll = Some cls ->
  acc !! coll = Some cls
  \/ exists nm obj, (nm, obj) ∈ members /\ main.pydantic_model obj = Some cls
                    /\ lower nm = coll.
Proof.
  revert acc. induction members as [| [nm obj] rest IH]; intros acc; simpl; [by left |].
  intros Hl. destruct (IH _ Hl) as [Hacc | (nm' & obj' & Hin & Hm & Hn)].
  - destruct (main.pydantic_model obj) as [c |] eqn:Hp; [| by left].
    destruct (decide (lower nm = coll)) as [<- | Hne].
    + rewrite lookup_insert_eq in Hacc. injection Hacc as ->.
      right. exists nm, obj. split; [apply elem_of_cons; by left | done].
    + rewrite lookup_insert_ne in Hacc by done. by left.
  - right. exists nm', obj'. split; [apply elem_of_cons; by right | done].
Qed.

Lemma schema_fold_is_Some members acc coll :
  is_Some (acc !! coll)
  \/ (exists nm obj c, (nm, obj) ∈ members /\ main.pydantic_model obj = Some c
                       /\ lower nm = coll) ->
  is_Some (fold_left schema_step members acc !! coll).
Proof.
  revert acc. induction members as [| [nm obj] rest IH]; intros acc; simpl.
  - intros [Hacc | (nm & obj & c & Hin & _)]; [done | by apply elem_of_nil in Hin].
  - intros [Hacc | (nm' & obj' & c & Hin & Hm & Hn)]; apply IH.
    + left. destruct (main.pydantic_model obj) as [c |]; [| done].
      destruct (decide (lower nm = coll)) as [<- | Hne].
      * rewrite lookup_insert_eq. eauto.
      * by rewrite lookup_insert_ne.
    + apply elem_of_cons in Hin as [[= -> ->] | Hin].
      * left. rewrite Hm, Hn. rewrite lookup_insert_eq. eauto.
      * right. by exists nm', obj', c.
Qed.

Lemma build_schema_map_fold members :
  main.build_schema_map members = fold_left schema_step members ∅.
Proof. reflexivity. Qed.

Lemma build_schema_map_lookup members coll cls :
  main.build_schema_map members !! coll = Some cls ->
  exists nm obj, (nm, obj) ∈ members /\ main.pydantic_model obj = Some cls
                 /\ lower nm = coll.
Proof.
  rewrite build_schema_map_fold. intros Hl.
  by destruct (schema_fold_lookup _ _ _ _ Hl) as [Hacc | Hex].
Qed.

Lemma build_schema_map_is_Some members coll :
  is_Some (main.build_schema_map members !! coll)
  <-> exists nm obj c, (nm, obj) ∈ members /\ main.pydantic_model obj = Some c
                       /\ lower nm = coll.
Proof.
  split.
  - intros [cls Hl]. destruct (build_schema_map_lookup _ _ _ Hl) as (nm & obj & ?).
    by exists nm, obj, cls.
  - intros Hex. rewrite build_schema_map_fold. apply schema_fold_is_Some. by right.
Qed.

End SchemaMap.

(** ** Status codes *)

Section StatusTable.
Context {St : Type} `{Driver St} `{Builtins}.
Implicit Types (app : App) (w : world St) (d : pydict) (h : Database).

(** Without a handle, the four handlers that re-raise an
    [HTTPException] answer 503. *)
Lemma no_handle_503 app w req :
  database.import_module (environ app) = inr None ->
  checks_db req = true ->
  req <> GET_collections ->
  status (serve app req w).1 = 503.
Proof.
  intros Hi Hreq Hne. rewrite status_serve.
  destruct req; try discriminate Hreq; try done.
  - by rewrite get_collection_run, Hi.
  - by rewrite post_create_run, Hi.
  - by rewrite put_document_run, Hi.
  - by rewrite delete_document_endpoint_run, Hi.
Qed.

(** [list_collections] catches its own 503 and answers 500. *)
Lemma no_handle_list_collections_500 app w :
  database.import_module (environ app) = inr None ->
  (serve app GET_collections w).1
  = {| status := 500;
       body := VDict [("detail",
                       VStr "Error listing collections: 503: Database not connected")] |}.
Proof.
  intros Hi. rewrite status_serve, list_collections_run, Hi. by vm_compute.
Qed.

Lemma invalid_id_400 app h coll doc_id w :
  db_handle app h ->
  ObjectId_of_str doc_id = None ->
  status (serve app (DELETE_document coll doc_id) w).1 = 400
  /\ forall d members,
       schemas_module app = inr members ->
       status (serve app (PUT_document coll doc_id d) w).1 = 400.
Proof.
  intros Hh Ho. split.
  - by rewrite status_serve, delete_document_endpoint_run, Hh, Ho.
  - intros d members Hs. rewrite status_serve, put_document_run, Hh, Ho. cbv zeta.
    unfold verdict_of. rewrite Hs.
    destruct (main.build_schema_map members !! coll) as [cls |]; [| done].
    by destruct (model_validate cls d).
Qed.

Lemma invalid_filter_400 app h coll limit skip f names m w :
  db_handle app h ->
  drv_list_collection_names (store w) = inr names ->
  coll ∈ names ->
  f <> "" ->
  json_loads f = Undecodable m ->
  status (serve app (GET_collection coll limit skip (Some f)) w).1 = 400.
Proof.
  intros Hh Hn Hin Hf Hj. rewrite status_serve, get_collection_run, Hh, Hn. cbv zeta.
  rewrite bool_decide_true by done. cbn [negb]. unfold decode_filter.
  destruct f; [done |]. cbn [str_truthy]. by rewrite Hj.
Qed.

(** A value that a handler returns is sent as it is when the framework
    can serialise it, and becomes the server's plain 500 otherwise. *)
Lemma serve_returned app req w v :
  (dispatch app req w).1 = inr v ->
  (serve app req w).1
  = if jsonable v then {| status := 200; body := v |} else internal_server_error.
Proof. intros Hv. by rewrite status_serve, Hv. Qed.

(** C5, as the code has it: whatever the request, the driver and the state, an
    exception that leaves a handler is an [HTTPException] whose status
    is 400, 404, 500 or 503 and whose detail is a string, so that the
    response carries that status and [{"detail": detail}].  When an
    import, a driver call or the JSON decoder that the handler of a
    database endpoint reaches raises, the response is such a 500.  A
    value that a handler returns is answered 200, unless the framework
    cannot serialise it: then the response is the server's plain-text
    500, which has no detail.  So every response has one of the statuses
    200, 400, 404, 500 and 503. *)
Theorem errors_use_documented_statuses app req w :
  (forall e, (dispatch app req w).1 = inl e ->
     exists c detail,
       e = HTTPException c detail /\ documented_status c
       /\ (serve app req w).1
          = {| status := c; body := VDict [("detail", VStr detail)] |})
  /\ (unexpected_exception app w req ->
      database_endpoint req = true
      /\ exists detail,
           (serve app req w).1
           = {| status := 500; body := VDict [("detail", VStr detail)] |})
  /\ (forall v, (dispatch app req w).1 = inr v ->
        (serve app req w).1
        = if jsonable v then {| status := 200; body := v |} else internal_server_error)
  /\ (status (serve app req w).1 = 200 \/ documented_status (status (serve app req w).1)).
Proof.
  assert (Hraised : forall e, (dispatch app req w).1 = inl e ->
            exists c detail,
              e = HTTPException c detail /\ documented_status c
              /\ (serve app req w).1
                 = {| status := c; body := VDict [("detail", VStr detail)] |}).
  { intros e He. pose proof (dispatch_well_reported app req w) as Hw.
    rewrite status_serve. rewrite He in Hw |- *.
    destruct e as [c detail | | |]; try done. by exists c, detail. }
  split; [exact Hraised |]. split; [| split; [apply serve_returned |]].
  - intros Hu. split.
    + destruct Hu as [e req Hi Hreq | | | | | | | | | | | | |]; try done.
      by destruct req.
    + destruct (unexpected_exception_500 app w req Hu) as [detail Hd].
      exists detail. by rewrite status_serve, Hd.
  - destruct (dispatch app req w).1 as [e | v] eqn:Hr.
    + destruct (Hraised e eq_refl) as (c & detail & _ & Hc & ->). by right.
    + rewrite (serve_returned app req w v Hr).
      destruct (jsonable v); [by left |]. right. unfold documented_status. cbn. auto.
Qed.

Lemma stringify_id_is_str doc v :
  Dict.get "_id" (main.stringify_id doc) = Some v -> exists s, v = VStr s.
Proof.
  unfold main.stringify_id. destruct (Dict.get "_id" doc) as [x |] eqn:Hx.
  - rewrite get_set_eq. intros [= <-]. eauto.
  - by rewrite Hx.
Qed.

(** What the loop over the fetched documents makes of one of them. *)
Lemma stringify_id_as_string doc : id_as_string doc (main.stringify_id doc).
Proof.
  unfold id_as_string, main.stringify_id.
  destruct (Dict.get "_id" doc) as [v |] eqn:Hv; [| by rewrite Hv].
  split; [| split].
  - apply keys_set_present, has_get. by rewrite Hv.
  - intros k Hk. by rewrite get_set_ne.
  - by rewrite get_set_eq.
Qed.

(** C9: when [GET /api/database/collections/{collection_name}] answers
    with documents, the query ran with the limit [min(limit, 1000)]
    (100 when the parameter was not given) and the given [skip], and the
    response echoes both.  The documents of the response are those the
    driver returned, in their order, each with the same keys and the
    same values except that the value of ["_id"], where there is one,
    is [str] of the stored one: so every ["_id"] in the response is a
    string. *)
Theorem page_is_capped_and_ids_are_strings app coll limit skip filter w body w' :
  dispatch app (GET_collection coll limit skip filter) w = (inr body, w') ->
  let lim := Z.min (default 100 limit) 1000 in
  let sk := default 0 skip in
  (limit = None -> lim = 100)
  /\ exists f total documents returned,
      decode_filter filter = Decoded f
      /\ drv_count_documents coll f (store w) = inr total
      /\ drv_find coll f (Some sk) (Some lim) (store w) = inr documents
      /\ calls w' = calls w ++ [ListCollectionNames; CountDocuments coll f;
                                Find coll f (Some sk) (Some lim)]
      /\ body = VDict [("ok", VBool true);
                       ("collection", VStr coll);
                       ("documents", VList (VDict <$> returned));
                       ("total", VInt total);
                       ("limit", VInt lim);
                       ("skip", VInt sk)]
      /\ Forall2 id_as_string documents returned
      /\ forall doc v, doc ∈ returned -> Dict.get "_id" doc = Some v ->
                       exists s, v = VStr s.
Proof.
  intros Hrun lim sk. split; [by intros -> |].
  rewrite get_collection_run in Hrun. cbv zeta in Hrun. fold lim sk in Hrun.
  destruct (database.import_module (environ app)) as [e | [h |]]; try done.
  destruct (drv_list_collection_names (store w)) as [m | names]; [done |].
  destruct (negb (bool_decide (coll ∈ names))); [done |].
  destruct (decode_filter filter) as [f | m | m]; [| done | done].
  destruct (drv_count_documents coll f (store w)) as [m | total] eqn:Hcount; [done |].
  destruct (drv_find coll f (Some sk) (Some lim) (store w)) as [m | documents] eqn:Hfind;
    [done |].
  injection Hrun as <- <-. exists f, total, documents, (main.stringify_id <$> documents).
  do 3 (split; [done |]). split; [| split; [done | split]].
  - unfold called; cbn [calls]. by rewrite <- !app_assoc.
  - apply Forall2_fmap_r, Forall_Forall2_diag, Forall_forall.
    intros doc _. apply stringify_id_as_string.
  - intros doc v Hdoc Hv. apply list_elem_of_fmap in Hdoc as (raw & -> & _).
    by apply stringify_id_is_str in Hv.
Qed.
End StatusTable.

(** C1, where the code departs from it: with neither variable set,
    [db] is [None], and [GET /api/database/collections] answers 500,
    not 503: [list_collections] raises the 503 inside a [try] whose
    only clause is [except Exception].  The handler of
    [GET /api/database/collections/{collection_name}], which re-raises
    an [HTTPException], answers 503 in the same state. *)
Theorem list_collections_without_db_answers_500 :
  @database.import_module MemStore.t _ ∅ = inr None
  /\ (serve (shipped ∅) GET_collections Sample.w0).1
     = {| status := 500;
          body := VDict [("detail",
                          VStr "Error listing collections: 503: Database not connected")] |}
  /\ status (serve (shipped ∅) (GET_collection "users" None None None) Sample.w0).1 = 503.
Proof. split; [reflexivity |]. split; by vm_compute. Qed.

(** C8 as stated fails, on its last clause.  The
    stored document has [status = "active"]; a [PUT] of that same value,
    made once the clock has moved, matches the document and changes no
    field of the body, and still the answer is 200, not 404:
    [update_document] puts a fresh [updated_at] into the [$set], so the
    driver does modify the document. *)
Lemma put_same_values_later_is_200 :
  let w := World [] 1%nat Sample.store0 [] [] in
  let req :=
    PUT_document "users" "000000000000000000000001" [("status", VStr "active")] in
  MemStore.docs_of "users" (store w) = [Sample.john]
  /\ ObjectId_of_str "000000000000000000000001" = Some (oid 1)
  /\ Dict.get "_id" Sample.john = Some (VObjectId (oid 1))
  /\ Dict.get "status" Sample.john = Some (VStr "active")
  /\ status (serve Sample.app req w).1 = 200
  /\ MemStore.docs_of "users" (store (serve Sample.app req w).2)
     = [Dict.set "updated_at" (VDatetime (sample_clock 1)) Sample.john].
Proof.
  cbv zeta.
  split; [by vm_compute |]. split; [by vm_compute |]. split; [by vm_compute |].
  split; [by vm_compute |]. split; by vm_compute.
Qed.


(** ** Validation before the write *)

Section Validation.
Context {St : Type} `{Driver St} `{Builtins}.
Implicit Types (app : App) (w : world St) (d : pydict) (h : Database).

(** When the validation admits the body, [create] reaches
    [insert_one] and [update] reaches [update_one]. *)
Lemma admitted_create_calls app h coll d w :
  db_handle app h ->
  admits (verdict_of app coll (Some d)) = true ->
  calls (dispatch app (POST_create coll d) w).2
  = calls w ++ [InsertOne coll (stamped_for_insert d (ticks w))].
Proof.
  intros Hh Hv. rewrite post_create_run, Hh. cbv zeta.
  rewrite (create_document_run h coll _ (with_body d w) d) by apply heap_fresh_lookup.
  cbn [ticks store calls with_body].
  destruct (verdict_of app coll (Some d)); try done;
    by destruct (drv_insert_one _ _ _) as [[m | id] s'].
Qed.

Lemma admitted_update_calls app h coll doc_id obj_id d w :
  db_handle app h ->
  admits (verdict_of app coll (Some d)) = true ->
  ObjectId_of_str doc_id = Some obj_id ->
  calls (dispatch app (PUT_document coll doc_id d) w).2
  = calls w ++ [UpdateOne coll (VDict [("_id", VObjectId obj_id)])
                          [("$set", VDict (stamped_for_update d (ticks w)))]].
Proof.
  intros Hh Hv Hi. rewrite put_document_run, Hh, Hi. cbv zeta.
  rewrite (update_document_run h coll _ _ (with_body d w) d) by apply heap_fresh_lookup.
  cbn [ticks store calls with_body].
  destruct (verdict_of app coll (Some d)); try done;
    by destruct (drv_update_one _ _ _ _) as [[m | res] s'].
Qed.

(** A body that the validation does not admit leads to no driver call,
    whatever else holds of the request. *)
Lemma refused_create_is_silent app coll d w :
  admits (verdict_of app coll (Some d)) = false ->
  calls (dispatch app (POST_create coll d) w).2 = calls w
  /\ store (dispatch app (POST_create coll d) w).2 = store w.
Proof.
  intros Hv. rewrite post_create_run. cbv zeta.
  destruct (database.import_module (environ app)) as [e | [h |]]; [done | | done].
  by destruct (verdict_of app coll (Some d)).
Qed.

Lemma refused_update_is_silent app coll doc_id d w :
  admits (verdict_of app coll (Some d)) = false ->
  calls (dispatch app (PUT_document coll doc_id d) w).2 = calls w
  /\ store (dispatch app (PUT_document coll doc_id d) w).2 = store w.
Proof.
  intros Hv. rewrite put_document_run. cbv zeta.
  destruct (database.import_module (environ app)) as [e | [h |]]; [done | | done].
  by destruct (verdict_of app coll (Some d)).
Qed.

(** C2: a schema is found for the collection exactly when some member of
    the schemas module is a Pydantic model whose lowercased name is the
    collection name.  A body that the schema rejects leads to no driver
    call and leaves the store as it was, in [create] and in [update],
    and once the handle is set the answer is 400 "Validation failed";
    a body that the schema accepts is written.  Without a schema,
    [validate] reports the document valid with the skip message and the
    write is issued whatever the body is.  (The write needs the handle
    and, in [update], an identifier that parses: those checks are not
    part of the validation.) *)
Theorem validation_gates_the_write app members coll doc_id d w :
  schemas_module app = inr members ->
  let schema := main.build_schema_map members !! coll in
  let created := dispatch app (POST_create coll d) w in
  let updated := dispatch app (PUT_document coll doc_id d) w in
  let insert := InsertOne coll (stamped_for_insert d (ticks w)) in
  let update obj_id :=
    UpdateOne coll (VDict [("_id", VObjectId obj_id)])
              [("$set", VDict (stamped_for_update d (ticks w)))] in
  let written :=
    forall h, db_handle app h ->
      calls created.2 = calls w ++ [insert]
      /\ forall obj_id, ObjectId_of_str doc_id = Some obj_id ->
                        calls updated.2 = calls w ++ [update obj_id] in
  (is_Some schema
   <-> exists nm obj c, (nm, obj) ∈ members /\ main.pydantic_model obj = Some c
                        /\ lower nm = coll)
  /\ (forall cls errors,
        schema = Some cls ->
        model_validate cls d = Rejected errors ->
        calls created.2 = calls w /\ store created.2 = store w
        /\ calls updated.2 = calls w /\ store updated.2 = store w
        /\ forall h, db_handle app h ->
             let refusal :=
               inl (HTTPException 400
                      ("Validation failed: " ++ py_str (VList errors))%string) in
             created.1 = refusal /\ updated.1 = refusal)
  /\ (forall cls, schema = Some cls -> model_validate cls d = Validated -> written)
  /\ (schema = None ->
      (dispatch app (POST_validate coll d) w).1
      = inr (VDict [("ok", VBool true); ("valid", VBool true);
                    ("message",
                     VStr "No schema defined for this collection, skipping validation")])
      /\ written).
Proof.
  intros Hs schema created updated insert update written.
  split; [apply build_schema_map_is_Some |].
  assert (Hv : verdict_of app coll (Some d)
               = match schema with
                 | None => Skipped
                 | Some cls => match model_validate cls d with
                               | Validated => Passed
                               | Rejected errors => Failed errors
                               end
                 end).
  { unfold verdict_of. by rewrite Hs. }
  assert (Hwritten : admits (verdict_of app coll (Some d)) = true -> written).
  { intros Ha h Hh. split.
    - by apply (admitted_create_calls app h).
    - intros obj_id Ho. by apply (admitted_update_calls app h). }
  split; [| split].
  - intros cls errors Hcls Hm. rewrite Hcls, Hm in Hv.
    destruct (refused_create_is_silent app coll d w) as [Hc1 Hc2]; [by rewrite Hv |].
    destruct (refused_update_is_silent app coll doc_id d w) as [Hu1 Hu2]; [by rewrite Hv |].
    do 4 (split; [done |]).
    intros h Hh refusal. subst created updated refusal. split.
    + by rewrite post_create_run, Hh, Hv.
    + by rewrite put_document_run, Hh, Hv.
  - intros cls Hcls Hm. rewrite Hcls, Hm in Hv. apply Hwritten. by rewrite Hv.
  - intros Hnone. rewrite Hnone in Hv. split.
    + by rewrite post_validate_run, Hv.
    + apply Hwritten. by rewrite Hv.
Qed.

Lemma shipped_schema_map : main.build_schema_map schemas.members = ∅.
Proof. reflexivity. Qed.

Lemma shipped_verdict env coll d : verdict_of (shipped env) coll (Some d) = Skipped.
Proof.
  unfold verdict_of. cbn [schemas_module shipped].
  by rewrite shipped_schema_map, lookup_empty.
Qed.

(** C6: the shipped [schemas.py] has no Pydantic model among its
    members, so [GET /api/database/schemas] answers [ok] with an empty
    [schemas] map, [validate] answers the skip message for every
    collection and document, and neither [create] nor [update] ever
    answers "Validation failed". *)
Theorem shipped_schemas_validate_nothing env coll doc_id d w :
  (forall nm obj, (nm, obj) ∈ schemas.members -> main.pydantic_model obj = None)
  /\ dispatch (shipped env) GET_schemas w
     = (inr (VDict [("ok", VBool true); ("schemas", VDict [])]), w)
  /\ dispatch (shipped env) (POST_validate coll d) w
     = (inr (VDict [("ok", VBool true); ("valid", VBool true);
                    ("message",
                     VStr "No schema defined for this collection, skipping validation")]),
        with_body d w)
  /\ (forall s, (dispatch (shipped env) (POST_create coll d) w).1
                <> inl (HTTPException 400 ("Validation failed: " ++ s)%string))
  /\ (forall s, (dispatch (shipped env) (PUT_document coll doc_id d) w).1
                <> inl (HTTPException 400 ("Validation failed: " ++ s)%string)).
Proof.
  split; [| split; [| split; [| split]]].
  - intros nm obj Hin. unfold schemas.members in Hin.
    repeat (apply elem_of_cons in Hin as [[= _ ->] | Hin]; [done |]).
    by apply elem_of_nil in Hin.
  - reflexivity.
  - by rewrite post_validate_run, shipped_verdict.
  - intros s. rewrite post_create_run, shipped_verdict. cbv zeta.
    destruct (database.import_module _) as [e | [h |]] eqn:Hi; cbn [fst].
    + by destruct (import_module_exn _ _ Hi) as [m ->].
    + destruct (database.create_document _ _ _ _) as [[e | id] w'] eqn:Hc; [| done].
      apply (f_equal fst) in Hc; cbn [fst] in Hc.
      by destruct (create_document_raises _ _ _ _ _ Hc) as [m ->].
    + done.
  - intros s. rewrite put_document_run, shipped_verdict. cbv zeta.
    destruct (database.import_module _) as [e | [h |]] eqn:Hi; cbn [fst].
    + by destruct (import_module_exn _ _ Hi) as [m ->].
    + destruct (ObjectId_of_str doc_id); [| done].
      destruct (database.update_document _ _ _ _ _) as [[e | [|]] w'] eqn:Hc; try done.
      apply (f_equal fst) in Hc; cbn [fst] in Hc.
      by destruct (update_document_raises _ _ _ _ _ _ Hc) as [m ->].
    + done.
Qed.
End Validation.

(** ** Not found *)

Section NotFound.
Context {St : Type} `{Driver St} `{Builtins}.
Implicit Types (app : App) (w : world St) (d : pydict) (h : Database).

Lemma put_not_found_iff app coll doc_id d w :
  status (serve app (PUT_document coll doc_id d) w).1 = 404
  <-> exists h obj_id,
        db_handle app h
        /\ admits (verdict_of app coll (Some d)) = true
        /\ ObjectId_of_str doc_id = Some obj_id
        /\ (database.update_document (Some h) coll [("_id", VObjectId obj_id)]
              (DataDict (length (heap w))) (with_body d w)).1 = inr false.
Proof.
  rewrite status_serve, status_raised by done.
  rewrite put_document_run. cbv zeta. unfold db_handle.
  destruct (database.import_module (environ app)) as [e | [h |]] eqn:Hi; cbn [fst].
  - destruct (import_module_exn _ _ Hi) as [m ->]. split; [by intros [? ?] |].
    by intros (? & ? & ? & _).
  - destruct (verdict_of app coll (Some d)) eqn:Hv; cbn [fst];
      try (split; [by intros [? ?] | by intros (? & ? & _ & ? & _)]).
    all: destruct (ObjectId_of_str doc_id) as [obj_id |] eqn:Ho; cbn [fst];
      try (split; [by intros [? ?] | by intros (? & ? & _ & _ & ? & _)]).
    all: destruct (database.update_document _ _ _ _ _) as [[e | [|]] w'] eqn:Hr;
      apply (f_equal fst) in Hr; cbn [fst] in Hr; cbn [fst].
    all: try (destruct (update_document_raises _ _ _ _ _ _ Hr) as [m ->]).
    all: split; [ try by intros [? ?] | ].
    all: try (intros _; by exists h, obj_id).
    all: intros (h' & obj' & [= <-] & _ & [= <-] & Hr'); rewrite Hr in Hr';
      first [done | by eexists].
  - split; [by intros [? ?] |]. by intros (? & ? & ? & _).
Qed.

Lemma delete_not_found_iff app coll doc_id w :
  status (serve app (DELETE_document coll doc_id) w).1 = 404
  <-> exists h obj_id,
        db_handle app h
        /\ ObjectId_of_str doc_id = Some obj_id
        /\ (database.delete_document (Some h) coll [("_id", VObjectId obj_id)] w).1
           = inr false.
Proof.
  rewrite status_serve, status_raised by done.
  rewrite delete_document_endpoint_run. unfold db_handle.
  destruct (database.import_module (environ app)) as [e | [h |]] eqn:Hi; cbn [fst].
  - destruct (import_module_exn _ _ Hi) as [m ->]. split; [by intros [? ?] |].
    by intros (? & ? & ? & _).
  - destruct (ObjectId_of_str doc_id) as [obj_id |] eqn:Ho; cbn [fst];
      try (split; [by intros [? ?] | by intros (? & ? & _ & ? & _)]).
    destruct (database.delete_document _ _ _ _) as [[e | [|]] w'] eqn:Hr;
      apply (f_equal fst) in Hr; cbn [fst] in Hr; cbn [fst].
    all: try (destruct (delete_document_raises _ _ _ _ _ Hr) as [m ->]).
    all: split; [ try by intros [? ?] | ].
    all: try (intros _; by exists h, obj_id).
    all: intros (h' & obj' & [= <-] & [= <-] & Hr'); rewrite Hr in Hr';
      first [done | by eexists].
  - split; [by intros [? ?] |]. by intros (? & ? & ? & _).
Qed.

Lemma not_found_detail app req w :
  status (serve app req w).1 = 404 ->
  (exists coll doc_id d, req = PUT_document coll doc_id d)
  \/ (exists coll doc_id, req = DELETE_document coll doc_id) ->
  (serve app req w).1 = not_found.
Proof.
  intros Hs [(coll & i & d & ->) | (coll & i & ->)].
  - apply put_not_found_iff in Hs as (h & obj_id & Hh & Hv & Ho & Hr).
    rewrite status_serve, put_document_run, Hh, Ho. cbv zeta.
    destruct (database.update_document _ _ _ _ _) as [r w']. cbn [fst] in Hr. subst r.
    by destruct (verdict_of app coll (Some d)).
  - apply delete_not_found_iff in Hs as (h & obj_id & Hh & Ho & Hr).
    rewrite status_serve, delete_document_endpoint_run, Hh, Ho.
    destruct (database.delete_document _ _ _ _) as [r w']. cbn [fst] in Hr. by subst r.
Qed.

(** C8, as the code has it: [update_document] returns [True] exactly
    when the driver reports [modified_count > 0], [delete_document]
    exactly when it reports [deleted_count > 0]; [PUT] and [DELETE]
    answer 404 exactly when they reached the helper and it returned
    [False], and the detail is then "Document not found".  So a [PUT]
    for which the driver reports a match and no modification is
    answered 404; whether a body that repeats the stored values is
    such a [PUT] is the driver's to say, the [$set] holding a fresh
    [updated_at] besides the body. *)
Theorem not_found_iff_nothing_modified app coll doc_id d w :
  (forall h flt data u res s',
      update_payload data (heap w) = Some u ->
      drv_update_one coll (VDict flt) [("$set", VDict (stamped_for_update u (ticks w)))]
                     (store w) = (inr res, s') ->
      exists b, (database.update_document (Some h) coll flt data w).1 = inr b
                /\ (b = true <-> 0 < modified_count res))
  /\ (forall h flt res s',
      drv_delete_one coll (VDict flt) (store w) = (inr res, s') ->
      exists b, (database.delete_document (Some h) coll flt w).1 = inr b
                /\ (b = true <-> 0 < deleted_count res))
  /\ (status (serve app (PUT_document coll doc_id d) w).1 = 404
      <-> exists h obj_id,
            db_handle app h
            /\ admits (verdict_of app coll (Some d)) = true
            /\ ObjectId_of_str doc_id = Some obj_id
            /\ (database.update_document (Some h) coll [("_id", VObjectId obj_id)]
                  (DataDict (length (heap w))) (with_body d w)).1 = inr false)
  /\ (status (serve app (DELETE_document coll doc_id) w).1 = 404
      <-> exists h obj_id,
            db_handle app h
            /\ ObjectId_of_str doc_id = Some obj_id
            /\ (database.delete_document (Some h) coll [("_id", VObjectId obj_id)] w).1
               = inr false)
  /\ (status (serve app (PUT_document coll doc_id d) w).1 = 404 ->
      (serve app (PUT_document coll doc_id d) w).1 = not_found)
  /\ (status (serve app (DELETE_document coll doc_id) w).1 = 404 ->
      (serve app (DELETE_document coll doc_id) w).1 = not_found)
  /\ (forall h obj_id res s',
      db_handle app h ->
      admits (verdict_of app coll (Some d)) = true ->
      ObjectId_of_str doc_id = Some obj_id ->
      drv_update_one coll (VDict [("_id", VObjectId obj_id)])
                     [("$set", VDict (stamped_for_update d (ticks w)))] (store w)
        = (inr res, s') ->
      0 < matched_count res ->
      modified_count res = 0 ->
      (serve app (PUT_document coll doc_id d) w).1 = not_found).
Proof.
  split; [| split; [| split; [| split; [| split; [| split]]]]].
  - intros h flt data u res s' Hu Hd.
    rewrite (update_document_run h coll flt data w u Hu). cbv zeta. rewrite Hd.
    eexists; split; [done |]. rewrite Z.ltb_lt. done.
  - intros h flt res s' Hd. rewrite delete_document_run, Hd.
    eexists; split; [done |]. rewrite Z.ltb_lt. done.
  - apply put_not_found_iff.
  - apply delete_not_found_iff.
  - intros Hs. apply not_found_detail; eauto.
  - intros Hs. apply not_found_detail; eauto.
  - intros h obj_id res s' Hh Hv Ho Hd Hmatched Hmod.
    apply not_found_detail; [| eauto].
    apply put_not_found_iff. exists h, obj_id. repeat split; try done.
    rewrite (update_document_run h coll _ _ (with_body d w) d) by apply heap_fresh_lookup.
    cbn [ticks store with_body]. rewrite Hd, Hmod. done.
Qed.
End NotFound.

(** ** The HTTP layer on the sample deployment *)

(** With the server down, [GET /api/database/collections] answers 500
    with a detail; a [DELETE] with a malformed identifier raises the 400
    it reports. *)
Lemma errors_use_documented_statuses_witness :
  unexpected_exception Sample.app Sample.w_down GET_collections
  /\ (exists detail,
        (serve Sample.app GET_collections Sample.w_down).1
        = {| status := 500; body := VDict [("detail", VStr detail)] |})
  /\ (dispatch Sample.app (DELETE_document "users" "zz") Sample.w0).1
     = inl (HTTPException 400 "Invalid document ID format")
  /\ exists c detail,
       HTTPException 400 "Invalid document ID format" = HTTPException c detail
       /\ documented_status c
       /\ (serve Sample.app (DELETE_document "users" "zz") Sample.w0).1
          = {| status := c; body := VDict [("detail", VStr detail)] |}.
Proof.
  assert (Hu : unexpected_exception Sample.app Sample.w_down GET_collections)
    by (eapply list_names_raises; reflexivity).
  assert (Hd : (dispatch Sample.app (DELETE_document "users" "zz") Sample.w0).1
               = inl (HTTPException 400 "Invalid document ID format"))
    by (vm_compute; reflexivity).
  split; [exact Hu |].
  split; [exact (proj2 (proj1 (proj2 (errors_use_documented_statuses
                                        Sample.app GET_collections Sample.w_down)) Hu)) |].
  split; [exact Hd |].
  exact (proj1 (errors_use_documented_statuses
                  Sample.app (DELETE_document "users" "zz") Sample.w0) _ Hd).
Defined.

(** C5 as stated fails where the framework cannot
    serialise what a handler returned.  The one order of the sample
    store refers to its customer by an [ObjectId]; the handler returns
    the page, only the top-level ["_id"] made a string, and the
    response is the server's plain-text 500: an error response that
    carries no detail. *)
Lemma unserialisable_page_has_no_detail :
  let req := GET_collection "orders" None None None in
  let answer := (serve Sample.app req Fixtures.w_orders).1 in
  (exists page,
      (dispatch Sample.app req Fixtures.w_orders).1 = inr (VDict page)
      /\ Dict.get "documents" page
         = Some (VList [VDict [("_id", VStr "000000000000000000000007");
                               ("customer", VObjectId (oid 1));
                               ("total", VInt 30)]]))
  /\ answer = {| status := 500; body := VStr "Internal Server Error" |}
  /\ forall detail, body answer <> VDict [("detail", VStr detail)].
Proof.
  cbv zeta. split; [| split].
  - eexists. split; vm_compute; reflexivity.
  - vm_compute. reflexivity.
  - intros detail. vm_compute. discriminate.
Qed.

(** The first page of [users] on the sample store, no parameter given:
    the stored document comes back with its identifier as text. *)
Lemma page_is_capped_and_ids_are_strings_witness :
  dispatch Sample.app (GET_collection "users" None None None) Sample.w0
  = (inr Sample.users_page, Sample.users_page_world)
  /\ Z.min (default 100 None) 1000 = 100
  /\ exists f total documents returned,
       decode_filter None = Decoded f
       /\ MemStore.count_documents "users" f Sample.store0 = inr total
       /\ MemStore.find "users" f (Some 0) (Some 100) Sample.store0 = inr documents
       /\ calls Sample.users_page_world
          = [ListCollectionNames; CountDocuments "users" f;
             Find "users" f (Some 0) (Some 100)]
       /\ Sample.users_page
          = VDict [("ok", VBool true);
                   ("collection", VStr "users");
                   ("documents", VList (VDict <$> returned));
                   ("total", VInt total);
                   ("limit", VInt 100);
                   ("skip", VInt 0)]
       /\ Forall2 id_as_string documents returned
       /\ forall doc v, doc ∈ returned -> Dict.get "_id" doc = Some v ->
                        exists s, v = VStr s.
Proof.
  assert (Hrun : dispatch Sample.app (GET_collection "users" None None None) Sample.w0
                 = (inr Sample.users_page, Sample.users_page_world))
    by (vm_compute; reflexivity).
  split; [exact Hrun |].
  destruct (page_is_capped_and_ids_are_strings
              Sample.app "users" None None None Sample.w0
              Sample.users_page Sample.users_page_world Hrun) as [Hdefault Hpage].
  split; [exact (Hdefault eq_refl) | exact Hpage].
Defined.

(** A body that the [Account] schema rejects is refused with 400 and
    nothing is written; with no schema for ["users"], the same body is
    inserted.  A class [École] is the schema of the collection
    ["école"], and refuses the same body there. *)
Lemma validation_gates_the_write_witness :
  db_handle (St := MemStore.t) Sample.app_with_schema Sample.db0
  /\ main.build_schema_map
       (("Account", PyClass Sample.Account) :: ("BaseModel", PyClass Sample.BaseModel)
        :: schemas.members) !! "account" = Some Sample.Account
  /\ model_validate Sample.Account [("email", VInt 3)]
     = Rejected [VDict [("type", VStr "string_type"); ("loc", VList [VStr "email"])]]
  /\ main.build_schema_map
       (("Account", PyClass Sample.Account) :: ("BaseModel", PyClass Sample.BaseModel)
        :: schemas.members) !! "users" = None
  /\ (dispatch Sample.app_with_schema (POST_create "account" [("email", VInt 3)])
        Sample.w0).1
     = inl (HTTPException 400
              ("Validation failed: "
               ++ py_str (VList [VDict [("type", VStr "string_type");
                                        ("loc", VList [VStr "email"])]]))%string)
  /\ calls (dispatch Sample.app_with_schema (POST_create "account" [("email", VInt 3)])
              Sample.w0).2 = calls Sample.w0
  /\ calls (dispatch Sample.app_with_schema (POST_create "users" [("email", VInt 3)])
              Sample.w0).2
     = calls Sample.w0
       ++ [InsertOne "users" (stamped_for_insert [("email", VInt 3)] (ticks Sample.w0))]
  /\ main.build_schema_map Fixtures.members_accented !! "école" = Some Sample.Account
  /\ (dispatch Fixtures.app_accented (POST_create "école" [("email", VInt 3)])
        Sample.w0)
     = (inl (HTTPException 400
               ("Validation failed: "
                ++ py_str (VList [VDict [("type", VStr "string_type");
                                         ("loc", VList [VStr "email"])]]))%string),
        with_body [("email", VInt 3)] Sample.w0).
Proof.
  assert (Hh : db_handle (St := MemStore.t) Sample.app_with_schema Sample.db0)
    by reflexivity.
  assert (Hh' : db_handle (St := MemStore.t) Fixtures.app_accented Sample.db0)
    by reflexivity.
  assert (Hs' : main.build_schema_map Fixtures.members_accented !! "école"
                = Some Sample.Account)
    by (vm_compute; reflexivity).
  assert (Hs : main.build_schema_map
                 (("Account", PyClass Sample.Account)
                  :: ("BaseModel", PyClass Sample.BaseModel) :: schemas.members)
               !! "account" = Some Sample.Account)
    by (vm_compute; reflexivity).
  assert (Hm : model_validate Sample.Account [("email", VInt 3)]
               = Rejected [VDict [("type", VStr "string_type");
                                  ("loc", VList [VStr "email"])]])
    by reflexivity.
  assert (Hn : main.build_schema_map
                 (("Account", PyClass Sample.Account)
                  :: ("BaseModel", PyClass Sample.BaseModel) :: schemas.members)
               !! "users" = None)
    by (vm_compute; reflexivity).
  split; [exact Hh |]. split; [exact Hs |]. split; [exact Hm |]. split; [exact Hn |].
  destruct (validation_gates_the_write Sample.app_with_schema _ "account"
              "000000000000000000000001" [("email", VInt 3)] Sample.w0 eq_refl)
    as (_ & Hrejected & _).
  destruct (validation_gates_the_write Sample.app_with_schema _ "users"
              "000000000000000000000001" [("email", VInt 3)] Sample.w0 eq_refl)
    as (_ & _ & _ & Hnone).
  destruct (validation_gates_the_write Fixtures.app_accented _ "école"
              "000000000000000000000001" [("email", VInt 3)] Sample.w0 eq_refl)
    as (_ & Haccented & _).
  destruct (Hrejected _ _ Hs Hm) as (Hc & _ & _ & _ & Hr).
  destruct (Hr _ Hh) as [Hr1 _].
  destruct (Hnone Hn) as [_ Hw]. destruct (Hw _ Hh) as [Hi _].
  destruct (Haccented _ _ Hs' Hm) as (_ & _ & _ & _ & Hr').
  destruct (Hr' _ Hh') as [Hr2 _].
  split; [exact Hr1 |]. split; [exact Hc |]. split; [exact Hi |]. split; [exact Hs' |].
  rewrite (surjective_pairing (dispatch _ _ _)). rewrite Hr2. f_equal.
Defined.

(** The stored document already has [status = "active"] and the
    [updated_at] that the clock shows: the driver matches it, modifies
    nothing, and the answer is 404.  An identifier of 22 digits and two
    spaces is one that [ObjectId] accepts: the driver is asked, finds no
    such document, and the answer is 404 too. *)
Lemma not_found_iff_nothing_modified_witness :
  db_handle (St := MemStore.t) Sample.app Sample.db0
  /\ admits (verdict_of Sample.app "users" (Some [("status", VStr "active")])) = true
  /\ ObjectId_of_str "000000000000000000000001" = Some (oid 1)
  /\ MemStore.update_one "users" (VDict [("_id", VObjectId (oid 1))])
       [("$set", VDict (stamped_for_update [("status", VStr "active")] 0))] Sample.store0
     = (inr {| matched_count := 1; modified_count := 0 |}, Sample.store0)
  /\ (serve Sample.app
        (PUT_document "users" "000000000000000000000001" [("status", VStr "active")])
        Sample.w0).1 = not_found
  /\ ObjectId_of_str "0123456789abcdef012345  "
     = Some (mkObjectId [1; 35; 69; 103; 137; 171; 205; 239; 1; 35; 69]%N)
  /\ status (serve Sample.app (DELETE_document "users" "0123456789abcdef012345  ")
               Sample.w0).1 = 404.
Proof.
  assert (Hh : db_handle (St := MemStore.t) Sample.app Sample.db0) by reflexivity.
  assert (Hspaced : ObjectId_of_str "0123456789abcdef012345  "
                    = Some (mkObjectId [1; 35; 69; 103; 137; 171; 205; 239; 1; 35; 69]%N))
    by (vm_compute; reflexivity).
  assert (Hv : admits (verdict_of Sample.app "users" (Some [("status", VStr "active")]))
               = true) by (vm_compute; reflexivity).
  assert (Ho : ObjectId_of_str "000000000000000000000001" = Some (oid 1))
    by (vm_compute; reflexivity).
  assert (Hd : MemStore.update_one "users" (VDict [("_id", VObjectId (oid 1))])
                 [("$set", VDict (stamped_for_update [("status", VStr "active")] 0))]
                 Sample.store0
               = (inr {| matched_count := 1; modified_count := 0 |}, Sample.store0))
    by (vm_compute; reflexivity).
  split; [exact Hh |]. split; [exact Hv |]. split; [exact Ho |]. split; [exact Hd |].
  destruct (not_found_iff_nothing_modified Sample.app "users" "000000000000000000000001"
              [("status", VStr "active")] Sample.w0) as (_ & _ & _ & _ & _ & _ & Hput).
  destruct (not_found_iff_nothing_modified Sample.app "users" "0123456789abcdef012345  "
              [] Sample.w0) as (_ & _ & _ & Hdelete & _).
  split; [exact (Hput Sample.db0 (oid 1) _ _ Hh Hv Ho Hd eq_refl eq_refl) |].
  split; [exact Hspaced |].
  apply Hdelete. eexists _, _. split; [exact Hh |]. split; [exact Hspaced |].
  vm_compute. reflexivity.
Defined.


(** ** The schema listing *)

Lemma is_Some_get_set k k' v d :
  is_Some (Dict.get k (Dict.set k' v d)) <-> k = k' \/ is_Some (Dict.get k d).
Proof.
  destruct (decide (k' = k)) as [-> | Hne].
  - rewrite get_set_eq. split; eauto.
  - rewrite get_set_ne by done. split; [by right | intros [-> | ?]; done].
Qed.

Section Listing.
Context {St : Type} `{Driver St} `{Builtins}.
Implicit Types (app : App) (w : world St) (d : pydict).

Lemma collect_schemas_run members acc w :
  main.collect_schemas members acc w
  = (inr (listed_schemas members acc), printed (schema_errors members) w).
Proof.
  revert acc w. induction members as [| [nm obj] rest IH]; intros acc w; simpl.
  - unfold printed. rewrite app_nil_r. by destruct w.
  - destruct (main.pydantic_model obj) as [c |]; [| apply IH].
    destruct (negb (startswith_underscore nm)); [| apply IH].
    destruct (main.schema_entry c) as [e | entry]; [| apply IH].
    unfold mbind, M_bind, print. rewrite IH. unfold printed. cbn [heap ticks store calls stdout].
    by rewrite <- app_assoc.
Qed.

Lemma listed_schemas_keys members acc nm :
  is_Some (Dict.get nm (listed_schemas members acc))
  <-> is_Some (Dict.get nm acc)
      \/ exists obj c entry,
           (nm, obj) ∈ members /\ main.pydantic_model obj = Some c
           /\ startswith_underscore nm = false /\ main.schema_entry c = inr entry.
Proof.
  revert acc. induction members as [| [nm' obj'] rest IH]; intros acc; simpl.
  - split; [by left |]. intros [? | (? & ? & ? & Hin & _)]; [done |].
    by apply elem_of_nil in Hin.
  - assert (Hskip : (is_Some (Dict.get nm acc)
                     \/ exists obj c entry,
                          (nm, obj) ∈ rest /\ main.pydantic_model obj = Some c
                          /\ startswith_underscore nm = false
                          /\ main.schema_entry c = inr entry)
                    -> is_Some (Dict.get nm acc)
                       \/ exists obj c entry,
                            (nm, obj) ∈ (nm', obj') :: rest
                            /\ main.pydantic_model obj = Some c
                            /\ startswith_underscore nm = false
                            /\ main.schema_entry c = inr entry).
    { intros [? | (obj & c & entry & Hin & ?)]; [by left | right].
      exists obj, c, entry. split; [by apply elem_of_cons; right | done]. }
    destruct (main.pydantic_model obj') as [c' |] eqn:Hp.
    2: { rewrite IH. split; [exact Hskip |].
         intros [? | (obj & c & entry & Hin & Hm & Hu & He)]; [by left |].
         apply elem_of_cons in Hin as [[= -> ->] | Hin]; [congruence |].
         right. by exists obj, c, entry. }
    destruct (startswith_underscore nm') eqn:Hu'; cbn [negb].
    { rewrite IH. split; [exact Hskip |].
      intros [? | (obj & c & entry & Hin & Hm & Hu & He)]; [by left |].
      apply elem_of_cons in Hin as [[= -> ->] | Hin]; [congruence |].
      right. by exists obj, c, entry. }
    destruct (main.schema_entry c') as [e | entry'] eqn:He'.
    { rewrite IH. split; [exact Hskip |].
      intros [? | (obj & c & entry & Hin & Hm & Hu & He)]; [by left |].
      apply elem_of_cons in Hin as [[= -> ->] | Hin]; [congruence |].
      right. by exists obj, c, entry. }
    rewrite IH, is_Some_get_set. split.
    + intros [[-> | ?] | (obj & c & entry & Hin & ?)].
      * right. exists obj', c', entry'. split; [by apply elem_of_cons; left | done].
      * by left.
      * right. exists obj, c, entry. split; [by apply elem_of_cons; right | done].
    + intros [? | (obj & c & entry & Hin & Hm & Hu & He)]; [by left; right |].
      apply elem_of_cons in Hin as [[= -> ->] | Hin]; [by left; left |].
      right. by exists obj, c, entry.
Qed.

Lemma schema_errors_elem members line :
  line ∈ schema_errors members
  <-> exists nm obj c e,
        (nm, obj) ∈ members /\ main.pydantic_model obj = Some c
        /\ startswith_underscore nm = false
        /\ main.schema_entry c = inl e
        /\ line = ("Error processing schema " ++ nm ++ ": " ++ e)%string.
Proof.
  induction members as [| [nm' obj'] rest IH]; simpl.
  - split; [by intros ?%elem_of_nil |]. intros (? & ? & ? & ? & Hin & _).
    by apply elem_of_nil in Hin.
  - assert (Hrest : (exists nm obj c e,
                        (nm, obj) ∈ rest /\ main.pydantic_model obj = Some c
                        /\ startswith_underscore nm = false
                        /\ main.schema_entry c = inl e
                        /\ line = ("Error processing schema " ++ nm ++ ": " ++ e)%string)
                    -> exists nm obj c e,
                        (nm, obj) ∈ (nm', obj') :: rest
                        /\ main.pydantic_model obj = Some c
                        /\ startswith_underscore nm = false
                        /\ main.schema_entry c = inl e
                        /\ line = ("Error processing schema " ++ nm ++ ": " ++ e)%string).
    { intros (nm & obj & c & e & Hin & ?). exists nm, obj, c, e.
      split; [by apply elem_of_cons; right | done]. }
    destruct (main.pydantic_model obj') as [c' |] eqn:Hp.
    2: { rewrite IH. split; [exact Hrest |].
         intros (nm & obj & c & e & Hin & Hm & Hu & He & Hl).
         apply elem_of_cons in Hin as [[= -> ->] | Hin]; [congruence |].
         by exists nm, obj, c, e. }
    destruct (startswith_underscore nm') eqn:Hu'; cbn [negb].
    { rewrite IH. split; [exact Hrest |].
      intros (nm & obj & c & e & Hin & Hm & Hu & He & Hl).
      apply elem_of_cons in Hin as [[= -> ->] | Hin]; [congruence |].
      by exists nm, obj, c, e. }
    destruct (main.schema_entry c') as [e' | entry'] eqn:He'.
    + rewrite elem_of_cons, IH. split.
      * intros [-> | Hex]; [| by apply Hrest].
        exists nm', obj', c', e'. split; [by apply elem_of_cons; left | done].
      * intros (nm & obj & c & e & Hin & Hm & Hu & He & Hl).
        apply elem_of_cons in Hin as [[= -> ->] | Hin].
        -- left. congruence.
        -- right. by exists nm, obj, c, e.
    + rewrite IH. split; [exact Hrest |].
      intros (nm & obj & c & e & Hin & Hm & Hu & He & Hl).
      apply elem_of_cons in Hin as [[= -> ->] | Hin]; [congruence |].
      by exists nm, obj, c, e.
Qed.

Lemma get_all_schemas_listing app members w :
  schemas_module app = inr members ->
  dispatch app GET_schemas w
  = (inr (VDict [("ok", VBool true); ("schemas", VDict (listed_schemas members []))]),
     printed (schema_errors members) w).
Proof.
  intros Hs. cbn [dispatch].
  unfold main.get_all_schemas, try_except, main.import_schemas, lift.
  unfold mbind at 1. unfold M_bind at 1. rewrite Hs.
  unfold mbind, M_bind. by rewrite collect_schemas_run.
Qed.

(** X1. [GET /api/database/schemas] (main.py, [get_all_schemas]): when
    [schemas.py] imports, the handler returns [{"ok": True, "schemas": ...}]
    whatever the members are.  A name is a key of [schemas] exactly when
    some member of that name is a model class other than [BaseModel], does
    not start with an underscore, and has a JSON schema; the members whose
    JSON schema fails are exactly those for which one line
    [Error processing schema <name>: <error>] is printed, and nothing else
    of the world changes. *)
Theorem schemas_listing app members w :
  schemas_module app = inr members ->
  exists schemas_dict,
    dispatch app GET_schemas w
    = (inr (VDict [("ok", VBool true); ("schemas", VDict schemas_dict)]),
       printed (schema_errors members) w)
    /\ (forall nm,
          is_Some (Dict.get nm schemas_dict)
          <-> exists obj c entry,
                (nm, obj) ∈ members /\ main.pydantic_model obj = Some c
                /\ startswith_underscore nm = false
                /\ main.schema_entry c = inr entry)
    /\ (forall line,
          line ∈ schema_errors members
          <-> exists nm obj c e,
                (nm, obj) ∈ members /\ main.pydantic_model obj = Some c
                /\ startswith_underscore nm = false
                /\ main.schema_entry c = inl e
                /\ line = ("Error processing schema " ++ nm ++ ": " ++ e)%string).
Proof.
  intros Hs. exists (listed_schemas members []). split; [| split].
  - by apply get_all_schemas_listing.
  - intros nm. rewrite listed_schemas_keys. split; [| by right].
    by intros [[? ?] | ?].
  - apply schema_errors_elem.
Qed.
End Listing.
Lemma lower_ascii_idempotent c : lower_ascii (lower_ascii c) = lower_ascii c.
Proof. destruct c as [[] [] [] [] [] [] [] []]; reflexivity. Qed.

(** The sample [lower] leaves no ASCII capital, as [str.lower] does. *)
Lemma lower_from_no_capital after s :
  ascii_lower (Str.lower_from after s) = Str.lower_from after s.
Proof.
  revert after. induction s as [| c s IH]; intros after; [done |].
  cbn [Str.lower_from ascii_lower]. cbv zeta. rewrite IH. f_equal.
  destruct after; [| apply lower_ascii_idempotent].
  destruct c as [[] [] [] [] [] [] [] []]; reflexivity.
Qed.

Lemma sample_lower_no_capital s : ascii_lower (lower s) = lower s.
Proof. apply lower_from_no_capital. Qed.

Lemma schema_fold_miss `{Builtins} members acc coll :
  (forall nm obj, (nm, obj) ∈ members -> main.pydantic_model obj <> None ->
                  lower nm <> coll) ->
  fold_left schema_step members acc !! coll = acc !! coll.
Proof.
  revert acc. induction members as [| [nm obj] rest IH]; intros acc Hmiss; simpl; [done |].
  rewrite IH.
  - destruct (main.pydantic_model obj) as [c |] eqn:Hp; [| done].
    apply lookup_insert_ne. apply (Hmiss nm obj); [by apply elem_of_cons; left |].
    by rewrite Hp.
  - intros nm' obj' Hin. apply Hmiss. by apply elem_of_cons; right.
Qed.

Section SchemaNames.
Context {St : Type} `{Driver St} `{Builtins}.
Implicit Types (app : App) (w : world St) (d : pydict).

(** X2. [validate_document] keys its schema map by [name.lower()] and
    looks the collection name up as it was sent.  The result of
    [str.lower] holds no ASCII capital (the premise on [lower]), so a
    collection name that holds one is never a key: [validate] answers
    that no schema is defined and the write handlers skip validation,
    whichever models [schemas.py] declares. *)
Theorem uppercase_collection_is_never_validated app members coll d w :
  schemas_module app = inr members ->
  (forall s, ascii_lower (lower s) = lower s) ->
  ascii_lower coll <> coll ->
  main.build_schema_map members !! coll = None
  /\ (dispatch app (POST_validate coll d) w).1
     = inr (VDict [("ok", VBool true); ("valid", VBool true);
                   ("message",
                    VStr "No schema defined for this collection, skipping validation")])
  /\ verdict_of app coll (Some d) = Skipped.
Proof.
  intros Hs Hlower Hl.
  assert (Hnone : main.build_schema_map members !! coll = None).
  { destruct (main.build_schema_map members !! coll) as [cls |] eqn:Hc; [| done].
    destruct (build_schema_map_lookup _ _ _ Hc) as (nm & obj & _ & _ & <-).
    by rewrite Hlower in Hl. }
  assert (Hv : verdict_of app coll (Some d) = Skipped).
  { unfold verdict_of. by rewrite Hs, Hnone. }
  split; [done |]. split; [| done].
  by rewrite post_validate_run, Hv.
Qed.

(** X3. The schema map is filled by assignment in the order of
    [inspect.getmembers]: of the models whose names agree up to case, the
    one listed last is the schema of the collection. *)
Theorem later_model_wins pre post nm obj c :
  main.pydantic_model obj = Some c ->
  (forall nm' obj', (nm', obj') ∈ post -> main.pydantic_model obj' <> None ->
                    lower nm' <> lower nm) ->
  main.build_schema_map (pre ++ (nm, obj) :: post) !! lower nm = Some c.
Proof.
  intros Hp Hpost. rewrite build_schema_map_fold, fold_left_app. cbn [fold_left].
  rewrite schema_fold_miss by done.
  cbn [schema_step]. rewrite Hp. apply lookup_insert_eq.
Qed.

(** X4. The listing skips names that start with an underscore, the
    schema map of [validate_document] does not: a model [_Name] is the
    schema of the collection [_name] although [GET /api/database/schemas]
    does not show it. *)
Theorem underscore_model_is_enforced_but_not_listed app members nm obj c w :
  schemas_module app = inr members ->
  (nm, obj) ∈ members ->
  main.pydantic_model obj = Some c ->
  startswith_underscore nm = true ->
  is_Some (main.build_schema_map members !! lower nm)
  /\ exists schemas_dict w',
       dispatch app GET_schemas w
       = (inr (VDict [("ok", VBool true); ("schemas", VDict schemas_dict)]), w')
       /\ Dict.get nm schemas_dict = None.
Proof.
  intros Hs Hin Hp Hu. split.
  - apply build_schema_map_is_Some. by exists nm, obj, c.
  - exists (listed_schemas members []), (printed (schema_errors members) w).
    split; [by apply get_all_schemas_listing |].
    destruct (Dict.get nm (listed_schemas members [])) as [v |] eqn:Hg; [| done].
    destruct (proj1 (listed_schemas_keys members [] nm)) as [[? ?] | (? & ? & ? & _ & _ & Hu' & _)];
      [by rewrite Hg | done | congruence].
Qed.
End SchemaNames.
(** ** Reading *)

Section Reading.
Context {St : Type} `{Driver St} `{Builtins}.
Implicit Types (app : App) (w : world St) (d : pydict).

Lemma only_reads_refl w : only_reads w w.
Proof.
  repeat split; [by exists []; rewrite app_nil_r |].
  exists []. by rewrite app_nil_r.
Qed.

Lemma only_reads_called w w' c :
  only_reads w w' -> is_write c = false -> only_reads w (called c w').
Proof.
  intros (Hs & Ht & Hh & reads & Hc & Hr) Hw. repeat split; try done.
  exists (reads ++ [c]). unfold called; cbn [calls]. rewrite Hc, app_assoc.
  split; [done |]. apply Forall_app. by split; [| apply Forall_singleton].
Qed.

Lemma only_reads_printed w w' lines : only_reads w w' -> only_reads w (printed lines w').
Proof. by intros (Hs & Ht & Hh & Hc). Qed.

Lemma only_reads_with_body w w' d : only_reads w w' -> only_reads w (with_body d w').
Proof.
  intros (Hs & Ht & [fresh Hh] & Hc). repeat split; try done.
  exists (fresh ++ [d]). unfold with_body; cbn [heap]. by rewrite Hh, app_assoc.
Qed.

Lemma count_step_run (x : string) w :
  exists r,
    (count ← count_documents x (VDict []);
     mret (VDict [("name", VStr x); ("count", VInt count)])) w
    = (r, called (CountDocuments x (VDict [])) w)
    /\ forall cnt, drv_count_documents x (VDict []) (store w) = inr cnt ->
                   r = inr (collection_entry x cnt).
Proof.
  unfold mbind, M_bind, count_documents, driver_read, called.
  destruct (drv_count_documents x (VDict []) (store w)) as [m' | cnt];
    cbn [of_driver]; eexists; split; try done.
  by intros ? [= <-].
Qed.

Lemma for_each_count_reads names w0 w :
  only_reads w0 w ->
  only_reads w0
    (for_each (fun col_name =>
                 count ← count_documents col_name (VDict []);
                 mret (VDict [("name", VStr col_name); ("count", VInt count)]))
              names w).2.
Proof.
  revert w. induction names as [| x names IH]; intros w Hw; [done |].
  cbn [for_each]. unfold mbind at 1. unfold M_bind at 1.
  destruct (count_step_run x w) as (r & -> & _).
  assert (Hw' : only_reads w0 (called (CountDocuments x (VDict [])) w))
    by by apply only_reads_called.
  destruct r as [e | y]; [done |].
  specialize (IH _ Hw'). unfold mbind, M_bind.
  by destruct (for_each _ names _) as [[e | ys] w''].
Qed.

Lemma for_each_count_run names counts w :
  Forall2 (fun n c => drv_count_documents n (VDict []) (store w) = inr c) names counts ->
  for_each (fun col_name =>
              count ← count_documents col_name (VDict []);
              mret (VDict [("name", VStr col_name); ("count", VInt count)]))
           names w
  = (inr (zip_with collection_entry names counts),
     World (heap w) (ticks w) (store w)
           (calls w ++ ((fun n => CountDocuments n (VDict [])) <$> names)) (stdout w)).
Proof.
  revert counts w. induction names as [| n names IH]; intros counts w Hall.
  - apply Forall2_nil_inv_l in Hall as ->. cbn. rewrite app_nil_r. by destruct w.
  - apply Forall2_cons_inv_l in Hall as (c & counts' & Hn & Hall & ->).
    cbn [for_each]. unfold mbind at 1. unfold M_bind at 1.
    destruct (count_step_run n w) as (r & -> & Hr). rewrite (Hr c Hn).
    unfold mbind at 1. unfold M_bind at 1.
    rewrite (IH counts' (called (CountDocuments n (VDict [])) w) Hall).
    cbn. by rewrite <- app_assoc.
Qed.

(** X5. [GET /api/database/collections] with a database handle and a
    driver that answers: the response has one entry [{"name", "count"}]
    per collection name, in the driver's order, with the count of the
    empty filter; the driver is asked for the names once and then for one
    count per name, and nothing else of the world changes. *)
Theorem list_collections_lists_every_collection app h names counts w :
  db_handle app h ->
  drv_list_collection_names (store w) = inr names ->
  Forall2 (fun n c => drv_count_documents n (VDict []) (store w) = inr c) names counts ->
  dispatch app GET_collections w
  = (inr (VDict [("ok", VBool true);
                 ("collections", VList (zip_with collection_entry names counts))]),
     World (heap w) (ticks w) (store w)
           (calls w ++ ListCollectionNames
                       :: ((fun n => CountDocuments n (VDict [])) <$> names))
           (stdout w)).
Proof.
  intros Hh Hn Hall. rewrite list_collections_run, Hh. cbv zeta.
  unfold mbind at 1. unfold M_bind at 1. unfold list_collection_names, driver_read.
  rewrite Hn. cbn [of_driver]. fold (called ListCollectionNames w).
  unfold mbind at 1. unfold M_bind at 1.
  rewrite (for_each_count_run names counts (called ListCollectionNames w) Hall).
  cbn. by rewrite <- app_assoc.
Qed.

(** X6. The seven handlers other than create, update and delete leave
    the store and the clock as they were, allocate at most new objects,
    and make no [insert_one], [update_one] or [delete_one] call, whatever
    the deployment and the driver's answers. *)
Theorem reading_requests_write_nothing app req w :
  writes_nothing req = true ->
  only_reads w (dispatch app req w).2.
Proof.
  intros Hreq.
  destruct req as [| | | | | coll limit skip filter | coll d | | |];
    try discriminate Hreq.
  - apply only_reads_refl.
  - apply only_reads_refl.
  - cbn [dispatch].
    unfold main.test_database, try_except, main.from_database_import_db, lift,
      mbind, M_bind, mret, M_ret, list_collection_names, driver_read.
    destruct (database.import_module (environ app)) as [e | [h |]].
    + destruct e; apply only_reads_refl.
    + fold (called ListCollectionNames w).
      destruct (drv_list_collection_names (store w));
        by apply only_reads_called; [apply only_reads_refl |].
    + apply only_reads_refl.
  - cbn [dispatch].
    unfold main.get_all_schemas, try_except, main.import_schemas, lift.
    unfold mbind at 1. unfold M_bind at 1.
    destruct (schemas_module app) as [e | members].
    + destruct e; apply only_reads_refl.
    + unfold mbind, M_bind. rewrite collect_schemas_run.
      apply only_reads_printed, only_reads_refl.
  - rewrite list_collections_run. cbv zeta.
    destruct (database.import_module (environ app)) as [e | [h |]];
      try apply only_reads_refl.
    unfold mbind at 1. unfold M_bind at 1. unfold list_collection_names, driver_read.
    fold (called ListCollectionNames w).
    assert (Hw : only_reads w (called ListCollectionNames w))
      by by apply only_reads_called; [apply only_reads_refl |].
    destruct (drv_list_collection_names (store w)) as [m | names]; cbn [of_driver];
      [done |].
    unfold mbind at 1. unfold M_bind at 1.
    pose proof (for_each_count_reads names w _ Hw) as Hloop.
    by destruct (for_each _ names _) as [[e | ys] w''].
  - rewrite get_collection_run. cbv zeta.
    assert (H1 : only_reads w (called ListCollectionNames w))
      by by apply only_reads_called; [apply only_reads_refl |].
    repeat case_match; cbn [snd]; try apply only_reads_refl; try done.
    all: repeat (apply only_reads_called; [| done]); apply only_reads_refl.
  - rewrite post_validate_run. apply only_reads_with_body, only_reads_refl.
Qed.
End Reading.

(** ** Pages of documents *)

Ltac table_case :=
  cbn; repeat split; intros;
  repeat match goal with
         | H : ex _ |- _ => destruct H
         | H : _ /\ _ |- _ => destruct H
         | H : _ \/ _ |- _ => destruct H
         end;
  simplify_eq; try done; try congruence; eauto 15.

(** The three ways the query of a page ends: the count raises, the
    search raises, or the page is returned and serialised. *)
Ltac page_case :=
  destruct (drv_count_documents _ _ _); [| destruct (drv_find _ _ _ _ _)];
  [ table_case | table_case | unfold respond; destruct (jsonable _); table_case ].

Section Pages.
Context {St : Type} `{Driver St} `{Builtins}.
Implicit Types (app : App) (w : world St) (d : pydict).

(** X7. The loop of [get_collection_documents] over the fetched
    documents replaces the value of [_id] by its [str] and leaves the keys,
    their order and every other value as they were; a document without
    [_id] is unchanged. *)
Theorem stringify_id_touches_only_id d :
  (main.stringify_id d).*1 = d.*1
  /\ (forall k, k <> "_id" -> Dict.get k (main.stringify_id d) = Dict.get k d)
  /\ Dict.get "_id" (main.stringify_id d) = (fun v => VStr (py_str v)) <$> Dict.get "_id" d
  /\ (Dict.has "_id" d = false -> main.stringify_id d = d).
Proof.
  unfold main.stringify_id.
  destruct (Dict.get "_id" d) as [v |] eqn:Hv.
  - split; [| split; [| split]].
    + apply keys_set_present, has_get. by rewrite Hv.
    + intros k Hk. by rewrite get_set_ne.
    + by rewrite get_set_eq.
    + intros Hh. assert (Hs : is_Some (Dict.get "_id" d)) by by rewrite Hv.
      apply has_get in Hs. congruence.
  - by rewrite Hv.
Qed.

(** X8. [GET /api/database/collections/{name}]: the answer is 503
    exactly when [database.db] is [None], 404 exactly when the driver
    lists the collections and the name is not among them, and 400 exactly
    when the name is listed and the filter is a non-empty string on
    which [json.loads] raises [JSONDecodeError]; when [json.loads]
    raises another exception there, the answer is 500 with its message.
    The 503 is answered without a driver call, the 404 and the 400 after
    the one call that lists the names. *)
Theorem page_status_table app coll limit skip filter w :
  let answer := serve app (GET_collection coll limit skip filter) w in
  (status answer.1 = 503 <-> database.import_module (environ app) = inr None)
  /\ (status answer.1 = 404
      <-> exists h names, db_handle app h
                          /\ drv_list_collection_names (store w) = inr names
                          /\ coll ∉ names)
  /\ (status answer.1 = 400
      <-> exists h names f m,
            db_handle app h
            /\ drv_list_collection_names (store w) = inr names
            /\ coll ∈ names
            /\ filter = Some f /\ f <> EmptyString /\ json_loads f = Undecodable m)
  /\ (forall h names f m,
        db_handle app h ->
        drv_list_collection_names (store w) = inr names ->
        coll ∈ names ->
        filter = Some f -> f <> EmptyString -> json_loads f = DecoderRaised m ->
        answer
        = ({| status := 500;
              body := VDict [("detail",
                              VStr ("Error fetching documents: " ++ m)%string)] |},
           called ListCollectionNames w))
  /\ (status answer.1 = 503 -> answer.2 = w)
  /\ (status answer.1 = 404 \/ status answer.1 = 400 ->
      answer.2 = called ListCollectionNames w).
Proof.
  cbv zeta. unfold serve, db_handle. rewrite get_collection_run. cbv zeta.
  destruct (database.import_module (environ app)) as [e | [h |]] eqn:Hi.
  - destruct (import_module_exn _ _ Hi) as [m ->]. table_case.
  - destruct (drv_list_collection_names (store w)) as [m | names] eqn:Hn;
      [table_case |].
    destruct (bool_decide (coll ∈ names)) eqn:Hin; cbn [negb].
    2: { apply bool_decide_eq_false in Hin. table_case. }
    apply bool_decide_eq_true in Hin.
    destruct filter as [[| c f] |]; cbn [decode_filter str_truthy].
    + page_case.
    + destruct (json_loads (String c f)) as [v | m | m] eqn:Hj;
        [page_case | table_case | table_case].
    + page_case.
  - table_case.
Qed.
End Pages.

(** ** Models as data *)

Lemma get_filter_keys (f : string * value -> bool) (keep : string -> bool) k d :
  (forall k' v', f (k', v') = keep k') ->
  Dict.get k (List.filter f d) = if keep k then Dict.get k d else None.
Proof.
  intros Hf.
  induction d as [| [k' v'] d IH]; cbn [List.filter Dict.get]; [by destruct (keep k) |].
  rewrite Hf. destruct (String.eqb k k') eqn:E.
  - apply String.eqb_eq in E. subst k'.
    destruct (keep k) eqn:Hk.
    + cbn [Dict.get]. by rewrite String.eqb_refl.
    + rewrite IH. by rewrite ?Hk.
  - destruct (keep k') eqn:Hk'; [| exact IH].
    cbn [Dict.get]. by rewrite E.
Qed.

Section Models.
Context {St : Type} `{Driver St} `{Builtins}.
Implicit Types (app : App) (w : world St) (d : pydict) (h : Database).

(** X9. For a model instance [update_document] sends
    [model_dump(exclude_unset=True)], so a field left at its default is not
    in [$set]; [create_document] sends [model_dump()], every field.
    Apart from the timestamps nothing else is sent. *)
Theorem update_sends_only_the_fields_that_were_set h coll flt (m : model_instance) w :
  (exists u,
      calls (database.update_document (Some h) coll flt (DataModel m) w).2
      = calls w ++ [UpdateOne coll (VDict flt) [("$set", VDict u)]]
      /\ (forall k, k <> "updated_at" -> k ∉ fields_set m -> Dict.get k u = None)
      /\ (forall k, k <> "updated_at" -> k ∈ fields_set m ->
                    Dict.get k u = Dict.get k (field_values m)))
  /\ (exists doc,
      calls (database.create_document (Some h) coll (DataModel m) w).2
      = calls w ++ [InsertOne coll doc]
      /\ forall k, k <> "created_at" -> k <> "updated_at" ->
                   Dict.get k doc = Dict.get k (field_values m)).
Proof.
  split.
  - exists (stamped_for_update (model_dump_exclude_unset m) (ticks w)).
    split; [by apply calls_update_document |].
    unfold stamped_for_update, model_dump_exclude_unset.
    split; intros k Hk Hin; rewrite get_set_ne by done;
      rewrite (get_filter_keys _ (fun k => bool_decide (k ∈ fields_set m)))
        by (intros; by apply bool_decide_ext);
      [by rewrite bool_decide_false | by rewrite bool_decide_true].
  - exists (stamped_for_insert (model_dump m) (ticks w)).
    split; [by apply calls_create_document |].
    intros k Hc Hu. by apply stamped_for_insert_other.
Qed.
End Models.

(** ** Writes that go through, and writes that fail *)

Section Writes.
Context {St : Type} `{Driver St} `{Builtins}.
Implicit Types (app : App) (w : world St) (d : pydict) (h : Database).

(** X10. [POST .../create] with a database handle, a document that
    validation admits and a driver that inserts: the answer carries the
    [str] of the identifier the driver returned, the one driver call is
    the insert of the stamped copy, the clock is read twice, and the
    request body stays the object it was. *)
Theorem create_answers_the_new_id app h coll d id s' w :
  db_handle app h ->
  admits (verdict_of app coll (Some d)) = true ->
  drv_insert_one coll (stamped_for_insert d (ticks w)) (store w) = (inr id, s') ->
  let doc := stamped_for_insert d (ticks w) in
  dispatch app (POST_create coll d) w
  = (inr (VDict [("ok", VBool true); ("id", VStr (py_str id));
                 ("message", VStr ("Document created in " ++ coll)%string)]),
     World (heap w ++ [d; if Dict.has "_id" doc then doc else Dict.set "_id" id doc])
           (2 + ticks w) s' (calls w ++ [InsertOne coll doc]) (stdout w)).
Proof.
  intros Hh Hv Hd doc. rewrite post_create_run, Hh. cbv zeta.
  rewrite (create_document_run h coll _ (with_body d w) d) by apply heap_fresh_lookup.
  cbn [ticks store calls heap stdout with_body]. rewrite Hd.
  rewrite <- app_assoc. cbn [Datatypes.app]. subst doc.
  by destruct (verdict_of app coll (Some d)).
Qed.

(** X11. [PUT] and [DELETE] on a well-formed identifier: when the driver
    reports a modified (a deleted) document, the answer is
    [{"ok": True, "message": "Document <id> updated in <collection>"}]
    (... [deleted from] ...), after the single driver call with the filter
    [{"_id": ObjectId(id)}]. *)
Theorem update_and_delete_answer_ok app h coll doc_id obj_id d w :
  db_handle app h ->
  ObjectId_of_str doc_id = Some obj_id ->
  let flt := VDict [("_id", VObjectId obj_id)] in
  let upd := [("$set", VDict (stamped_for_update d (ticks w)))] in
  (forall res s',
      admits (verdict_of app coll (Some d)) = true ->
      drv_update_one coll flt upd (store w) = (inr res, s') ->
      0 < modified_count res ->
      dispatch app (PUT_document coll doc_id d) w
      = (inr (ok_message ("Document " ++ doc_id ++ " updated in " ++ coll)%string),
         World (heap w ++ [d; stamped_for_update d (ticks w)]) (1 + ticks w) s'
               (calls w ++ [UpdateOne coll flt upd]) (stdout w)))
  /\ (forall res s',
      drv_delete_one coll flt (store w) = (inr res, s') ->
      0 < deleted_count res ->
      dispatch app (DELETE_document coll doc_id) w
      = (inr (ok_message ("Document " ++ doc_id ++ " deleted from " ++ coll)%string),
         World (heap w) (ticks w) s' (calls w ++ [DeleteOne coll flt]) (stdout w))).
Proof.
  intros Hh Ho flt upd. split.
  - intros res s' Hv Hd Hm. rewrite put_document_run, Hh, Ho. cbv zeta.
    rewrite (update_document_run h coll _ _ (with_body d w) d) by apply heap_fresh_lookup.
    cbn [ticks store calls heap stdout with_body]. fold upd flt. rewrite Hd.
    apply Z.ltb_lt in Hm. rewrite Hm. rewrite <- app_assoc. cbn [Datatypes.app].
    by destruct (verdict_of app coll (Some d)).
  - intros res s' Hd Hm. rewrite delete_document_endpoint_run, Hh, Ho, delete_document_run.
    fold flt. rewrite Hd. apply Z.ltb_lt in Hm. by rewrite Hm.
Qed.

(** X12. When the driver raises in [insert_one], [update_one] or
    [delete_one], the handler answers 500 with the driver's message after
    its own prefix, and the store is the one the driver left. *)
Theorem failed_write_reports_the_driver_message app h coll doc_id obj_id d m s' w :
  db_handle app h ->
  ObjectId_of_str doc_id = Some obj_id ->
  admits (verdict_of app coll (Some d)) = true ->
  let flt := VDict [("_id", VObjectId obj_id)] in
  let failure prefix := (inl (HTTPException 500 (prefix ++ m)%string) : exn + value) in
  (drv_insert_one coll (stamped_for_insert d (ticks w)) (store w) = (inl m, s') ->
   let w' := (dispatch app (POST_create coll d) w).2 in
   (dispatch app (POST_create coll d) w).1 = failure "Error creating document: "
   /\ store w' = s')
  /\ (drv_update_one coll flt [("$set", VDict (stamped_for_update d (ticks w)))] (store w)
      = (inl m, s') ->
      let w' := (dispatch app (PUT_document coll doc_id d) w).2 in
      (dispatch app (PUT_document coll doc_id d) w).1 = failure "Error updating document: "
      /\ store w' = s')
  /\ (drv_delete_one coll flt (store w) = (inl m, s') ->
      let w' := (dispatch app (DELETE_document coll doc_id) w).2 in
      (dispatch app (DELETE_document coll doc_id) w).1 = failure "Error deleting document: "
      /\ store w' = s').
Proof.
  intros Hh Ho Hv flt failure. split; [| split]; intros Hd w'; subst w'.
  - rewrite post_create_run, Hh. cbv zeta.
    rewrite (create_document_run h coll _ (with_body d w) d) by apply heap_fresh_lookup.
    cbn [ticks store with_body]. rewrite Hd.
    by destruct (verdict_of app coll (Some d)).
  - rewrite put_document_run, Hh, Ho. cbv zeta.
    rewrite (update_document_run h coll _ _ (with_body d w) d) by apply heap_fresh_lookup.
    cbn [ticks store with_body]. fold flt. rewrite Hd.
    by destruct (verdict_of app coll (Some d)).
  - rewrite delete_document_endpoint_run, Hh, Ho, delete_document_run. fold flt.
    by rewrite Hd.
Qed.

(** X13. A document identifier that [ObjectId] refuses: [DELETE] leaves
    the world as it was and [PUT] only holds its request body; no driver
    call is made.  With a database handle the answer is 400
    [Invalid document ID format] (for [PUT], when validation admits the
    body, which is checked first). *)
Theorem malformed_identifier_reaches_no_driver app coll doc_id d w :
  ObjectId_of_str doc_id = None ->
  (dispatch app (DELETE_document coll doc_id) w).2 = w
  /\ (dispatch app (PUT_document coll doc_id d) w).2 = with_body d w
  /\ (forall h, db_handle app h ->
        (dispatch app (DELETE_document coll doc_id) w).1
        = inl (HTTPException 400 "Invalid document ID format")
        /\ (admits (verdict_of app coll (Some d)) = true ->
            (dispatch app (PUT_document coll doc_id d) w).1
            = inl (HTTPException 400 "Invalid document ID format"))).
Proof.
  intros Ho. rewrite delete_document_endpoint_run, put_document_run, Ho. cbv zeta.
  unfold db_handle.
  destruct (database.import_module (environ app)) as [e | [h |]].
  - split; [done |]. split; [done |]. by intros h.
  - split; [done |].
    split; [by destruct (verdict_of app coll (Some d)) |].
    intros h' _. split; [done |]. by destruct (verdict_of app coll (Some d)).
  - split; [done |]. split; [done |]. by intros h.
Qed.

(** X14. With a database handle, [POST .../create] answers 400 exactly
    when [POST .../validate] of the same collection and document reports
    [valid: False]; the detail of the refusal, of create and of update, is
    [Validation failed: ] followed by the [str] of the reported errors. *)
Theorem create_refuses_what_validate_reports app h coll doc_id d w :
  db_handle app h ->
  let reported errors :=
    (dispatch app (POST_validate coll d) w).1
    = inr (VDict [("ok", VBool true); ("valid", VBool false); ("errors", VList errors)]) in
  (status (serve app (POST_create coll d) w).1 = 400 <-> exists errors, reported errors)
  /\ (forall errors, reported errors ->
        let refusal :=
          inl (HTTPException 400 ("Validation failed: " ++ py_str (VList errors))%string) in
        (dispatch app (POST_create coll d) w).1 = refusal
        /\ (dispatch app (PUT_document coll doc_id d) w).1 = refusal).
Proof.
  intros Hh reported. subst reported. cbv beta.
  rewrite status_serve, status_raised by done.
  rewrite post_validate_run, post_create_run, put_document_run, Hh.
  cbv zeta. cbn [fst].
  destruct (verdict_of app coll (Some d)) as [| | errs | e] eqn:Hv; cbn [validation_answer].
  - rewrite (create_document_run h coll _ (with_body d w) d) by apply heap_fresh_lookup.
    cbv zeta. destruct (drv_insert_one _ _ _) as [[m | id] s']; cbn;
      (split; [split; by intros [? ?] | done]).
  - rewrite (create_document_run h coll _ (with_body d w) d) by apply heap_fresh_lookup.
    cbv zeta. destruct (drv_insert_one _ _ _) as [[m | id] s']; cbn;
      (split; [split; by intros [? ?] | done]).
  - cbn. split; [split; by eexists |]. by intros errors [= <-].
  - cbn. split; [split; by intros [? ?] | done].
Qed.
End Writes.

(** ** Which handler looks at what *)

Lemma verdict_of_schemas `{Builtins} app app' coll body :
  schemas_module app = schemas_module app' ->
  verdict_of app coll body = verdict_of app' coll body.
Proof. intros Hs. unfold verdict_of. by rewrite Hs. Qed.

(** X15. The root, [/api/hello], the schema listing and [validate]
    never look at the database: two deployments with the same [schemas.py]
    answer alike whatever their environment, driver and store, and the
    handler makes no driver call. *)
Theorem schema_handlers_ignore_the_database
    {St1 : Type} {D1 : Driver St1} {St2 : Type} {D2 : Driver St2} {B : Builtins}
    (app app' : App) (req : request) (w1 : world St1) (w2 : world St2) :
  ignores_database req = true ->
  schemas_module app = schemas_module app' ->
  (dispatch app req w1).1 = (dispatch app' req w2).1
  /\ calls (dispatch app req w1).2 = calls w1
  /\ store (dispatch app req w1).2 = store w1.
Proof.
  intros Hreq Hs.
  destruct req as [| | | | | | coll d | | |]; try discriminate Hreq; try done.
  - destruct (schemas_module app) as [e | members] eqn:Ha.
    + cbn [dispatch].
      unfold main.get_all_schemas, try_except, main.import_schemas, lift, mbind, M_bind.
      rewrite <- Hs, Ha. by destruct e.
    + rewrite (get_all_schemas_listing app members w1 Ha).
      by rewrite (get_all_schemas_listing app' members w2).
  - rewrite !post_validate_run. by rewrite (verdict_of_schemas app app').
Qed.

Section Independence.
Context {St : Type} `{Driver St} `{Builtins}.
Implicit Types (app : App) (w : world St) (d : pydict) (h : Database).

(** X16. The handlers that do not validate (all but the schema listing,
    [validate], create and update) never import [schemas.py]: two
    deployments with the same environment answer alike and leave the same
    world, even when one of them has a [schemas.py] that fails to
    import. *)
Theorem database_handlers_ignore_schemas app app' req w :
  ignores_schemas req = true ->
  environ app = environ app' ->
  dispatch app req w = dispatch app' req w.
Proof.
  intros Hreq He.
  destruct req as [| | | | | coll limit skip filter | | | | coll i];
    try discriminate Hreq; try done.
  - cbn [dispatch].
    unfold main.test_database, main.from_database_import_db, main.getenv_truthy.
    by rewrite He.
  - by rewrite !list_collections_run, He.
  - by rewrite !get_collection_run, He.
  - by rewrite !delete_document_endpoint_run, He.
Qed.

(** ** The self-test *)

Lemma test_database_run app w :
  dispatch app GET_test w
  = let flag k := VStr (if main.getenv_truthy app k then "✅ Set" else "❌ Not Set") in
    let answer database connection collections w' :=
      (inr (VDict [("backend", VStr "✅ Running");
                   ("database", VStr database);
                   ("database_url", flag "DATABASE_URL");
                   ("database_name", flag "DATABASE_NAME");
                   ("connection_status", VStr connection);
                   ("collections", VList collections)]), w') in
    match database.import_module (environ app) with
    | inl (ImportError _) =>
        answer "❌ Database module not found (run enable-database first)"
               "Not Connected" [] w
    | inl e => answer ("❌ Error: " ++ str_prefix 50 (exn_str e))%string "Not Connected" [] w
    | inr None => answer "⚠️  Available but not initialized" "Not Connected" [] w
    | inr (Some _) =>
        match drv_list_collection_names (store w) with
        | inr names =>
            answer "✅ Connected & Working" "Connected" (VStr <$> take 10 names)
                   (called ListCollectionNames w)
        | inl m =>
            answer ("⚠️  Connected but Error: " ++ str_prefix 50 m)%string "Connected" []
                   (called ListCollectionNames w)
        end
    end.
Proof.
  cbn [dispatch].
  unfold main.test_database, try_except, main.from_database_import_db, lift,
    mbind, M_bind, mret, M_ret, list_collection_names, driver_read, called.
  destruct (database.import_module (environ app)) as [e | [h |]].
  - by destruct e.
  - by destruct (drv_list_collection_names (store w)).
  - done.
Qed.
End Independence.

Section SelfTest.
Context {St : Type} `{Driver St} `{Builtins}.
Implicit Types (app : App) (w : world St) (d : pydict) (h : Database).

(** X17. [GET /test] returns in every deployment: a dictionary with the
    six keys in the order of the source, [database_url] and
    [database_name] telling whether the two environment variables are
    non-empty (the values written for them earlier in the handler are
    overwritten), the store untouched, and a single driver call, the
    listing of the names, made exactly when there is a database handle. *)
Theorem self_test_always_answers app w :
  exists response w',
    dispatch app GET_test w = (inr (VDict response), w')
    /\ response.*1 = test_keys
    /\ Dict.get "database_url" response
       = Some (VStr (if main.getenv_truthy app "DATABASE_URL"
                     then "✅ Set" else "❌ Not Set"))
    /\ Dict.get "database_name" response
       = Some (VStr (if main.getenv_truthy app "DATABASE_NAME"
                     then "✅ Set" else "❌ Not Set"))
    /\ store w' = store w
    /\ (calls w' = calls w \/ calls w' = calls w ++ [ListCollectionNames])
    /\ (calls w' = calls w ++ [ListCollectionNames] <-> exists h, db_handle app h).
Proof.
  rewrite test_database_run. cbv zeta. unfold db_handle.
  assert (Hnot : forall (l : list call) c, l <> l ++ [c]).
  { intros l c Hl. apply (f_equal length) in Hl. rewrite length_app in Hl.
    cbn in Hl. lia. }
  destruct (database.import_module (environ app)) as [e | [h |]].
  - destruct e; eexists _, _; (split; [done |]); repeat split; try done;
      try (by left); try (by intros ?%Hnot); by intros [? ?].
  - destruct (drv_list_collection_names (store w));
      eexists _, _; (split; [done |]); repeat split; try done;
      try (by right); by eexists.
  - eexists _, _; (split; [done |]); repeat split; try done;
      try (by left); try (by intros ?%Hnot); by intros [? ?].
Qed.

(** X18. What [GET /test] tells of the database: with a handle and a
    driver that answers, the first ten collection names and
    [Connected & Working]; with a handle and a driver that raises, no
    names, the first fifty characters of the error, and still
    [Connected]; without a handle, [Available but not initialized]; when
    the import of [database] raises, the first fifty characters of that
    error, both [Not Connected]. *)
Theorem self_test_reports_the_connection app w :
  exists response,
    (dispatch app GET_test w).1 = inr (VDict response)
    /\ (forall h names,
          db_handle app h ->
          drv_list_collection_names (store w) = inr names ->
          Dict.get "collections" response = Some (VList (VStr <$> take 10 names))
          /\ Dict.get "database" response = Some (VStr "✅ Connected & Working")
          /\ Dict.get "connection_status" response = Some (VStr "Connected"))
    /\ (forall h m,
          db_handle app h ->
          drv_list_collection_names (store w) = inl m ->
          Dict.get "collections" response = Some (VList [])
          /\ Dict.get "database" response
             = Some (VStr ("⚠️  Connected but Error: " ++ str_prefix 50 m)%string)
          /\ Dict.get "connection_status" response = Some (VStr "Connected"))
    /\ (database.import_module (environ app) = inr None ->
        Dict.get "collections" response = Some (VList [])
        /\ Dict.get "database" response = Some (VStr "⚠️  Available but not initialized")
        /\ Dict.get "connection_status" response = Some (VStr "Not Connected"))
    /\ (forall m,
          database.import_module (environ app) = inl (Exception m) ->
          Dict.get "collections" response = Some (VList [])
          /\ Dict.get "database" response
             = Some (VStr ("❌ Error: " ++ str_prefix 50 m)%string)
          /\ Dict.get "connection_status" response = Some (VStr "Not Connected")).
Proof.
  rewrite test_database_run. cbv zeta. unfold db_handle.
  destruct (database.import_module (environ app)) as [e | [h |]] eqn:Hi.
  - destruct (import_module_exn _ _ Hi) as [m ->].
    eexists; split; [done |]. repeat split; intros; by simplify_eq.
  - destruct (drv_list_collection_names (store w)) as [m | names];
      eexists; (split; [done |]); repeat split; intros; by simplify_eq.
  - eexists; split; [done |]. repeat split; intros; by simplify_eq.
Qed.
End SelfTest.


(** ** The handlers on the sample data *)

(** In the sample [schemas.py], [ACCOUNT] and [Account] are listed,
    [_Draft] is not, and [Opaque] is reported on the console. *)
Lemma schemas_listing_witness :
  schemas_module Fixtures.app = inr Fixtures.members
  /\ exists schemas_dict,
       dispatch Fixtures.app GET_schemas Sample.w0
       = (inr (VDict [("ok", VBool true); ("schemas", VDict schemas_dict)]),
          printed (schema_errors Fixtures.members) Sample.w0)
       /\ schemas_dict.*1 = ["ACCOUNT"; "Account"]
       /\ schema_errors Fixtures.members
          = ["Error processing schema Opaque: Cannot generate a JsonSchema for core_schema.IsInstanceSchema"].
Proof.
  split; [reflexivity |].
  destruct (schemas_listing Fixtures.app Fixtures.members Sample.w0 eq_refl)
    as (sd & Hrun & _).
  exists sd. split; [exact Hrun |].
  assert (Hsd : sd = listed_schemas Fixtures.members []).
  { rewrite (get_all_schemas_listing Fixtures.app Fixtures.members Sample.w0 eq_refl)
      in Hrun. injection Hrun as Hsd. by symmetry. }
  subst sd. split; reflexivity.
Defined.

(** The collection [Account] is not validated although [class Account] is declared. *)
Lemma uppercase_collection_is_never_validated_witness :
  schemas_module Fixtures.app = inr Fixtures.members
  /\ ascii_lower "Account" <> "Account"
  /\ main.build_schema_map Fixtures.members !! "Account" = None
  /\ (dispatch Fixtures.app (POST_validate "Account" [("email", VInt 3)]) Sample.w0).1
     = inr (VDict [("ok", VBool true); ("valid", VBool true);
                   ("message",
                    VStr "No schema defined for this collection, skipping validation")]).
Proof.
  assert (Hl : ascii_lower "Account" <> "Account") by discriminate.
  split; [reflexivity |]. split; [exact Hl |].
  destruct (uppercase_collection_is_never_validated Fixtures.app Fixtures.members
              "Account" [("email", VInt 3)] Sample.w0 eq_refl
              sample_lower_no_capital Hl) as (Hn & Hv & _).
  split; [exact Hn | exact Hv].
Defined.

(** [ACCOUNT] comes first in [getmembers], [Account] last among the
    models that lower-case to [account]: [Account] is the schema. *)
Lemma later_model_wins_witness :
  main.pydantic_model (PyClass Sample.Account) = Some Sample.Account
  /\ main.build_schema_map Fixtures.members !! "account" = Some Sample.Account
  /\ lower "ÉCOLE" = "école" /\ lower "École" = "école"
  /\ main.build_schema_map Fixtures.members_accented !! "école" = Some Sample.Account.
Proof.
  assert (Hlater : forall nm' obj',
            (nm', obj') ∈ ("BaseModel", PyClass Sample.BaseModel)
                          :: ("Opaque", PyClass Fixtures.Opaque)
                          :: ("_Draft", PyClass Sample.Account) :: schemas.members ->
            main.pydantic_model obj' <> None -> lower nm' <> lower "Account").
  { intros nm' obj' Hin Hm. unfold schemas.members in Hin.
    repeat (apply elem_of_cons in Hin as [[= -> ->] | Hin]; [done |]).
    by apply elem_of_nil in Hin. }
  assert (Hlast : forall nm' obj',
            (nm', obj') ∈ @nil (string * pyobj) ->
            main.pydantic_model obj' <> None -> lower nm' <> lower "École").
  { intros nm' obj' Hin. by apply elem_of_nil in Hin. }
  split; [reflexivity |]. split; [| split; [reflexivity | split; [reflexivity |]]].
  - exact (later_model_wins [("ACCOUNT", PyClass Fixtures.Open)] _
             "Account" (PyClass Sample.Account) Sample.Account eq_refl Hlater).
  - exact (later_model_wins
             (("BaseModel", PyClass Sample.BaseModel)
              :: schemas.members
              ++ [("_École", PyClass Sample.Account); ("ÉCOLE", PyClass Fixtures.Open)])
             [] "École" (PyClass Sample.Account) Sample.Account eq_refl Hlast).
Defined.

(** [class _Draft] is the schema of [_draft] and is not listed. *)
Lemma underscore_model_is_enforced_but_not_listed_witness :
  schemas_module Fixtures.app = inr Fixtures.members
  /\ ("_Draft", PyClass Sample.Account) ∈ Fixtures.members
  /\ startswith_underscore "_Draft" = true
  /\ is_Some (main.build_schema_map Fixtures.members !! "_draft")
  /\ (exists schemas_dict w',
        dispatch Fixtures.app GET_schemas Sample.w0
        = (inr (VDict [("ok", VBool true); ("schemas", VDict schemas_dict)]), w')
        /\ Dict.get "_Draft" schemas_dict = None)
  /\ lower "_École" = "_école"
  /\ is_Some (main.build_schema_map Fixtures.members_accented !! "_école").
Proof.
  assert (Hin : ("_Draft", PyClass Sample.Account) ∈ Fixtures.members).
  { unfold Fixtures.members. do 4 (apply elem_of_cons; right). apply elem_of_cons; by left. }
  assert (Hin' : ("_École", PyClass Sample.Account) ∈ Fixtures.members_accented).
  { unfold Fixtures.members_accented, schemas.members. cbn [app].
    do 9 (apply elem_of_cons; right). apply elem_of_cons; by left. }
  split; [reflexivity |]. split; [exact Hin |]. split; [reflexivity |].
  destruct (underscore_model_is_enforced_but_not_listed Fixtures.app Fixtures.members
              "_Draft" (PyClass Sample.Account) Sample.Account Sample.w0
              eq_refl Hin eq_refl eq_refl) as [Hmap Hlist].
  split; [exact Hmap |]. split; [exact Hlist |]. split; [reflexivity |].
  exact (proj1 (underscore_model_is_enforced_but_not_listed
                  Fixtures.app_accented Fixtures.members_accented
                  "_École" (PyClass Sample.Account) Sample.Account Sample.w0
                  eq_refl Hin' eq_refl eq_refl)).
Defined.

(** The sample store: one collection, one document, two driver calls. *)
Lemma list_collections_lists_every_collection_witness :
  db_handle (St := MemStore.t) Sample.app Sample.db0
  /\ MemStore.list_collection_names Sample.store0 = inr ["users"]
  /\ MemStore.count_documents "users" (VDict []) Sample.store0 = inr 1
  /\ dispatch Sample.app GET_collections Sample.w0
     = (inr (VDict [("ok", VBool true);
                    ("collections", VList [collection_entry "users" 1])]),
        World [] 0%nat Sample.store0
              [ListCollectionNames; CountDocuments "users" (VDict [])] []).
Proof.
  assert (Hh : db_handle (St := MemStore.t) Sample.app Sample.db0) by reflexivity.
  split; [exact Hh |]. split; [reflexivity |]. split; [reflexivity |].
  exact (list_collections_lists_every_collection Sample.app Sample.db0 ["users"] [1]
           Sample.w0 Hh eq_refl (List.Forall2_cons _ _ eq_refl (List.Forall2_nil _))).
Defined.

(** A page of [users] is served without a write. *)
Lemma reading_requests_write_nothing_witness :
  writes_nothing (GET_collection "users" None None None) = true
  /\ only_reads Sample.w0
       (dispatch Sample.app (GET_collection "users" None None None) Sample.w0).2.
Proof.
  split; [reflexivity |].
  exact (reading_requests_write_nothing Sample.app
           (GET_collection "users" None None None) Sample.w0 eq_refl).
Defined.

(** The sample body is inserted as document 2 and stays object 0 of the heap. *)
Lemma create_answers_the_new_id_witness :
  db_handle (St := MemStore.t) Sample.app Sample.db0
  /\ admits (verdict_of Sample.app "users" (Some Sample.body)) = true
  /\ (MemStore.insert_one "users" (stamped_for_insert Sample.body 0) Sample.store0).1
     = inr (VObjectId (oid 2))
  /\ (dispatch Sample.app (POST_create "users" Sample.body) Sample.w0).1
     = inr (VDict [("ok", VBool true); ("id", VStr "000000000000000000000002");
                   ("message", VStr "Document created in users")])
  /\ heap (dispatch Sample.app (POST_create "users" Sample.body) Sample.w0).2 !! 0%nat
     = Some Sample.body.
Proof.
  assert (Hh : db_handle (St := MemStore.t) Sample.app Sample.db0) by reflexivity.
  assert (Hv : admits (verdict_of Sample.app "users" (Some Sample.body)) = true)
    by (vm_compute; reflexivity).
  pose (s' := (MemStore.insert_one "users" (stamped_for_insert Sample.body 0)
                 Sample.store0).2).
  assert (Hd : drv_insert_one "users" (stamped_for_insert Sample.body (ticks Sample.w0))
                 (store Sample.w0) = (inr (VObjectId (oid 2)), s'))
    by (vm_compute; reflexivity).
  split; [exact Hh |]. split; [exact Hv |]. split; [vm_compute; reflexivity |].
  rewrite (create_answers_the_new_id Sample.app Sample.db0 "users" Sample.body
             _ _ Sample.w0 Hh Hv Hd).
  split; [vm_compute; reflexivity | reflexivity].
Defined.

(** The stored sample document is updated, or deleted, with a 200. *)
Lemma update_and_delete_answer_ok_witness :
  db_handle (St := MemStore.t) Sample.app Sample.db0
  /\ ObjectId_of_str "000000000000000000000001" = Some (oid 1)
  /\ (dispatch Sample.app
        (PUT_document "users" "000000000000000000000001" [("status", VStr "inactive")])
        Sample.w0).1
     = inr (ok_message "Document 000000000000000000000001 updated in users")
  /\ (dispatch Sample.app (DELETE_document "users" "000000000000000000000001")
        Sample.w0).1
     = inr (ok_message "Document 000000000000000000000001 deleted from users").
Proof.
  assert (Hh : db_handle (St := MemStore.t) Sample.app Sample.db0) by reflexivity.
  assert (Ho : ObjectId_of_str "000000000000000000000001" = Some (oid 1))
    by (vm_compute; reflexivity).
  split; [exact Hh |]. split; [exact Ho |].
  destruct (update_and_delete_answer_ok Sample.app Sample.db0 "users"
              "000000000000000000000001" (oid 1) [("status", VStr "inactive")]
              Sample.w0 Hh Ho) as [Hput Hdel].
  split.
  - erewrite Hput; [reflexivity | vm_compute; reflexivity | vm_compute; reflexivity
                   | reflexivity].
  - erewrite Hdel; [reflexivity | vm_compute; reflexivity | reflexivity].
Defined.

(** With the server down, the three writes answer 500 with the message
    of the connection error. *)
Lemma failed_write_reports_the_driver_message_witness :
  db_handle (St := unit) Sample.app Sample.db0
  /\ ObjectId_of_str "000000000000000000000001" = Some (oid 1)
  /\ admits (verdict_of Sample.app "users" (Some Sample.body)) = true
  /\ drv_delete_one "users" (VDict [("_id", VObjectId (oid 1))]) tt
     = (inl Unreachable.msg, tt)
  /\ (dispatch Sample.app (DELETE_document "users" "000000000000000000000001")
        Sample.w_down).1
     = inl (HTTPException 500
              "Error deleting document: localhost:27017: [Errno 111] Connection refused").
Proof.
  assert (Hh : db_handle (St := unit) Sample.app Sample.db0) by reflexivity.
  assert (Ho : ObjectId_of_str "000000000000000000000001" = Some (oid 1))
    by (vm_compute; reflexivity).
  assert (Hv : admits (verdict_of Sample.app "users" (Some Sample.body)) = true)
    by (vm_compute; reflexivity).
  split; [exact Hh |]. split; [exact Ho |]. split; [exact Hv |]. split; [reflexivity |].
  destruct (failed_write_reports_the_driver_message Sample.app Sample.db0 "users"
              "000000000000000000000001" (oid 1) Sample.body Unreachable.msg tt
              Sample.w_down Hh Ho Hv) as (_ & _ & Hdel).
  exact (proj1 (Hdel eq_refl)).
Defined.

(** The identifier [zz] is refused before any call. *)
Lemma malformed_identifier_reaches_no_driver_witness :
  ObjectId_of_str "zz" = None
  /\ (dispatch Sample.app (DELETE_document "users" "zz") Sample.w0).2 = Sample.w0
  /\ (dispatch Sample.app (DELETE_document "users" "zz") Sample.w0).1
     = inl (HTTPException 400 "Invalid document ID format")
  /\ ObjectId_of_str "0 123456789abcdef0123456" = None
  /\ (dispatch Sample.app (DELETE_document "users" "0 123456789abcdef0123456")
        Sample.w0)
     = (inl (HTTPException 400 "Invalid document ID format"), Sample.w0).
Proof.
  split; [reflexivity |].
  destruct (malformed_identifier_reaches_no_driver Sample.app "users" "zz" Sample.body
              Sample.w0 eq_refl) as (Hw & _ & Hr).
  destruct (malformed_identifier_reaches_no_driver Sample.app "users"
              "0 123456789abcdef0123456" Sample.body Sample.w0 eq_refl)
    as (Hw' & _ & Hr').
  split; [exact Hw |]. split; [exact (proj1 (Hr Sample.db0 eq_refl)) |].
  split; [reflexivity |].
  rewrite (surjective_pairing (dispatch _ _ _)).
  by rewrite Hw', (proj1 (Hr' Sample.db0 eq_refl)).
Defined.

(** An [email] that is a number is reported by validate and refused by create. *)
Lemma create_refuses_what_validate_reports_witness :
  db_handle (St := MemStore.t) Sample.app_with_schema Sample.db0
  /\ (dispatch Sample.app_with_schema (POST_validate "account" [("email", VInt 3)])
        Sample.w0).1
     = inr (VDict [("ok", VBool true); ("valid", VBool false);
                   ("errors", VList [VDict [("type", VStr "string_type");
                                            ("loc", VList [VStr "email"])]])])
  /\ status (serve Sample.app_with_schema (POST_create "account" [("email", VInt 3)])
               Sample.w0).1 = 400.
Proof.
  assert (Hh : db_handle (St := MemStore.t) Sample.app_with_schema Sample.db0)
    by reflexivity.
  assert (Hv : (dispatch Sample.app_with_schema
                  (POST_validate "account" [("email", VInt 3)]) Sample.w0).1
               = inr (VDict [("ok", VBool true); ("valid", VBool false);
                             ("errors", VList [VDict [("type", VStr "string_type");
                                                      ("loc", VList [VStr "email"])]])]))
    by (vm_compute; reflexivity).
  split; [exact Hh |]. split; [exact Hv |].
  destruct (create_refuses_what_validate_reports Sample.app_with_schema Sample.db0
              "account" "zz" [("email", VInt 3)] Sample.w0 Hh) as [Hiff _].
  apply Hiff. eexists. exact Hv.
Defined.

(** [validate] answers the same on the in-memory store, configured, and
    in front of a server that is down, unconfigured. *)
Lemma schema_handlers_ignore_the_database_witness :
  ignores_database (POST_validate "account" [("email", VInt 3)]) = true
  /\ (dispatch Sample.app_with_schema (POST_validate "account" [("email", VInt 3)])
        Sample.w0).1
     = (dispatch {| environ := ∅; schemas_module := schemas_module Sample.app_with_schema |}
          (POST_validate "account" [("email", VInt 3)]) Sample.w_down).1.
Proof.
  split; [reflexivity |].
  exact (proj1 (schema_handlers_ignore_the_database Sample.app_with_schema
                  {| environ := ∅; schemas_module := schemas_module Sample.app_with_schema |}
                  (POST_validate "account" [("email", VInt 3)])
                  Sample.w0 Sample.w_down eq_refl eq_refl)).
Defined.

(** [DELETE] answers the same when [schemas.py] cannot be imported. *)
Lemma database_handlers_ignore_schemas_witness :
  ignores_schemas (DELETE_document "users" "000000000000000000000001") = true
  /\ dispatch Sample.app (DELETE_document "users" "000000000000000000000001") Sample.w0
     = dispatch {| environ := Sample.env;
                   schemas_module := inl (Exception "invalid syntax (schemas.py, line 3)") |}
         (DELETE_document "users" "000000000000000000000001") Sample.w0.
Proof.
  split; [reflexivity |].
  exact (database_handlers_ignore_schemas Sample.app
           {| environ := Sample.env;
              schemas_module := inl (Exception "invalid syntax (schemas.py, line 3)") |}
           (DELETE_document "users" "000000000000000000000001") Sample.w0
           eq_refl eq_refl).
Defined.

(** Of twelve collections the self-test shows the first ten. *)
Lemma self_test_reports_the_connection_witness :
  db_handle (St := MemStore.t) Sample.app Sample.db0
  /\ exists response,
       (dispatch Sample.app GET_test Fixtures.w12).1 = inr (VDict response)
       /\ Dict.get "collections" response
          = Some (VList (VStr <$> ["c01"; "c02"; "c03"; "c04"; "c05";
                                   "c06"; "c07"; "c08"; "c09"; "c10"])).
Proof.
  assert (Hh : db_handle (St := MemStore.t) Sample.app Sample.db0) by reflexivity.
  split; [exact Hh |].
  destruct (self_test_reports_the_connection Sample.app Fixtures.w12)
    as (response & Hrun & Hnames & _).
  exists response. split; [exact Hrun |].
  exact (proj1 (Hnames Sample.db0 _ Hh eq_refl)).
Defined.

(** The stored sample document: the identifier becomes its string, the
    other three fields stay. *)
Lemma stringify_id_touches_only_id_witness :
  Dict.get "_id" (main.stringify_id Sample.john) = Some (VStr "000000000000000000000001")
  /\ Dict.get "email" (main.stringify_id Sample.john) = Some (VStr "john@example.com")
  /\ (main.stringify_id Sample.john).*1 = ["_id"; "email"; "status"; "updated_at"].
Proof.
  destruct (stringify_id_touches_only_id Sample.john) as (Hkeys & Hother & Hid & _).
  split; [rewrite Hid; vm_compute; reflexivity |].
  split; [by rewrite Hother | by rewrite Hkeys].
Defined.

(** A collection the store does not have is answered 404 after one
    call; a filter that is not JSON is answered 400. *)
Lemma page_status_table_witness :
  status (serve Sample.app (GET_collection "orders" None None None) Sample.w0).1 = 404
  /\ (serve Sample.app (GET_collection "orders" None None None) Sample.w0).2
     = called ListCollectionNames Sample.w0
  /\ json_loads "{status" = Undecodable "Expecting value"
  /\ status (serve Sample.app (GET_collection "users" None None (Some "{status"))
               Sample.w0).1 = 400.
Proof.
  destruct (page_status_table Sample.app "orders" None None None Sample.w0)
    as (_ & H404 & _ & _ & _ & Hworld).
  destruct (page_status_table Sample.app "users" None None (Some "{status") Sample.w0)
    as (_ & _ & H400 & _).
  assert (Hs : status (serve Sample.app (GET_collection "orders" None None None)
                         Sample.w0).1 = 404).
  { apply H404. exists Sample.db0, ["users"].
    split; [reflexivity |]. split; [reflexivity |].
    intros Hin. apply list_elem_of_singleton in Hin. discriminate Hin. }
  split; [exact Hs |]. split; [exact (Hworld (or_introl Hs)) |].
  split; [reflexivity |].
  apply H400. exists Sample.db0, ["users"], "{status", "Expecting value".
  split; [reflexivity |]. split; [reflexivity |].
  split; [by apply list_elem_of_singleton |]. by repeat split.
Defined.

(** [Account(email=...)]: the update carries [email], not the default of
    [status]; the insert carries both. *)
Lemma update_sends_only_the_fields_that_were_set_witness :
  (exists u,
      calls (database.update_document (Some Sample.db0) "users" [] (DataModel Fixtures.ann)
               Sample.w0).2
      = [UpdateOne "users" (VDict []) [("$set", VDict u)]]
      /\ Dict.get "status" u = None
      /\ Dict.get "email" u = Some (VStr "ann@example.com"))
  /\ (exists doc,
      calls (database.create_document (Some Sample.db0) "users" (DataModel Fixtures.ann)
               Sample.w0).2
      = [InsertOne "users" doc]
      /\ Dict.get "status" doc = Some (VStr "new")).
Proof.
  destruct (update_sends_only_the_fields_that_were_set Sample.db0 "users" []
              Fixtures.ann Sample.w0) as [(u & Hu & Hunset & Hset) (doc & Hdoc & Hall)].
  split.
  - exists u. split; [exact Hu |]. split.
    + apply Hunset; [discriminate |].
      intros Hin. apply list_elem_of_singleton in Hin. discriminate Hin.
    + rewrite Hset; [reflexivity | discriminate | by apply list_elem_of_singleton].
  - exists doc. split; [exact Hdoc |]. by rewrite Hall.
Defined.

(** Unconfigured, the self-test answers without a driver call. *)
Lemma self_test_always_answers_witness :
  exists response w',
    dispatch Fixtures.app_unconfigured GET_test Sample.w0 = (inr (VDict response), w')
    /\ response.*1 = test_keys
    /\ Dict.get "database_url" response = Some (VStr "❌ Not Set")
    /\ calls w' = [].
Proof.
  destruct (self_test_always_answers Fixtures.app_unconfigured Sample.w0)
    as (response & w' & Hrun & Hkeys & Hurl & _ & _ & Hcalls & Hiff).
  exists response, w'. split; [exact Hrun |]. split; [exact Hkeys |].
  split; [exact Hurl |].
  destruct Hcalls as [Hc | Hc]; [exact Hc |].
  apply Hiff in Hc as [h Hh]. discriminate Hh.
Defined.
